(** * BrightMinds platform: the topic indicator computor

    A shallow embedding of [backend/topic_indicator_computor.js] together
    with the Topic schema of [models/topic_model.js], and the properties of
    the indicator engine stated against it.  The repository holds a second
    text of the module, with a metrics cache, after
    [backend/generate_question.js]; it is embedded too, as
    [CachingComputor], and the scenarios of the module's test file are run
    on both.  The properties of the metrics snapshot, of the backoff and of
    the run cache are stated of [CachingComputor], the text that has them.

    Numbers.  Counts and page views are exact rationals ([Q]); the two raw
    composites, which go through [Math.log10], are real numbers ([R]); ranks
    are rationals computed from array indices.  Rounding of IEEE doubles is
    not modelled: every arithmetic result is the exact value the double
    approximates.  A value that may be absent ([undefined], [null]) is an
    [option]. *)

From Stdlib Require Import Ascii String ZArith QArith Qabs Qround Qreals Reals Lia Lqa Lra.
From stdpp Require Import base strings list sorting gmap.

#[local] Unset Default Proof Using.
#[local] Open Scope Z_scope.

(** ** JavaScript values used by the module *)

Module Js.

(** [!v] for a number that may be missing: [undefined], [null] and [0]
    are falsy. *)
Definition falsy (v : option Q) : bool :=
  match v with
  | None => true
  | Some q => Qeq_bool q 0
  end.

(** The number a present value stands for; a missing one reads as [0]
    (only used under a guard that excludes it). *)
Definition num (v : option Q) : Q :=
  match v with
  | None => 0%Q
  | Some q => q
  end.

(** [v || 0] *)
Definition orZero (v : option Q) : Q :=
  if falsy v then 0%Q else num v.

(** [!s] for a string that may be missing: the empty string is falsy. *)
Definition falsyStr (s : option string) : bool :=
  match s with
  | None => true
  | Some s => if decide (s = EmptyString) then true else false
  end.

(** The text of a string under a guard that excludes a missing one. *)
Definition str (s : option string) : string :=
  match s with
  | None => EmptyString
  | Some s => s
  end.

(** A string between double quotes, as the messages of the module print
    names. *)
Definition quoted (s : string) : string :=
  String (ascii_of_nat 34) (s +:+ String (ascii_of_nat 34) EmptyString).

(** [===] on numbers. *)
Definition strictEq (a b : R) : bool :=
  if Req_dec_T a b then true else false.

(** [Array.prototype.sort(compareFn)]: the stable ascending arrangement;
    [x] goes before [y] when [compareFn x y <= 0]. *)
Fixpoint insertSorted {A} (compareFn : A -> A -> R) (x : A) (l : list A) : list A :=
  match l with
  | [] => [x]
  | y :: l' =>
      if Rle_dec (compareFn x y) 0 then x :: y :: l'
      else y :: insertSorted compareFn x l'
  end.

Fixpoint sort {A} (compareFn : A -> A -> R) (l : list A) : list A :=
  match l with
  | [] => []
  | x :: l' => insertSorted compareFn x (sort compareFn l')
  end.

(** [Array.prototype.findIndex]: the index of the first element that
    satisfies [p], or [-1]. *)
Fixpoint findIndexFrom {A} (p : A -> bool) (i : Z) (l : list A) : Z :=
  match l with
  | [] => -1
  | x :: l' => if p x then i else findIndexFrom p (i + 1) l'
  end.

Definition findIndex {A} (p : A -> bool) (l : list A) : Z :=
  findIndexFrom p 0 l.

(** [Array.prototype.findLastIndex]: the array is visited from its last
    element down to its first; the index of the first hit, or [-1]. *)
Definition findLastIndex {A} (p : A -> bool) (l : list A) : Z :=
  let k := findIndex p (rev l) in
  if k =? -1 then -1 else Z.of_nat (length l) - 1 - k.

(** [Number(x.toFixed(2))]: the nearest multiple of 1/100, a tie going
    away from zero. *)
Definition toFixed2 (x : Q) : Q :=
  let n := Qfloor (Qabs x * 100 + (1 # 2)) in
  if Qle_bool 0 x then (n # 100)%Q else (- n # 100)%Q.

End Js.

(** ** Pure helpers of the module *)

(** [INDICATOR_WEIGHTS]; the field [impact.citations] of the source is
    [impact_citations] here, and likewise for the others. *)
Record Weights := {
  impact_citations : R;
  impact_works : R;
  impact_wikiViews : R;
  activity_works12m : R;
  activity_citations12m : R;
  activity_wikiViews : R
}.

Definition INDICATOR_WEIGHTS : Weights :=
  {| impact_citations := 0.55; impact_works := 0.25; impact_wikiViews := 0.2;
     activity_works12m := 0.45; activity_citations12m := 0.35;
     activity_wikiViews := 0.2 |}%R.

(** [Math.log10] on the positive numbers.  The module applies it to a
    signal plus one; the signals are counts, and [log10] stands for
    [Math.log10] as long as they are not negative.  (Of a negative number
    [Math.log10] is [NaN], which is not modelled: [ln] is [0] there.) *)
Definition log10 (x : R) : R := (ln x / ln 10)%R.

(** [log10p = (value) => Math.log10(value + 1)] *)
Definition log10p (value : Q) : R := log10 (Q2R value + 1).

(** [estimateCitations12m] *)
Definition estimateCitations12m (citedByCount worksCount works12m : option Q) : Q :=
  if Js.falsy worksCount || Js.falsy citedByCount || Js.falsy works12m then 0%Q
  else
    let averageCitationsPerWork := (Js.num citedByCount / Js.num worksCount)%Q in
    (Js.num works12m * averageCitationsPerWork)%Q.

(** [percentileRank]; [strictEq] is [===] on the elements. *)
Definition percentileRank {A} (strictEq : A -> A -> bool)
    (sortedValues : list A) (value : A) : Q :=
  if (length sortedValues =? 0)%nat then 0%Q
  else if (length sortedValues =? 1)%nat then 100%Q
  else
    let firstIndex := Js.findIndex (fun item => strictEq item value) sortedValues in
    let lastIndex := Js.findLastIndex (fun item => strictEq item value) sortedValues in
    let rank := (inject_Z (firstIndex + lastIndex) / 2)%Q in
    (rank / (inject_Z (Z.of_nat (length sortedValues)) - 1) * 100)%Q.

(** ** The Topic document ([topicSchema]) *)

(** Dates are milliseconds since the epoch. *)
Definition Date := Z.

Module Openalex.
Record t := {
  citedByCount : Q;
  worksCount : Q;
  worksLast12Months : Q;
  lastFetchedAt : option Date;
  lastWorksFetchedAt : option Date
}.

Definition with_citedByCount (v : Q) (o : t) : t :=
  {| citedByCount := v; worksCount := worksCount o;
     worksLast12Months := worksLast12Months o; lastFetchedAt := lastFetchedAt o;
     lastWorksFetchedAt := lastWorksFetchedAt o |}.

Definition with_worksCount (v : Q) (o : t) : t :=
  {| citedByCount := citedByCount o; worksCount := v;
     worksLast12Months := worksLast12Months o; lastFetchedAt := lastFetchedAt o;
     lastWorksFetchedAt := lastWorksFetchedAt o |}.

Definition with_worksLast12Months (v : Q) (o : t) : t :=
  {| citedByCount := citedByCount o; worksCount := worksCount o;
     worksLast12Months := v; lastFetchedAt := lastFetchedAt o;
     lastWorksFetchedAt := lastWorksFetchedAt o |}.

Definition with_lastFetchedAt (d : option Date) (o : t) : t :=
  {| citedByCount := citedByCount o; worksCount := worksCount o;
     worksLast12Months := worksLast12Months o; lastFetchedAt := d;
     lastWorksFetchedAt := lastWorksFetchedAt o |}.

Definition with_lastWorksFetchedAt (d : option Date) (o : t) : t :=
  {| citedByCount := citedByCount o; worksCount := worksCount o;
     worksLast12Months := worksLast12Months o; lastFetchedAt := lastFetchedAt o;
     lastWorksFetchedAt := d |}.
End Openalex.

Module Wikipedia.
Record t := {
  title : option string;
  views12Months : Q;
  lastFetchedAt : option Date
}.

Definition with_title (s : option string) (w : t) : t :=
  {| title := s; views12Months := views12Months w; lastFetchedAt := lastFetchedAt w |}.

Definition with_views12Months (v : Q) (w : t) : t :=
  {| title := title w; views12Months := v; lastFetchedAt := lastFetchedAt w |}.

Definition with_lastFetchedAt (d : option Date) (w : t) : t :=
  {| title := title w; views12Months := views12Months w; lastFetchedAt := d |}.
End Wikipedia.

Record Metrics := {
  openalex : Openalex.t;
  wikipedia : Wikipedia.t;
  lastComputedAt : option Date;
  lastError : option string;
  backoffUntil : option Date
}.

(** Assignments to the paths of [metrics]. *)
Definition with_openalex (o : Openalex.t) (m : Metrics) : Metrics :=
  {| openalex := o; wikipedia := wikipedia m; lastComputedAt := lastComputedAt m;
     lastError := lastError m; backoffUntil := backoffUntil m |}.

Definition with_wikipedia (w : Wikipedia.t) (m : Metrics) : Metrics :=
  {| openalex := openalex m; wikipedia := w; lastComputedAt := lastComputedAt m;
     lastError := lastError m; backoffUntil := backoffUntil m |}.

Definition with_lastComputedAt (d : option Date) (m : Metrics) : Metrics :=
  {| openalex := openalex m; wikipedia := wikipedia m; lastComputedAt := d;
     lastError := lastError m; backoffUntil := backoffUntil m |}.

Definition with_lastError (e : option string) (m : Metrics) : Metrics :=
  {| openalex := openalex m; wikipedia := wikipedia m; lastComputedAt := lastComputedAt m;
     lastError := e; backoffUntil := backoffUntil m |}.

Definition with_backoffUntil (d : option Date) (m : Metrics) : Metrics :=
  {| openalex := openalex m; wikipedia := wikipedia m; lastComputedAt := lastComputedAt m;
     lastError := lastError m; backoffUntil := d |}.

Definition ObjectId := N.

Module Topic.
Record t := {
  _id : ObjectId;
  name : string;
  departmentName : string;
  articleCount : Q;
  castCount : Q;
  articleIDs : list ObjectId;
  castIDs : list ObjectId;
  openalexID : option string;
  activity : R;
  impact : R;
  metrics : Metrics
}.

(** The schema's defaults for [metrics]. *)
Definition defaultMetrics : Metrics :=
  {| openalex := {| Openalex.citedByCount := 0; Openalex.worksCount := 0;
                    Openalex.worksLast12Months := 0;
                    Openalex.lastFetchedAt := None;
                    Openalex.lastWorksFetchedAt := None |};
     wikipedia := {| Wikipedia.title := None; Wikipedia.views12Months := 0;
                     Wikipedia.lastFetchedAt := None |};
     lastComputedAt := None; lastError := None; backoffUntil := None |}.

(** A document built from the required fields and [openalexID], every
    other path at its schema default. *)
Definition create (id : ObjectId) (name departmentName : string)
    (openalexID : option string) : t :=
  {| _id := id; name := name; departmentName := departmentName;
     articleCount := 0; castCount := 0; articleIDs := []; castIDs := [];
     openalexID := openalexID; activity := 0%R; impact := 0%R;
     metrics := defaultMetrics |}.

Definition set_metrics (m : Metrics) (topic : t) : t :=
  {| _id := _id topic; name := name topic; departmentName := departmentName topic;
     articleCount := articleCount topic; castCount := castCount topic;
     articleIDs := articleIDs topic; castIDs := castIDs topic;
     openalexID := openalexID topic; activity := activity topic;
     impact := impact topic; metrics := m |}.

(** [topic.impact = i; topic.activity = a] *)
Definition set_scores (i a : R) (topic : t) : t :=
  {| _id := _id topic; name := name topic; departmentName := departmentName topic;
     articleCount := articleCount topic; castCount := castCount topic;
     articleIDs := articleIDs topic; castIDs := castIDs topic;
     openalexID := openalexID topic; activity := a;
     impact := i; metrics := metrics topic |}.
End Topic.

(** ** Strings *)

Module Str.

(** [s.replace(/ /g, '_')] *)
Fixpoint replaceSpaces (s : string) : string :=
  match s with
  | EmptyString => EmptyString
  | String c s' =>
      String (if Ascii.eqb c " "%char then "_"%char else c) (replaceSpaces s')
  end.

Definition hexDigit (n : nat) : ascii :=
  match n with
  | 0 => "0" | 1 => "1" | 2 => "2" | 3 => "3" | 4 => "4" | 5 => "5" | 6 => "6"
  | 7 => "7" | 8 => "8" | 9 => "9" | 10 => "A" | 11 => "B" | 12 => "C"
  | 13 => "D" | 14 => "E" | _ => "F"
  end%char%nat.

(** The characters [encodeURIComponent] leaves alone: letters, digits and
    [- _ . ! ~ * ' ( )]. *)
Definition unreserved (c : ascii) : bool :=
  let n := nat_of_ascii c in
  ((65 <=? n) && (n <=? 90) || (97 <=? n) && (n <=? 122) || (48 <=? n) && (n <=? 57)
   || (n =? 45) || (n =? 95) || (n =? 46) || (n =? 33) || (n =? 126) || (n =? 42)
   || (n =? 39) || (n =? 40) || (n =? 41))%nat.

(** [encodeURIComponent] on a string held as its UTF-8 bytes: every byte
    that is not unreserved becomes [%HH]. *)
Fixpoint encodeURIComponent (s : string) : string :=
  match s with
  | EmptyString => EmptyString
  | String c s' =>
      if unreserved c then String c (encodeURIComponent s')
      else
        let n := nat_of_ascii c in
        String "%" (String (hexDigit (n / 16)) (String (hexDigit (n mod 16))
          (encodeURIComponent s')))
  end.

End Str.

(** ** The runtime: HTTP client, console, store, exceptions *)

Record Error := { message : string }.

(** One [axios.get(url, { params })]. *)
Record Request := { url : string; params : list (string * string) }.

Record SearchHit := { title : option string }.
Record PageviewItem := { views : option Q }.

(** [response.data] for the four endpoints, each path possibly missing. *)
Inductive Data :=
| TopicData (cited_by_count works_count : option Q)
| WorksData (meta_count : option Q)
| SearchData (query_search : option (list SearchHit))
| PageviewsData (items : option (list PageviewItem)).

(** [console.log], [console.warn], [console.error] *)
Inductive Level := console_log | console_warn | console_error.

(** A piece of the text of a console call. *)
Inductive Piece :=
| Text (s : string)
| Count (n : nat)
| Score (r : R).

Record ConsoleEvent := { level : Level; pieces : list Piece }.

(** The value of [getLast12MonthsRange()]: the day one year before the
    current one and the current one, as [YYYY-MM-DD] and as [YYYYMMDD]. *)
Record DateRange := {
  startDate : string;
  endDate : string;
  startCompact : string;
  endCompact : string
}.

(** The environment of a run: configuration, the wall clock (the current
    instant and the date range read from it; the calendar arithmetic of
    [Date] is not modelled), and what the outside world answers.  The HTTP
    answer may depend on the requests made so far. *)
Record Env := {
  isTestEnv : bool;
  clock : DateRange;
  now : Date;
  http : list Request -> Request -> Error + option Data;
  findError : option Error;
  saveError : Topic.t -> option Error
}.

(** What a run changes: the requests issued (oldest first), the console,
    the Topic collection, and the documents written to it (oldest first). *)
Record State := {
  calls : list Request;
  console : list ConsoleEvent;
  collection : list Topic.t;
  writes : list Topic.t
}.

Inductive Completion (A : Type) :=
| Normal (a : A)
| Throw (e : Error).
Arguments Normal {A} a.
Arguments Throw {A} e.

(** The value of a completion that is not abrupt. *)
Definition returned {A} (c : Completion A) : option A :=
  match c with
  | Normal a => Some a
  | Throw _ => None
  end.

Definition M (A : Type) : Type := State -> Completion A * State.

Definition ret {A} (a : A) : M A := fun st => (Normal a, st).

Definition bind {A B} (c : M A) (k : A -> M B) : M B :=
  fun st =>
    match c st with
    | (Normal a, st') => k a st'
    | (Throw e, st') => (Throw e, st')
    end.

Definition throw {A} (e : Error) : M A := fun st => (Throw e, st).

(** [try { body } catch (error) { handler }] *)
Definition try_catch {A} (body : M A) (handler : Error -> M A) : M A :=
  fun st =>
    match body st with
    | (Normal a, st') => (Normal a, st')
    | (Throw e, st') => handler e st'
    end.

Notation "x <- c ;; k" := (bind c (fun x => k))
  (at level 100, c at next level, right associativity).
Notation "c ;;; k" := (bind c (fun _ => k))
  (at level 100, right associativity).

(** [for (const x of l) { body x }] *)
Fixpoint forOf {A} (l : list A) (body : A -> M unit) : M unit :=
  match l with
  | [] => ret tt
  | x :: l' => body x ;;; forOf l' body
  end.

Definition OPENALEX_BASE_URL : string := "https://api.openalex.org".
Definition WIKIPEDIA_SEARCH_URL : string := "https://en.wikipedia.org/w/api.php".
Definition WIKIMEDIA_PAGEVIEWS_BASE_URL : string :=
  "https://wikimedia.org/api/rest_v1/metrics/pageviews/per-article/en.wikipedia/all-access/user".

(** Reading paths of [response.data]; a path that does not exist reads as
    missing. *)
Definition data_cited_by_count (data : option Data) : option Q :=
  match data with Some (TopicData c _) => c | _ => None end.

Definition data_works_count (data : option Data) : option Q :=
  match data with Some (TopicData _ w) => w | _ => None end.

(** [response.data?.meta?.count] *)
Definition data_meta_count (data : option Data) : option Q :=
  match data with Some (WorksData n) => n | _ => None end.

(** [searchResponse.data?.query?.search?.[0]?.title] *)
Definition data_first_title (data : option Data) : option string :=
  match data with
  | Some (SearchData (Some (hit :: _))) => title hit
  | _ => None
  end.

(** [pageviewsResponse.data?.items || []] *)
Definition data_items (data : option Data) : list PageviewItem :=
  match data with Some (PageviewsData (Some l)) => l | _ => [] end.

(** [items.reduce((sum, item) => sum + (item.views || 0), 0)] *)
Definition sumViews (items : list PageviewItem) : Q :=
  fold_left (fun sum item => (sum + Js.orZero (views item))%Q) items 0%Q.

Section Runtime.
Variable env : Env.

(** [await axios.get(url, { params })]: the request is issued, then the
    call returns the payload or throws. *)
Definition axios_get (request : Request) : M (option Data) :=
  fun st =>
    let st' := {| calls := calls st ++ [request]; console := console st;
                  collection := collection st; writes := writes st |} in
    match http env (calls st) request with
    | inl e => (Throw e, st')
    | inr data => (Normal data, st')
    end.

Definition console_call (lvl : Level) (text : list Piece) : M unit :=
  fun st =>
    (Normal tt,
     {| calls := calls st;
        console := console st ++ [{| level := lvl; pieces := text |}];
        collection := collection st; writes := writes st |}).

(** [getLast12MonthsRange()] *)
Definition getLast12MonthsRange : DateRange := clock env.

(** [await Topic.find()] *)
Definition Topic_find : M (list Topic.t) :=
  fun st =>
    match findError env with
    | Some e => (Throw e, st)
    | None => (Normal (collection st), st)
    end.

(** The collection after the document with [topic]'s [_id] has been
    written. *)
Fixpoint store (topic : Topic.t) (docs : list Topic.t) : list Topic.t :=
  match docs with
  | [] => [topic]
  | d :: docs' =>
      if N.eqb (Topic._id d) (Topic._id topic) then topic :: docs'
      else d :: store topic docs'
  end.

(** [await topic.save()] *)
Definition save (topic : Topic.t) : M unit :=
  fun st =>
    match saveError env topic with
    | Some e => (Throw e, st)
    | None =>
        (Normal tt,
         {| calls := calls st; console := console st;
            collection := store topic (collection st);
            writes := writes st ++ [topic] |})
    end.

End Runtime.

(** ** The computor ([backend/topic_indicator_computor.js]) *)

Module Computor.

Record OpenAlexMetrics := { oa_citedByCount : Q; oa_worksCount : Q }.

(** The [metrics] object of the value [computeRawIndicatorsForTopic]
    returns. *)
Record RawMetrics := {
  citedByCount : Q;
  worksCount : Q;
  worksLast12Months : Q;
  wikiViews12Months : Q;
  estimatedCitations12Months : Q
}.

Record RawIndicators := {
  impactRaw : R;
  activityRaw : R;
  metrics : RawMetrics
}.

(** An element of [rawResults]. *)
Module Entry.
Record t := { topic : Topic.t; impactRaw : R; activityRaw : R }.
End Entry.

Section WithEnv.
Variable env : Env.

Definition fetchOpenAlexTopicMetrics (openalexID : option string) : M OpenAlexMetrics :=
  if Js.falsyStr openalexID || isTestEnv env then
    ret {| oa_citedByCount := 0; oa_worksCount := 0 |}
  else
    let openAlexUrl := OPENALEX_BASE_URL +:+ "/topics/" +:+ Js.str openalexID in
    response_data <- axios_get env {| url := openAlexUrl; params := [] |} ;;
    ret {| oa_citedByCount := Js.orZero (data_cited_by_count response_data);
           oa_worksCount := Js.orZero (data_works_count response_data) |}.

Definition fetchOpenAlexWorksCountLast12Months (openalexID : option string)
    (startDate endDate : string) : M Q :=
  if Js.falsyStr openalexID || isTestEnv env then ret 0%Q
  else
    let filter := "topics.id:" +:+ Js.str openalexID +:+ ",from_publication_date:"
                  +:+ startDate +:+ ",to_publication_date:" +:+ endDate in
    response_data <- axios_get env
      {| url := OPENALEX_BASE_URL +:+ "/works";
         params := [("filter", filter); ("per_page", "1")] |} ;;
    ret (Js.orZero (data_meta_count response_data)).

Definition fetchWikipediaViews12Months (topicName startCompact endCompact : string) : M Q :=
  if Js.falsyStr (Some topicName) || isTestEnv env then ret 0%Q
  else
    try_catch
      (searchResponse_data <- axios_get env
         {| url := WIKIPEDIA_SEARCH_URL;
            params := [("action", "query"); ("list", "search"); ("srsearch", topicName);
                       ("srlimit", "1"); ("format", "json")] |} ;;
       let title := data_first_title searchResponse_data in
       if Js.falsyStr title then ret 0%Q
       else
         let encodedTitle := Str.encodeURIComponent (Str.replaceSpaces (Js.str title)) in
         let pageviewsUrl := WIKIMEDIA_PAGEVIEWS_BASE_URL +:+ "/" +:+ encodedTitle
                             +:+ "/daily/" +:+ startCompact +:+ "/" +:+ endCompact in
         pageviewsResponse_data <- axios_get env {| url := pageviewsUrl; params := [] |} ;;
         ret (sumViews (data_items pageviewsResponse_data)))
      (fun error =>
         console_call console_warn
           [Text ("Wikipedia pageviews not available for " +:+ Js.quoted topicName +:+ ": ");
            Text (message error)] ;;;
         ret 0%Q).

(** The three counters start at [0]; a [try] block that throws leaves the
    ones it would have assigned at [0]. *)
Definition computeRawIndicatorsForTopic (topic : Topic.t) : M RawIndicators :=
  let range := getLast12MonthsRange env in
  openAlex <-
    (if negb (Js.falsyStr (Topic.openalexID topic)) then
       totals <-
         try_catch
           (openAlexMetrics <- fetchOpenAlexTopicMetrics (Topic.openalexID topic) ;;
            ret (oa_citedByCount openAlexMetrics, oa_worksCount openAlexMetrics))
           (fun error =>
              console_call console_error
                [Text ("Error fetching OpenAlex metrics for "
                       +:+ Js.quoted (Topic.name topic) +:+ ":");
                 Text (message error)] ;;;
              ret (0%Q, 0%Q)) ;;
       worksLast12Months <-
         try_catch
           (fetchOpenAlexWorksCountLast12Months (Topic.openalexID topic)
              (startDate range) (endDate range))
           (fun error =>
              console_call console_error
                [Text ("Error fetching OpenAlex 12-month works for "
                       +:+ Js.quoted (Topic.name topic) +:+ ":");
                 Text (message error)] ;;;
              ret 0%Q) ;;
       ret (totals, worksLast12Months)
     else
       console_call console_warn
         [Text ("No openalexID for topic " +:+ Js.quoted (Topic.name topic)
                +:+ ". Falling back to Wikipedia only.")] ;;;
       ret ((0%Q, 0%Q), 0%Q)) ;;
  let citedByCount := fst (fst openAlex) in
  let worksCount := snd (fst openAlex) in
  let worksLast12Months := snd openAlex in
  wikiViews12Months <-
    fetchWikipediaViews12Months (Topic.name topic) (startCompact range) (endCompact range) ;;
  let estimatedCitations12Months :=
    estimateCitations12m (Some citedByCount) (Some worksCount) (Some worksLast12Months) in
  let impactRaw :=
    (impact_citations INDICATOR_WEIGHTS * log10p citedByCount
     + impact_works INDICATOR_WEIGHTS * log10p worksCount
     + impact_wikiViews INDICATOR_WEIGHTS * log10p wikiViews12Months)%R in
  let activityRaw :=
    (activity_works12m INDICATOR_WEIGHTS * log10p worksLast12Months
     + activity_citations12m INDICATOR_WEIGHTS * log10p estimatedCitations12Months
     + activity_wikiViews INDICATOR_WEIGHTS * log10p wikiViews12Months)%R in
  ret {| impactRaw := impactRaw;
         activityRaw := activityRaw;
         metrics := {| citedByCount := citedByCount;
                       worksCount := worksCount;
                       worksLast12Months := worksLast12Months;
                       wikiViews12Months := wikiViews12Months;
                       estimatedCitations12Months := estimatedCitations12Months |} |}.

(** [computeImpactForTopic]; the value returned is the updated document,
    or [null]. *)
Definition computeImpactForTopic (topic : Topic.t) : M (option Topic.t) :=
  try_catch
    (raw <- computeRawIndicatorsForTopic topic ;;
     let topic := Topic.set_scores (impactRaw raw) (activityRaw raw) topic in
     save env topic ;;;
     console_call console_log
       [Text ("Updated topic " +:+ Js.quoted (Topic.name topic) +:+ ": impact = ");
        Score (Topic.impact topic); Text ", activity = "; Score (Topic.activity topic)] ;;;
     ret (Some topic))
    (fun error =>
       console_call console_error
         [Text ("Error computing impact for topic " +:+ Js.quoted (Topic.name topic) +:+ ":");
          Text (message error)] ;;;
       ret None).

(** The first loop of [computeImpactForAllTopics]: one element is pushed
    on [rawResults] for each Topic, in order. *)
Fixpoint collectRawResults (topics : list Topic.t) (rawResults : list Entry.t)
    : M (list Entry.t) :=
  match topics with
  | [] => ret rawResults
  | topic :: topics' =>
      rawIndicators <- computeRawIndicatorsForTopic topic ;;
      collectRawResults topics'
        (rawResults ++ [{| Entry.topic := topic;
                           Entry.impactRaw := impactRaw rawIndicators;
                           Entry.activityRaw := activityRaw rawIndicators |}])
  end.

(** The body of the second loop. *)
Definition normalizeAndSave (impactValues activityValues : list R) (entry : Entry.t)
    : M unit :=
  let impactPercentile := percentileRank Js.strictEq impactValues (Entry.impactRaw entry) in
  let activityPercentile :=
    percentileRank Js.strictEq activityValues (Entry.activityRaw entry) in
  let topic :=
    Topic.set_scores (Q2R (Js.toFixed2 impactPercentile))
      (Q2R (Js.toFixed2 activityPercentile)) (Entry.topic entry) in
  save env topic.

Definition computeImpactForAllTopics : M unit :=
  try_catch
    (topics <- Topic_find env ;;
     console_call console_log
       [Text "Found "; Count (length topics); Text " topic(s) for impact update."] ;;;
     rawResults <- collectRawResults topics [] ;;
     let impactValues :=
       Js.sort (fun a b => (a - b)%R) (map Entry.impactRaw rawResults) in
     let activityValues :=
       Js.sort (fun a b => (a - b)%R) (map Entry.activityRaw rawResults) in
     forOf rawResults (normalizeAndSave impactValues activityValues) ;;;
     console_call console_log [Text "Completed updating impact for all topics."])
    (fun error =>
       console_call console_error
         [Text "Error computing impact for all topics:"; Text (message error)]).

End WithEnv.
End Computor.

(** ** The computor with the metrics cache

    The text of [topic_indicator_computor.js] that follows
    [backend/generate_question.js]: the same module with per-source
    freshness, a per-Topic backoff and a run cache. *)

Module CachingComputor.

(** [CACHE_TTL_MS] *)
Definition CACHE_TTL_MS_openalexAllTime : Z := 30 * 24 * 60 * 60 * 1000.
Definition CACHE_TTL_MS_openalexWorks12m : Z := 7 * 24 * 60 * 60 * 1000.
Definition CACHE_TTL_MS_wikipediaViews : Z := 7 * 24 * 60 * 60 * 1000.

Definition BACKOFF_MS : Z := 24 * 60 * 60 * 1000.

Record OpenAlexMetrics := { oa_citedByCount : Q; oa_worksCount : Q }.

(** The four [Map]s of [createRunCache()]. *)
Module RunCache.
Record t := {
  openalex : gmap string OpenAlexMetrics;
  openalexWorks12m : gmap string Q;
  wikiTitle : gmap string (option string);
  wikiViews : gmap string Q
}.
End RunCache.

Definition createRunCache : RunCache.t :=
  {| RunCache.openalex := ∅; RunCache.openalexWorks12m := ∅;
     RunCache.wikiTitle := ∅; RunCache.wikiViews := ∅ |}.

(** A document of the schema always carries [metrics], [metrics.openalex]
    and [metrics.wikipedia]. *)
Definition ensureTopicMetrics (topic : Topic.t) : Metrics := Topic.metrics topic.

Definition isFresh (lastFetchedAt : option Date) (ttlMs : Z) (now : Date) : bool :=
  match lastFetchedAt with
  | None => false
  | Some fetchedAt => now - fetchedAt <? ttlMs
  end.

Definition setBackoff (metrics : Metrics) (error : string) (now : Date) : Metrics :=
  with_backoffUntil (Some (now + BACKOFF_MS)) (with_lastError (Some error) metrics).

Record RawMetrics := {
  citedByCount : Q;
  worksCount : Q;
  worksLast12Months : Q;
  wikiViews12Months : Q;
  estimatedCitations12Months : Q;
  backoffActive : bool
}.

Record RawIndicators := {
  impactRaw : R;
  activityRaw : R;
  metrics : RawMetrics
}.

(** The variables [computeRawIndicatorsForTopic] assigns, with the two
    objects it mutates: the Topic's [metrics] and the run cache. *)
Module Vars.
Record t := {
  metrics : Metrics;
  runCache : RunCache.t;
  citedByCount : Q;
  worksCount : Q;
  worksLast12Months : Q;
  wikiViews12Months : Q;
  wikiTitle : option string
}.

Definition with_metrics (m : Metrics) (v : t) : t :=
  {| metrics := m; runCache := runCache v; citedByCount := citedByCount v;
     worksCount := worksCount v; worksLast12Months := worksLast12Months v;
     wikiViews12Months := wikiViews12Months v; wikiTitle := wikiTitle v |}.

Definition with_runCache (c : RunCache.t) (v : t) : t :=
  {| metrics := metrics v; runCache := c; citedByCount := citedByCount v;
     worksCount := worksCount v; worksLast12Months := worksLast12Months v;
     wikiViews12Months := wikiViews12Months v; wikiTitle := wikiTitle v |}.

Definition with_totals (c w : Q) (v : t) : t :=
  {| metrics := metrics v; runCache := runCache v; citedByCount := c;
     worksCount := w; worksLast12Months := worksLast12Months v;
     wikiViews12Months := wikiViews12Months v; wikiTitle := wikiTitle v |}.

Definition with_worksLast12Months (n : Q) (v : t) : t :=
  {| metrics := metrics v; runCache := runCache v; citedByCount := citedByCount v;
     worksCount := worksCount v; worksLast12Months := n;
     wikiViews12Months := wikiViews12Months v; wikiTitle := wikiTitle v |}.

Definition with_wikiViews12Months (n : Q) (v : t) : t :=
  {| metrics := metrics v; runCache := runCache v; citedByCount := citedByCount v;
     worksCount := worksCount v; worksLast12Months := worksLast12Months v;
     wikiViews12Months := n; wikiTitle := wikiTitle v |}.

Definition with_wikiTitle (s : option string) (v : t) : t :=
  {| metrics := metrics v; runCache := runCache v; citedByCount := citedByCount v;
     worksCount := worksCount v; worksLast12Months := worksLast12Months v;
     wikiViews12Months := wikiViews12Months v; wikiTitle := s |}.
End Vars.

Module Entry.
Record t := { topic : Topic.t; impactRaw : R; activityRaw : R }.
End Entry.

Section WithEnv.
Variable env : Env.

Definition fetchOpenAlexTopicMetrics (openalexID : string) : M OpenAlexMetrics :=
  let openAlexUrl := OPENALEX_BASE_URL +:+ "/topics/" +:+ openalexID in
  response_data <- axios_get env {| url := openAlexUrl; params := [] |} ;;
  ret {| oa_citedByCount := Js.orZero (data_cited_by_count response_data);
         oa_worksCount := Js.orZero (data_works_count response_data) |}.

Definition fetchOpenAlexWorksCountLast12Months (openalexID startDate endDate : string)
    : M Q :=
  let filter := "topics.id:" +:+ openalexID +:+ ",from_publication_date:"
                +:+ startDate +:+ ",to_publication_date:" +:+ endDate in
  response_data <- axios_get env
    {| url := OPENALEX_BASE_URL +:+ "/works";
       params := [("filter", filter); ("per_page", "1")] |} ;;
  ret (Js.orZero (data_meta_count response_data)).

(** [... ?.title || null] *)
Definition fetchWikipediaTitle (topicName : string) : M (option string) :=
  searchResponse_data <- axios_get env
    {| url := WIKIPEDIA_SEARCH_URL;
       params := [("action", "query"); ("list", "search"); ("srsearch", topicName);
                  ("srlimit", "1"); ("format", "json")] |} ;;
  let title := data_first_title searchResponse_data in
  ret (if Js.falsyStr title then None else title).

Definition fetchWikipediaViews12Months (title startCompact endCompact : string) : M Q :=
  let encodedTitle := Str.encodeURIComponent (Str.replaceSpaces title) in
  let pageviewsUrl := WIKIMEDIA_PAGEVIEWS_BASE_URL +:+ "/" +:+ encodedTitle
                      +:+ "/daily/" +:+ startCompact +:+ "/" +:+ endCompact in
  pageviewsResponse_data <- axios_get env {| url := pageviewsUrl; params := [] |} ;;
  ret (sumViews (data_items pageviewsResponse_data)).

(** The cumulative totals: run cache, then freshness, then the provider. *)
Definition resolveTotals (topic : Topic.t) (now : Date) (v : Vars.t) : M Vars.t :=
  let metrics := Vars.metrics v in
  let runCache := Vars.runCache v in
  let openalexCacheKey := Js.str (Topic.openalexID topic) in
  match RunCache.openalex runCache !! openalexCacheKey with
  | Some openalexCached =>
      ret (Vars.with_totals (oa_citedByCount openalexCached)
             (oa_worksCount openalexCached) v)
  | None =>
      if isFresh (Openalex.lastFetchedAt (openalex metrics))
           CACHE_TTL_MS_openalexAllTime now
      then
        ret (Vars.with_totals
               (Js.orZero (Some (Openalex.citedByCount (openalex metrics))))
               (Js.orZero (Some (Openalex.worksCount (openalex metrics)))) v)
      else
        try_catch
          (openAlexMetrics <- fetchOpenAlexTopicMetrics (Js.str (Topic.openalexID topic)) ;;
           let citedByCount := oa_citedByCount openAlexMetrics in
           let worksCount := oa_worksCount openAlexMetrics in
           let metrics :=
             with_lastError None
               (with_openalex
                  (Openalex.with_lastFetchedAt (Some now)
                     (Openalex.with_worksCount worksCount
                        (Openalex.with_citedByCount citedByCount (openalex metrics))))
                  metrics) in
           let runCache :=
             {| RunCache.openalex :=
                  <[openalexCacheKey := openAlexMetrics]> (RunCache.openalex runCache);
                RunCache.openalexWorks12m := RunCache.openalexWorks12m runCache;
                RunCache.wikiTitle := RunCache.wikiTitle runCache;
                RunCache.wikiViews := RunCache.wikiViews runCache |} in
           ret (Vars.with_runCache runCache
                  (Vars.with_metrics metrics
                     (Vars.with_totals citedByCount worksCount v))))
          (fun error =>
             console_call console_error
               [Text ("Error fetching OpenAlex metrics for "
                      +:+ Js.quoted (Topic.name topic) +:+ ":");
                Text (message error)] ;;;
             ret (Vars.with_metrics
                    (setBackoff metrics ("openalex: " +:+ message error) now) v))
  end.

(** The trailing-12-months works count. *)
Definition resolveWorks12m (topic : Topic.t) (range : DateRange) (now : Date)
    (v : Vars.t) : M Vars.t :=
  let metrics := Vars.metrics v in
  let runCache := Vars.runCache v in
  let worksCacheKey := Js.str (Topic.openalexID topic) +:+ ":" +:+ startDate range
                       +:+ ":" +:+ endDate range in
  match RunCache.openalexWorks12m runCache !! worksCacheKey with
  | Some worksCached => ret (Vars.with_worksLast12Months worksCached v)
  | None =>
      if isFresh (Openalex.lastWorksFetchedAt (openalex metrics))
           CACHE_TTL_MS_openalexWorks12m now
      then
        ret (Vars.with_worksLast12Months
               (Js.orZero (Some (Openalex.worksLast12Months (openalex metrics)))) v)
      else
        try_catch
          (worksLast12Months <-
             fetchOpenAlexWorksCountLast12Months (Js.str (Topic.openalexID topic))
               (startDate range) (endDate range) ;;
           let metrics :=
             with_lastError None
               (with_openalex
                  (Openalex.with_lastWorksFetchedAt (Some now)
                     (Openalex.with_worksLast12Months worksLast12Months (openalex metrics)))
                  metrics) in
           let runCache :=
             {| RunCache.openalex := RunCache.openalex runCache;
                RunCache.openalexWorks12m :=
                  <[worksCacheKey := worksLast12Months]> (RunCache.openalexWorks12m runCache);
                RunCache.wikiTitle := RunCache.wikiTitle runCache;
                RunCache.wikiViews := RunCache.wikiViews runCache |} in
           ret (Vars.with_runCache runCache
                  (Vars.with_metrics metrics
                     (Vars.with_worksLast12Months worksLast12Months v))))
          (fun error =>
             console_call console_error
               [Text ("Error fetching OpenAlex 12-month works for "
                      +:+ Js.quoted (Topic.name topic) +:+ ":");
                Text (message error)] ;;;
             ret (Vars.with_metrics
                    (setBackoff metrics ("openalex-works: " +:+ message error) now) v))
  end.

(** The page-view title: the cached one, else the run cache, else a
    search unless the page-view timestamp is fresh. *)
Definition resolveTitle (topic : Topic.t) (now : Date) (v : Vars.t) : M Vars.t :=
  let metrics := Vars.metrics v in
  let runCache := Vars.runCache v in
  let v := Vars.with_wikiTitle (Wikipedia.title (wikipedia metrics)) v in
  if Js.falsyStr (Vars.wikiTitle v) then
    let cachedTitle := mjoin (RunCache.wikiTitle runCache !! Topic.name topic) in
    if negb (Js.falsyStr cachedTitle) then ret (Vars.with_wikiTitle cachedTitle v)
    else if negb (isFresh (Wikipedia.lastFetchedAt (wikipedia metrics))
                    CACHE_TTL_MS_wikipediaViews now)
    then
      try_catch
        (wikiTitle <- fetchWikipediaTitle (Topic.name topic) ;;
         let metrics :=
           with_lastError None
             (with_wikipedia (Wikipedia.with_title wikiTitle (wikipedia metrics)) metrics) in
         let runCache :=
           {| RunCache.openalex := RunCache.openalex runCache;
              RunCache.openalexWorks12m := RunCache.openalexWorks12m runCache;
              RunCache.wikiTitle :=
                <[Topic.name topic := wikiTitle]> (RunCache.wikiTitle runCache);
              RunCache.wikiViews := RunCache.wikiViews runCache |} in
         ret (Vars.with_runCache runCache
                (Vars.with_metrics metrics (Vars.with_wikiTitle wikiTitle v))))
        (fun error =>
           console_call console_warn
             [Text ("Wikipedia lookup failed for " +:+ Js.quoted (Topic.name topic)
                    +:+ ": ");
              Text (message error)] ;;;
           ret (Vars.with_metrics
                  (setBackoff metrics ("wikipedia-search: " +:+ message error) now) v))
    else ret v
  else ret v.

(** The page views, once the title is known or known to be missing. *)
Definition resolveViews (range : DateRange) (now : Date) (v : Vars.t) : M Vars.t :=
  let metrics := Vars.metrics v in
  let runCache := Vars.runCache v in
  let wikiTitle := Vars.wikiTitle v in
  let v :=
    if Js.falsyStr wikiTitle
       && isFresh (Wikipedia.lastFetchedAt (wikipedia metrics))
            CACHE_TTL_MS_wikipediaViews now
    then Vars.with_wikiViews12Months
           (Js.orZero (Some (Wikipedia.views12Months (wikipedia metrics)))) v
    else v in
  if negb (Js.falsyStr wikiTitle) then
    match RunCache.wikiViews runCache !! Js.str wikiTitle with
    | Some cachedViews => ret (Vars.with_wikiViews12Months cachedViews v)
    | None =>
        if isFresh (Wikipedia.lastFetchedAt (wikipedia metrics))
             CACHE_TTL_MS_wikipediaViews now
        then
          ret (Vars.with_wikiViews12Months
                 (Js.orZero (Some (Wikipedia.views12Months (wikipedia metrics)))) v)
        else
          try_catch
            (wikiViews12Months <-
               fetchWikipediaViews12Months (Js.str wikiTitle)
                 (startCompact range) (endCompact range) ;;
             let metrics :=
               with_lastError None
                 (with_wikipedia
                    (Wikipedia.with_lastFetchedAt (Some now)
                       (Wikipedia.with_views12Months wikiViews12Months (wikipedia metrics)))
                    metrics) in
             let runCache :=
               {| RunCache.openalex := RunCache.openalex runCache;
                  RunCache.openalexWorks12m := RunCache.openalexWorks12m runCache;
                  RunCache.wikiTitle := RunCache.wikiTitle runCache;
                  RunCache.wikiViews :=
                    <[Js.str wikiTitle := wikiViews12Months]> (RunCache.wikiViews runCache) |} in
             ret (Vars.with_runCache runCache
                    (Vars.with_metrics metrics
                       (Vars.with_wikiViews12Months wikiViews12Months v))))
            (fun error =>
               console_call console_warn
                 [Text ("Wikipedia pageviews not available for "
                        +:+ Js.quoted (Js.str wikiTitle) +:+ ": ");
                  Text (message error)] ;;;
               ret (Vars.with_metrics
                      (setBackoff metrics ("wikipedia-views: " +:+ message error) now) v))
    end
  else
    match Wikipedia.lastFetchedAt (wikipedia metrics) with
    | None =>
        ret (Vars.with_metrics
               (with_wikipedia
                  (Wikipedia.with_views12Months 0
                     (Wikipedia.with_lastFetchedAt (Some now) (wikipedia metrics)))
                  metrics) v)
    | Some _ => ret v
    end.

(** [computeRawIndicatorsForTopic (topic, runCache)]; the value returned
    comes with the Topic and the run cache as the call leaves them. *)
Definition computeRawIndicatorsForTopic (topic : Topic.t) (runCache : RunCache.t)
    : M (RawIndicators * Topic.t * RunCache.t) :=
  let range := getLast12MonthsRange env in
  let now := now env in
  let metrics := ensureTopicMetrics topic in
  let v :=
    {| Vars.metrics := metrics; Vars.runCache := runCache;
       Vars.citedByCount := Js.orZero (Some (Openalex.citedByCount (openalex metrics)));
       Vars.worksCount := Js.orZero (Some (Openalex.worksCount (openalex metrics)));
       Vars.worksLast12Months :=
         Js.orZero (Some (Openalex.worksLast12Months (openalex metrics)));
       Vars.wikiViews12Months :=
         Js.orZero (Some (Wikipedia.views12Months (wikipedia metrics)));
       Vars.wikiTitle := None |} in
  let backoffActive :=
    match backoffUntil metrics with
    | None => false
    | Some until => until >? now
    end in
  v <-
    (if negb (isTestEnv env) && negb backoffActive
        && negb (Js.falsyStr (Topic.openalexID topic))
     then
       v <- resolveTotals topic now v ;;
       resolveWorks12m topic range now v
     else if Js.falsyStr (Topic.openalexID topic) then
       console_call console_warn
         [Text ("No openalexID for topic " +:+ Js.quoted (Topic.name topic)
                +:+ ". Falling back to Wikipedia only.")] ;;;
       ret v
     else ret v) ;;
  v <-
    (if negb (isTestEnv env) && negb backoffActive then
       v <- resolveTitle topic now v ;;
       resolveViews range now v
     else ret v) ;;
  let citedByCount := Vars.citedByCount v in
  let worksCount := Vars.worksCount v in
  let worksLast12Months := Vars.worksLast12Months v in
  let wikiViews12Months := Vars.wikiViews12Months v in
  let estimatedCitations12Months :=
    estimateCitations12m (Some citedByCount) (Some worksCount) (Some worksLast12Months) in
  let impactRaw :=
    (impact_citations INDICATOR_WEIGHTS * log10p citedByCount
     + impact_works INDICATOR_WEIGHTS * log10p worksCount
     + impact_wikiViews INDICATOR_WEIGHTS * log10p wikiViews12Months)%R in
  let activityRaw :=
    (activity_works12m INDICATOR_WEIGHTS * log10p worksLast12Months
     + activity_citations12m INDICATOR_WEIGHTS * log10p estimatedCitations12Months
     + activity_wikiViews INDICATOR_WEIGHTS * log10p wikiViews12Months)%R in
  ret ({| impactRaw := impactRaw;
          activityRaw := activityRaw;
          metrics := {| citedByCount := citedByCount;
                        worksCount := worksCount;
                        worksLast12Months := worksLast12Months;
                        wikiViews12Months := wikiViews12Months;
                        estimatedCitations12Months := estimatedCitations12Months;
                        backoffActive := backoffActive |} |},
       Topic.set_metrics (Vars.metrics v) topic,
       Vars.runCache v).

(** [computeImpactForTopic]: the run cache is a fresh one. *)
Definition computeImpactForTopic (topic : Topic.t) : M (option Topic.t) :=
  try_catch
    (result <- computeRawIndicatorsForTopic topic createRunCache ;;
     let raw := fst (fst result) in
     let topic := snd (fst result) in
     let topic := Topic.set_scores (impactRaw raw) (activityRaw raw) topic in
     let topic :=
       Topic.set_metrics (with_lastComputedAt (Some (now env)) (Topic.metrics topic)) topic in
     save env topic ;;;
     console_call console_log
       [Text ("Updated topic " +:+ Js.quoted (Topic.name topic) +:+ ": impact = ");
        Score (Topic.impact topic); Text ", activity = "; Score (Topic.activity topic)] ;;;
     ret (Some topic))
    (fun error =>
       console_call console_error
         [Text ("Error computing impact for topic " +:+ Js.quoted (Topic.name topic) +:+ ":");
          Text (message error)] ;;;
       ret None).

(** The first loop of [computeImpactForAllTopics]; every call receives
    the one run cache. *)
Fixpoint collectRawResults (topics : list Topic.t) (runCache : RunCache.t)
    (rawResults : list Entry.t) : M (list Entry.t) :=
  match topics with
  | [] => ret rawResults
  | topic :: topics' =>
      result <- computeRawIndicatorsForTopic topic runCache ;;
      let rawIndicators := fst (fst result) in
      let topic := snd (fst result) in
      let runCache := snd result in
      collectRawResults topics' runCache
        (rawResults ++ [{| Entry.topic := topic;
                           Entry.impactRaw := impactRaw rawIndicators;
                           Entry.activityRaw := activityRaw rawIndicators |}])
  end.

Definition normalizeAndSave (impactValues activityValues : list R) (entry : Entry.t)
    : M unit :=
  let impactPercentile := percentileRank Js.strictEq impactValues (Entry.impactRaw entry) in
  let activityPercentile :=
    percentileRank Js.strictEq activityValues (Entry.activityRaw entry) in
  let topic :=
    Topic.set_scores (Q2R (Js.toFixed2 impactPercentile))
      (Q2R (Js.toFixed2 activityPercentile)) (Entry.topic entry) in
  let topic :=
    Topic.set_metrics (with_lastComputedAt (Some (now env)) (Topic.metrics topic)) topic in
  save env topic.

Definition computeImpactForAllTopics : M unit :=
  try_catch
    (topics <- Topic_find env ;;
     console_call console_log
       [Text "Found "; Count (length topics); Text " topic(s) for impact update."] ;;;
     rawResults <- collectRawResults topics createRunCache [] ;;
     let impactValues :=
       Js.sort (fun a b => (a - b)%R) (map Entry.impactRaw rawResults) in
     let activityValues :=
       Js.sort (fun a b => (a - b)%R) (map Entry.activityRaw rawResults) in
     forOf rawResults (normalizeAndSave impactValues activityValues) ;;;
     console_call console_log [Text "Completed updating impact for all topics."])
    (fun error =>
       console_call console_error
         [Text "Error computing impact for all topics:"; Text (message error)]).

End WithEnv.
End CachingComputor.

(** ** Notions used in the statements *)

(** A factor that is zero or missing. *)
Definition zeroOrMissing (v : option Q) : Prop :=
  match v with
  | None => True
  | Some q => (q == 0)%Q
  end.

(** The requests of a Topic. *)

Definition totalsRequest (topic : Topic.t) : Request :=
  {| url := OPENALEX_BASE_URL +:+ "/topics/" +:+ Js.str (Topic.openalexID topic);
     params := [] |}.

Definition worksRequest (range : DateRange) (topic : Topic.t) : Request :=
  {| url := OPENALEX_BASE_URL +:+ "/works";
     params := [("filter", "topics.id:" +:+ Js.str (Topic.openalexID topic)
                   +:+ ",from_publication_date:" +:+ startDate range
                   +:+ ",to_publication_date:" +:+ endDate range);
                ("per_page", "1")] |}.

Definition searchRequest (topic : Topic.t) : Request :=
  {| url := WIKIPEDIA_SEARCH_URL;
     params := [("action", "query"); ("list", "search"); ("srsearch", Topic.name topic);
                ("srlimit", "1"); ("format", "json")] |}.

Definition pageviewsRequest (range : DateRange) (title : string) : Request :=
  {| url := WIKIMEDIA_PAGEVIEWS_BASE_URL +:+ "/"
            +:+ Str.encodeURIComponent (Str.replaceSpaces title)
            +:+ "/daily/" +:+ startCompact range +:+ "/" +:+ endCompact range;
     params := [] |}.

(** The provider refuses a request whatever came before it. *)
Definition refused (env : Env) (request : Request) : Prop :=
  forall history, exists e, http env history request = inl e.

(** ** The second pass of the batch *)

(** The document the second loop saves for an element of [rawResults]. *)
Definition normalized (impactValues activityValues : list R) (entry : Computor.Entry.t)
    : Topic.t :=
  Topic.set_scores
    (Q2R (Js.toFixed2 (percentileRank Js.strictEq impactValues
                         (Computor.Entry.impactRaw entry))))
    (Q2R (Js.toFixed2 (percentileRank Js.strictEq activityValues
                         (Computor.Entry.activityRaw entry))))
    (Computor.Entry.topic entry).

(** The documents in front of the first one whose save fails. *)
Fixpoint savedPrefix (env : Env) (docs : list Topic.t) : list Topic.t :=
  match docs with
  | [] => []
  | doc :: docs' =>
      match saveError env doc with
      | None => doc :: savedPrefix env docs'
      | Some _ => []
      end
  end.

(** The failure of the first save that fails. *)
Fixpoint firstSaveError (env : Env) (docs : list Topic.t) : option Error :=
  match docs with
  | [] => None
  | doc :: docs' =>
      match saveError env doc with
      | None => firstSaveError env docs'
      | Some e => Some e
      end
  end.

(** The line the batch entry point ends on: the failure it caught, or its
    last message. *)
Definition closingLine (failure : option Error) : ConsoleEvent :=
  match failure with
  | Some e =>
      {| level := console_error;
         pieces := [Text "Error computing impact for all topics:"; Text (message e)] |}
  | None =>
      {| level := console_log;
         pieces := [Text "Completed updating impact for all topics."] |}
  end.

(** The collection after a sequence of writes. *)
Definition storeAll (docs : list Topic.t) (collection : list Topic.t) : list Topic.t :=
  fold_left (fun collection doc => store doc collection) docs collection.

(** ** Counting in a batch *)

#[global] Instance Rlt_decision (x y : R) : Decision (x < y)%R := Rlt_dec x y.
#[global] Instance R_eq_decision : EqDecision R := Req_dec_T.

(** The number of raw values of the batch below a value, and equal to it. *)
Definition countBelow (raw : list R) (value : R) : nat :=
  length (filter (fun x => (x < value)%R) raw).

Definition countEqual (raw : list R) (value : R) : nat :=
  length (filter (fun x => x = value) raw).

(** [(a, b) => a - b] *)
Definition ascending (a b : R) : R := (a - b)%R.

(** A count or an index as a rational. *)
Definition Qnat (n : nat) : Q := inject_Z (Z.of_nat n).

(** ** Scenarios

    The fixtures of the module's test file: a clock, an empty run, and the
    two HTTP doubles it installs. *)

#[global] Instance Request_eq_dec : EqDecision Request.
Proof. solve_decision. Defined.

Definition today : DateRange :=
  {| startDate := "2025-11-02"; endDate := "2026-11-02";
     startCompact := "20251102"; endCompact := "20261102" |}.

(** 2026-11-02T00:00:00Z *)
Definition todayMs : Date := 1793577600000.

Definition initialState (docs : list Topic.t) : State :=
  {| calls := []; console := []; collection := docs; writes := [] |}.

(** [axios.get.mockImplementation(() => { throw new Error(text) })] *)
Definition rejectAll (text : string) : list Request -> Request -> Error + option Data :=
  fun _ _ => inl {| message := text |}.

(** A double that answers from a table of requests and rejects the rest. *)
Definition answerFrom (table : list (Request * option Data))
    : list Request -> Request -> Error + option Data :=
  fun _ request =>
    match List.find (fun entry => bool_decide (fst entry = request)) table with
    | Some entry => inr (snd entry)
    | None => inl {| message := "Unhandled axios url: " +:+ url request |}
    end.

Definition development (http : list Request -> Request -> Error + option Data) : Env :=
  {| isTestEnv := false; clock := today; now := todayMs; http := http;
     findError := None; saveError := fun _ => None |}.

Definition getTopic (openalexID : string) : Request :=
  {| url := "https://api.openalex.org/topics/" +:+ openalexID; params := [] |}.

Definition getWorks (openalexID : string) : Request :=
  {| url := "https://api.openalex.org/works";
     params := [("filter", "topics.id:" +:+ openalexID
                   +:+ ",from_publication_date:2025-11-02,to_publication_date:2026-11-02");
                ("per_page", "1")] |}.

Definition getSearch (topicName : string) : Request :=
  {| url := "https://en.wikipedia.org/w/api.php";
     params := [("action", "query"); ("list", "search"); ("srsearch", topicName);
                ("srlimit", "1"); ("format", "json")] |}.

Definition getPageviews (encodedTitle : string) : Request :=
  {| url := "https://wikimedia.org/api/rest_v1/metrics/pageviews/per-article/en.wikipedia/all-access/user/"
            +:+ encodedTitle +:+ "/daily/20251102/20261102";
     params := [] |}.

(** The Topic of the test [uses cached metrics when fresh and skips
    external calls]: every source fetched at the current instant. *)
Definition cachedTopic : Topic.t :=
  Topic.set_metrics
    {| openalex := {| Openalex.citedByCount := 500; Openalex.worksCount := 50;
                      Openalex.worksLast12Months := 5;
                      Openalex.lastFetchedAt := Some todayMs;
                      Openalex.lastWorksFetchedAt := Some todayMs |};
       wikipedia := {| Wikipedia.title := Some "Cached Topic";
                       Wikipedia.views12Months := 2500;
                       Wikipedia.lastFetchedAt := Some todayMs |};
       lastComputedAt := None; lastError := None; backoffUntil := None |}
    (Topic.create 1%N "Cached Topic" "Physics" (Some "T-CACHED")).

Definition cachedEnv : Env := development (rejectAll "External call should not happen").

(** The Topic and the answers of the test [uses OpenAlex and Wikipedia data
    to compute raw scores]. *)
Definition quantumTopic : Topic.t :=
  Topic.create 1%N "Quantum Mechanics" "Physics" (Some "T123").

Definition quantumEnv : Env :=
  development
    (answerFrom
       [(getTopic "T123", Some (TopicData (Some 1000%Q) (Some 100%Q)));
        (getWorks "T123", Some (WorksData (Some 20%Q)));
        (getSearch "Quantum Mechanics",
         Some (SearchData (Some [{| title := Some "Quantum Mechanics" |}])));
        (getPageviews "Quantum_Mechanics",
         Some (PageviewsData (Some [{| views := Some 1500%Q |}])))]).

(** The Topic and the answers of the test [without openalexID uses
    Wikipedia only and handles no results]. *)
Definition obscureTopic : Topic.t := Topic.create 1%N "Obscure Topic" "Physics" None.

Definition obscureEnv : Env :=
  development (answerFrom [(getSearch "Obscure Topic", Some (SearchData (Some [])))]).

(** A Topic whose provider answers every request with an error. *)
Definition throttledTopic : Topic.t :=
  Topic.create 7%N "Topic A" "Physics" (Some "T-A").

Definition throttledEnv : Env :=
  development (rejectAll "Request failed with status code 429").

(** Two Topics that share one external key and resolve to one title. *)
Definition sharedAlpha : Topic.t := Topic.create 1%N "Alpha" "Physics" (Some "T-S").
Definition sharedBeta : Topic.t := Topic.create 2%N "Beta" "Physics" (Some "T-S").

Definition sharedEnv : Env :=
  development
    (answerFrom
       [(getTopic "T-S", Some (TopicData (Some 100%Q) (Some 50%Q)));
        (getWorks "T-S", Some (WorksData (Some 10%Q)));
        (getSearch "Alpha", Some (SearchData (Some [{| title := Some "Shared Title" |}])));
        (getSearch "Beta", Some (SearchData (Some [{| title := Some "Shared Title" |}])));
        (getPageviews "Shared_Title",
         Some (PageviewsData (Some [{| views := Some 1000%Q |}])))]).

(** A store that cannot be read. *)
Definition unreadableEnv : Env :=
  {| isTestEnv := false; clock := today; now := todayMs;
     http := rejectAll "Request failed with status code 429";
     findError := Some {| message := "connection refused" |};
     saveError := fun _ => None |}.

(** A store that refuses to write the document [2]. *)
Definition refusingEnv : Env :=
  {| isTestEnv := false; clock := today; now := todayMs;
     http := rejectAll "Request failed with status code 429";
     findError := None;
     saveError := fun doc =>
       if N.eqb (Topic._id doc) 2 then Some {| message := "write conflict" |} else None |}.

Definition threeTopics : list Topic.t :=
  [Topic.create 1%N "Topic A" "Physics" (Some "T-A");
   Topic.create 2%N "Topic B" "Physics" (Some "T-B");
   Topic.create 3%N "Topic C" "Physics" (Some "T-C")].

(** ** Further notions used in the statements *)

(** A score as the batch writes it: a whole number of hundredths between
    [0] and [100]. *)
Definition isPercentile (score : R) : Prop :=
  exists hundredths : Z, 0 <= hundredths <= 10000 /\ score = (IZR hundredths / 100)%R.

(** The rank of a value within a batch of raw values, as the batch entry
    point computes it. *)
Definition rankIn (raw : list R) (value : R) : Q :=
  percentileRank Js.strictEq (Js.sort (fun a b => (a - b)%R) raw) value.

(** The number of raw values of the batch above a value. *)
Definition countAbove (raw : list R) (value : R) : nat :=
  length (filter (fun x => (value < x)%R) raw).

(** The sum of a list of rationals. *)
Definition sumQ (l : list Q) : Q := foldr Qplus 0%Q l.


(** The test environment: [NODE_ENV] is [test]. *)
Definition offlineEnv : Env :=
  {| isTestEnv := true; clock := today; now := todayMs;
     http := rejectAll "no network"; findError := None;
     saveError := fun _ => None |}.

(** The counts of a payload are not negative. *)
Definition countsNonNegative (data : option Data) : Prop :=
  (0 <= Js.orZero (data_cited_by_count data))%Q /\
  (0 <= Js.orZero (data_works_count data))%Q /\
  (0 <= Js.orZero (data_meta_count data))%Q /\
  Forall (fun item => (0 <= Js.orZero (views item))%Q) (data_items data).

(** The providers answer with counts that are not negative. *)
Definition providesCounts (env : Env) : Prop :=
  forall history request data,
    http env history request = inr data -> countsNonNegative data.
(** The bytes a percent-encoded text stands for; [None] when a [%] is not
    followed by two of the digits [0-9A-F]. *)
Definition hexValue (c : ascii) : option nat :=
  let n := nat_of_ascii c in
  if ((48 <=? n) && (n <=? 57))%nat then Some (n - 48)%nat
  else if ((65 <=? n) && (n <=? 70))%nat then Some (n - 55)%nat
  else None.

Fixpoint percentDecode (s : string) : option string :=
  match s with
  | EmptyString => Some EmptyString
  | String c s' =>
      if Ascii.eqb c "%"%char then
        match s' with
        | String h (String l s'') =>
            match hexValue h, hexValue l, percentDecode s'' with
            | Some hi, Some lo, Some rest =>
                Some (String (ascii_of_nat (16 * hi + lo)) rest)
            | _, _, _ => None
            end
        | _ => None
        end
      else
        match percentDecode s' with
        | Some rest => Some (String c rest)
        | None => None
        end
  end.

(** Every character of a text satisfies a test. *)
Fixpoint allChars (p : ascii -> bool) (s : string) : bool :=
  match s with
  | EmptyString => true
  | String c s' => p c && allChars p s'
  end.

(** The characters of a percent-encoded path segment. *)
Definition segmentChar (c : ascii) : bool :=
  Str.unreserved c || Ascii.eqb c "%"%char.

(** * OpenAI alerts ([backend/openai_alerts.js])

    The text of the module follows [backend/topic_indicator_computor.js].
    Its three module variables ([transporter], [lastAlertAt],
    [lastAlertKey]) are the first three fields of the state; the console,
    the mails handed to the transport, the clock readings taken and the
    transports created are recorded beside them. *)

From Stdlib Require Import DecimalString.

Module Alerts.

(** [a || b] on strings that may be missing. *)
Definition orStr (a b : option string) : option string :=
  if Js.falsyStr a then b else a.

(** [a ?? b] *)
Definition orElse {A} (a b : option A) : option A :=
  match a with
  | Some _ => a
  | None => b
  end.

(** [a?.member] *)
Definition member {A B} (a : option A) (read : A -> option B) : option B :=
  match a with
  | Some v => read v
  | None => None
  end.

(** The variables of [process.env] the module reads.  The throttle is held
    as the number [Number(...)] makes of it, none when the variable is
    unset or its text is not a number. *)
Record ProcessEnv := {
  env_OPENAI_ALERT_EMAIL_TO : option string;
  env_ALERT_EMAIL_TO : option string;
  env_OPENAI_ALERT_EMAIL_FROM : option string;
  env_ALERT_EMAIL_FROM : option string;
  env_OPENAI_ALERT_EMAIL_PWD : option string;
  env_ALERT_EMAIL_PWD : option string;
  env_EMAIL_PWD : option string;
  env_OPENAI_ALERT_THROTTLE_MS : option Q;
  env_NODE_ENV : option string;
  env_OPENAI_API_KEY : option string
}.

(** The [error] member of an API error or of a response body. *)
Record ErrorBody := {
  body_code : option string;
  body_type : option string;
  body_message : option string
}.

(** A thrown value, with the paths the module reads: [status], [code],
    [type], [message], [response.status], [response.data.error], [error].
    A code that is a number is held as the text [String] makes of it. *)
Record ApiError := {
  status : option Z;
  code : option string;
  type : option string;
  message : option string;
  response_status : option Z;
  response_data_error : option ErrorBody;
  error : option ErrorBody
}.

(** An [Error] that carries a message and nothing else. *)
Definition plainError (text : string) : ApiError :=
  {| status := None; code := None; type := None; message := Some text;
     response_status := None; response_data_error := None; error := None |}.

Module Info.
Record t := {
  status : option Z;
  code : option string;
  type : option string;
  message : string
}.
End Info.

Record Mail := {
  from : string;
  to : string;
  subject : string;
  text : string
}.

(** The options [nodemailer.createTransport] was given. *)
Record Transporter := {
  service : string;
  auth_user : string;
  auth_pass : string
}.

(** An argument of a console call. *)
Inductive Printed :=
| PText (s : string)
| PList (l : list (option string))
| PError (e : option ApiError)
| PUndefined
| PNull.

Record ConsoleCall := { level : Level; args : list Printed }.

(** The outside world: the environment variables, the successive readings
    of the clock ([Date.now()], [new Date()]), the ISO text of an instant
    (the calendar is not modelled), and the answer of the mail transport,
    which may depend on the mails handed over so far. *)
Record Env := {
  processEnv : ProcessEnv;
  clock : nat -> Z;
  toISOString : Z -> string;
  sendMail : list Mail -> Mail -> option ApiError
}.

Record State := {
  transporter : option Transporter;
  lastAlertAt : Z;
  lastAlertKey : string;
  console : list ConsoleCall;
  outbox : list Mail;
  readings : nat;
  created : nat
}.

(** The state when the module has been loaded. *)
Definition loaded : State :=
  {| transporter := None; lastAlertAt := 0; lastAlertKey := EmptyString;
     console := []; outbox := []; readings := 0; created := 0 |}.

Definition DEFAULT_THROTTLE_MS : Q := inject_Z (60 * 60 * 1000).

(** [String.prototype.toLowerCase] on the UTF-8 bytes of a string: the
    ASCII capitals, and the two other characters whose lower-case form has
    an ASCII letter, the Kelvin sign (bytes E2 84 AA, lower case [k]) and
    the dotted capital I (bytes C4 B0, lower case [i] followed by the
    combining dot, bytes CC 87).  The bytes of every other character are
    left as they are: its lower-case form has no ASCII byte, and the module
    only searches the result for ASCII text. *)
Definition lowerAscii (c : ascii) : ascii :=
  let n := nat_of_ascii c in
  if ((65 <=? n) && (n <=? 90))%nat then ascii_of_nat (n + 32) else c.

Fixpoint toLowerCase (s : string) : string :=
  match s with
  | EmptyString => EmptyString
  | String a s1 =>
      match s1 with
      | String b s2 =>
          if Ascii.eqb a (ascii_of_nat 196) && Ascii.eqb b (ascii_of_nat 176) then
            String "i" (String (ascii_of_nat 204) (String (ascii_of_nat 135)
              (toLowerCase s2)))
          else
            match s2 with
            | String c s3 =>
                if Ascii.eqb a (ascii_of_nat 226) && Ascii.eqb b (ascii_of_nat 132)
                   && Ascii.eqb c (ascii_of_nat 170)
                then String "k" (toLowerCase s3)
                else String (lowerAscii a) (toLowerCase s1)
            | EmptyString => String (lowerAscii a) (toLowerCase s1)
            end
      | EmptyString => String (lowerAscii a) EmptyString
      end
  end.

(** [s.includes(p)] *)
Fixpoint includes (s p : string) : bool :=
  String.prefix p s ||
  match s with
  | EmptyString => false
  | String _ s' => includes s' p
  end.

(** A number in a template literal. *)
Definition showNumber (n : Z) : string := NilZero.string_of_int (Z.to_int n).

Definition newline : string := String (ascii_of_nat 10) EmptyString.

(** [normalizeErrorInfo] *)
Definition normalizeErrorInfo (error_ : option ApiError) : Info.t :=
  let responseError := member error_ response_data_error in
  let inner := member error_ error in
  {| Info.status := orElse (member error_ status) (member error_ response_status);
     Info.code :=
       orElse (member error_ code)
         (orElse (member responseError body_code) (member inner body_code));
     Info.type :=
       orElse (member error_ type)
         (orElse (member responseError body_type) (member inner body_type));
     Info.message :=
       Js.str (orStr (member error_ message)
                 (orStr (member responseError body_message)
                    (orStr (member inner body_message) (Some EmptyString)))) |}.

(** [isAuthError] *)
Definition isAuthError (info : Info.t) : bool :=
  let message := toLowerCase (Info.message info) in
  if bool_decide (Info.status info = Some 401) || bool_decide (Info.status info = Some 403)
  then true
  else if bool_decide (Info.type info = Some "authentication_error"%string) then true
  else if negb (Js.falsyStr (Info.code info)) &&
          (let code := Js.str (Info.code info) in
           String.eqb code "invalid_api_key" || String.eqb code "authentication_error" ||
           String.eqb code "invalid_authentication" || String.eqb code "account_deactivated")
  then true
  else if includes message "invalid api key" || includes message "incorrect api key"
  then true
  else if includes message "expired" &&
          (includes message "token" || includes message "api key")
  then true
  else false.

Section Module_.
Variable env : Env.

Definition ALERT_EMAIL_TO : option string :=
  orStr (env_OPENAI_ALERT_EMAIL_TO (processEnv env)) (env_ALERT_EMAIL_TO (processEnv env)).

Definition ALERT_EMAIL_FROM : option string :=
  orStr (env_OPENAI_ALERT_EMAIL_FROM (processEnv env))
    (orStr (env_ALERT_EMAIL_FROM (processEnv env))
       (Some "clement.carnus@brightmindsresearch.com"%string)).

Definition ALERT_EMAIL_PWD : option string :=
  orStr (env_OPENAI_ALERT_EMAIL_PWD (processEnv env))
    (orStr (env_ALERT_EMAIL_PWD (processEnv env)) (env_EMAIL_PWD (processEnv env))).

Definition ALERT_THROTTLE_MS : Q :=
  if Js.falsy (env_OPENAI_ALERT_THROTTLE_MS (processEnv env)) then DEFAULT_THROTTLE_MS
  else Js.num (env_OPENAI_ALERT_THROTTLE_MS (processEnv env)).

(** [Date.now()], [new Date()]: the next reading of the clock. *)
Definition Date_now (st : State) : Z * State :=
  (clock env (readings st),
   {| transporter := transporter st; lastAlertAt := lastAlertAt st;
      lastAlertKey := lastAlertKey st; console := console st; outbox := outbox st;
      readings := S (readings st); created := created st |}).

Definition console_call (lvl : Level) (printed : list Printed) (st : State) : State :=
  {| transporter := transporter st; lastAlertAt := lastAlertAt st;
     lastAlertKey := lastAlertKey st;
     console := console st ++ [{| level := lvl; args := printed |}];
     outbox := outbox st; readings := readings st; created := created st |}.

(** [shouldAlert] *)
Definition shouldAlert (key : string) (st : State) : bool * State :=
  let '(now, st) := Date_now st in
  if String.eqb (lastAlertKey st) key &&
     negb (Qle_bool ALERT_THROTTLE_MS (inject_Z (now - lastAlertAt st)))
  then (false, st)
  else
    (true,
     {| transporter := transporter st; lastAlertAt := now; lastAlertKey := key;
        console := console st; outbox := outbox st; readings := readings st;
        created := created st |}).

(** [getTransporter] *)
Definition getTransporter (st : State) : option Transporter * State :=
  if Js.falsyStr ALERT_EMAIL_TO || Js.falsyStr ALERT_EMAIL_PWD || Js.falsyStr ALERT_EMAIL_FROM
  then (None, st)
  else
    match transporter st with
    | Some mailer => (Some mailer, st)
    | None =>
        let mailer := {| service := "Gmail"; auth_user := Js.str ALERT_EMAIL_FROM;
                         auth_pass := Js.str ALERT_EMAIL_PWD |} in
        (Some mailer,
         {| transporter := Some mailer; lastAlertAt := lastAlertAt st;
            lastAlertKey := lastAlertKey st; console := console st;
            outbox := outbox st; readings := readings st;
            created := S (created st) |})
    end.

(** [sendAlertEmail]: the value returned, or the value thrown by
    [sendMail]. *)
Definition sendAlertEmail (subject_ text_ : string) (st : State)
  : (ApiError + bool) * State :=
  let '(mailer, st) := getTransporter st in
  match mailer with
  | None => (inr false, st)
  | Some _ =>
      let mail := {| from := Js.str ALERT_EMAIL_FROM; to := Js.str ALERT_EMAIL_TO;
                     subject := subject_; text := text_ |} in
      let st' := {| transporter := transporter st; lastAlertAt := lastAlertAt st;
                    lastAlertKey := lastAlertKey st; console := console st;
                    outbox := outbox st ++ [mail]; readings := readings st;
                    created := created st |} in
      match sendMail env (outbox st) mail with
      | Some e => (inl e, st')
      | None => (inr true, st')
      end
  end.

(** [buildAlertText]; [context] is the [operation] member of the context,
    [info] is absent when the caller passes two arguments. *)
Definition buildAlertText (title_ : string) (context : option string)
    (info : option Info.t) (st : State) : string * State :=
  let '(date, st) := Date_now st in
  let lines :=
    [title_;
     "Time: " +:+ toISOString env date;
     "Operation: " +:+ Js.str (orStr context (Some "unknown"%string));
     "Node env: " +:+ Js.str (orStr (env_NODE_ENV (processEnv env)) (Some "unknown"%string))] in
  let lines :=
    match info with
    | Some info =>
        lines ++
        ["Status: " +:+ from_option showNumber "n/a"%string (Info.status info);
         "Code: " +:+ default "n/a"%string (Info.code info);
         "Type: " +:+ default "n/a"%string (Info.type info);
         "Message: " +:+ Js.str (orStr (Some (Info.message info)) (Some "n/a"%string))]
    | None => lines
    end in
  (String.concat newline lines, st).

(** The [try { await sendAlertEmail(...) } catch (sendError) { ... }] both
    reports end with. *)
Definition trySend (subject_ text_ : string) (st : State) : State :=
  match sendAlertEmail subject_ text_ st with
  | (inr _, st) => st
  | (inl sendError, st) =>
      console_call console_error
        [PText "Failed to send OpenAI alert email:";
         from_option PText PUndefined (message sendError)] st
  end.

(** [reportOpenAIAuthError] *)
Definition reportOpenAIAuthError (error_ : option ApiError) (context : option string)
    (st : State) : bool * State :=
  let info := normalizeErrorInfo error_ in
  if negb (isAuthError info) then (false, st)
  else
    let key := "auth:" +:+ Js.str (orStr context (Some "unknown"%string)) in
    let '(alert, st) := shouldAlert key st in
    if negb alert then (false, st)
    else
      let '(text_, st) :=
        buildAlertText "OpenAI authentication error detected." context (Some info) st in
      let st := console_call console_error [PText text_] st in
      let st := trySend "OpenAI auth error (token expired?)" text_ st in
      (true, st).

(** [reportOpenAIMissingApiKey] *)
Definition reportOpenAIMissingApiKey (context : option string) (st : State)
  : bool * State :=
  let key := "missing:" +:+ Js.str (orStr context (Some "unknown"%string)) in
  let '(alert, st) := shouldAlert key st in
  if negb alert then (false, st)
  else
    let '(text_, st) := buildAlertText "OpenAI API key is missing." context None st in
    let st := console_call console_error [PText text_] st in
    let st := trySend "OpenAI API key missing" text_ st in
    (true, st).

End Module_.

(** A run of [shouldAlert] over successive keys: the answers, and the
    alerts granted, each with the clock reading it was granted at. *)
Fixpoint shouldAlertAll (env : Env) (keys : list string) (st : State)
  : list bool * list (Z * string) * State :=
  match keys with
  | [] => ([], [], st)
  | key :: keys' =>
      let now := clock env (readings st) in
      let '(alert, st1) := shouldAlert env key st in
      let '(alerts, granted, st') := shouldAlertAll env keys' st1 in
      (alert :: alerts, (if alert then [(now, key)] else []) ++ granted, st')
  end.

End Alerts.

(** Successive alerts of a log are apart: an alert with the key of the one
    before it comes at least [throttle] milliseconds later. *)
Fixpoint spaced (throttle : Q) (previous : Z * string) (log : list (Z * string)) : Prop :=
  match log with
  | [] => True
  | alert :: log' =>
      (previous.2 = alert.2 -> (throttle <= inject_Z (alert.1 - previous.1))%Q) /\
      spaced throttle alert log'
  end.

(** The operations the module exports, as a caller issues them. *)
Inductive AlertCall :=
| AuthError (error_ : option Alerts.ApiError) (context : option string)
| MissingApiKey (context : option string).

Definition report (env : Alerts.Env) (call : AlertCall) (st : Alerts.State)
  : bool * Alerts.State :=
  match call with
  | AuthError error_ context => Alerts.reportOpenAIAuthError env error_ context st
  | MissingApiKey context => Alerts.reportOpenAIMissingApiKey env context st
  end.

Definition reportAll (env : Alerts.Env) (calls : list AlertCall) (st : Alerts.State)
  : Alerts.State :=
  fold_left (fun st call => (report env call st).2) calls st.

(** An environment with no mail settings, whose clock advances by 4000
    seconds between two readings. *)
Definition quietProcess : Alerts.ProcessEnv :=
  {| Alerts.env_OPENAI_ALERT_EMAIL_TO := None; Alerts.env_ALERT_EMAIL_TO := None;
     Alerts.env_OPENAI_ALERT_EMAIL_FROM := None; Alerts.env_ALERT_EMAIL_FROM := None;
     Alerts.env_OPENAI_ALERT_EMAIL_PWD := None; Alerts.env_ALERT_EMAIL_PWD := None;
     Alerts.env_EMAIL_PWD := None; Alerts.env_OPENAI_ALERT_THROTTLE_MS := None;
     Alerts.env_NODE_ENV := None; Alerts.env_OPENAI_API_KEY := None |}.

Definition quietEnv : Alerts.Env :=
  {| Alerts.processEnv := quietProcess;
     Alerts.clock := fun n => Z.of_nat n * 4000000;
     Alerts.toISOString := fun _ => "2025-01-01T00:00:00.000Z"%string;
     Alerts.sendMail := fun _ _ => None |}.

(** An environment with the mail settings of a deployment, in which the
    transport refuses every mail. *)
Definition mailingProcess : Alerts.ProcessEnv :=
  {| Alerts.env_OPENAI_ALERT_EMAIL_TO := None;
     Alerts.env_ALERT_EMAIL_TO := Some "ops@example.org"%string;
     Alerts.env_OPENAI_ALERT_EMAIL_FROM := None; Alerts.env_ALERT_EMAIL_FROM := None;
     Alerts.env_OPENAI_ALERT_EMAIL_PWD := None; Alerts.env_ALERT_EMAIL_PWD := None;
     Alerts.env_EMAIL_PWD := Some "secret"%string;
     Alerts.env_OPENAI_ALERT_THROTTLE_MS := None;
     Alerts.env_NODE_ENV := Some "production"%string;
     Alerts.env_OPENAI_API_KEY := Some "sk-expired"%string |}.

Definition mailingEnv : Alerts.Env :=
  {| Alerts.processEnv := mailingProcess;
     Alerts.clock := fun n => Z.of_nat n * 1000;
     Alerts.toISOString := fun _ => "2025-01-01T00:00:00.000Z"%string;
     Alerts.sendMail := fun _ _ => Some (Alerts.plainError "Invalid login") |}.

Definition unauthorized : Alerts.ApiError :=
  {| Alerts.status := None; Alerts.code := None; Alerts.type := None;
     Alerts.message := None; Alerts.response_status := Some 401;
     Alerts.response_data_error := None; Alerts.error := None |}.

(** A variable of the environment holds a text that is not empty. *)
Definition present (v : option string) : bool := negb (Js.falsyStr v).

(** The line the console shows when the transport refuses a mail. *)
Definition sendFailure (sendError : Alerts.ApiError) : Alerts.ConsoleCall :=
  {| Alerts.level := console_error;
     Alerts.args := [Alerts.PText "Failed to send OpenAI alert email:";
                     from_option Alerts.PText Alerts.PUndefined (Alerts.message sendError)] |}.

(** A thrown value without its [response] and [error] members. *)
Definition topLevel (e : Alerts.ApiError) : Alerts.ApiError :=
  {| Alerts.status := Alerts.status e; Alerts.code := Alerts.code e;
     Alerts.type := Alerts.type e; Alerts.message := Alerts.message e;
     Alerts.response_status := None; Alerts.response_data_error := None;
     Alerts.error := None |}.

(** The four tests of [isAuthError]. *)
Definition statusTest (status : option Z) : bool :=
  bool_decide (status = Some 401) || bool_decide (status = Some 403).

Definition typeTest (type : option string) : bool :=
  bool_decide (type = Some "authentication_error"%string).

Definition codeTest (code : option string) : bool :=
  negb (Js.falsyStr code) &&
  (String.eqb (Js.str code) "invalid_api_key" || String.eqb (Js.str code) "authentication_error"
   || String.eqb (Js.str code) "invalid_authentication"
   || String.eqb (Js.str code) "account_deactivated").

Definition messageTest (message : string) : bool :=
  let lower := Alerts.toLowerCase message in
  Alerts.includes lower "invalid api key" || Alerts.includes lower "incorrect api key"
  || Alerts.includes lower "expired" &&
     (Alerts.includes lower "token" || Alerts.includes lower "api key").

(** An error of the API as the SDK throws it: the refusal of an expired
    key, with the body of the response beside the top-level fields. *)
Definition expiredKey : Alerts.ApiError :=
  {| Alerts.status := None; Alerts.code := None; Alerts.type := None;
     Alerts.message := Some "Your API token has EXPIRED"%string;
     Alerts.response_status := Some 500;
     Alerts.response_data_error :=
       Some {| Alerts.body_code := Some "server_error"%string;
               Alerts.body_type := Some "server_error"%string;
               Alerts.body_message := Some "internal"%string |};
     Alerts.error := None |}.

(** * Question generation ([backend/generate_question.js])

    The OpenAI client is taken as constructed; what it answers is part of
    the environment.  [Math.random()] is the next of a sequence of draws,
    an exact rational where the source has a double. *)

Module Question.

Definition byte (n : nat) : ascii := ascii_of_nat n.

(** [/[a-zA-Z]/] *)
Definition isLetter (c : ascii) : bool :=
  let n := nat_of_ascii c in
  ((65 <=? n) && (n <=? 90) || (97 <=? n) && (n <=? 122))%nat.

(** The white space of [\s] that is one byte long: tab, line feed,
    vertical tab, form feed, carriage return, space. *)
Definition isSpace1 (a : ascii) : bool :=
  let n := nat_of_ascii a in
  ((9 <=? n) && (n <=? 13) || (n =? 32))%nat.

(** U+00A0, bytes C2 A0. *)
Definition isSpace2 (a b : ascii) : bool :=
  Ascii.eqb a (byte 194) && Ascii.eqb b (byte 160).

(** U+1680; U+2000 to U+200A, U+2028, U+2029, U+202F; U+205F; U+3000;
    U+FEFF. *)
Definition isSpace3 (a b c : ascii) : bool :=
  let n := nat_of_ascii c in
  Ascii.eqb a (byte 225) && Ascii.eqb b (byte 154) && Ascii.eqb c (byte 128)
  || Ascii.eqb a (byte 226) && Ascii.eqb b (byte 128) &&
     ((128 <=? n) && (n <=? 138) || (n =? 168) || (n =? 169) || (n =? 175))%nat
  || Ascii.eqb a (byte 226) && Ascii.eqb b (byte 129) && Ascii.eqb c (byte 159)
  || Ascii.eqb a (byte 227) && Ascii.eqb b (byte 128) && Ascii.eqb c (byte 128)
  || Ascii.eqb a (byte 239) && Ascii.eqb b (byte 187) && Ascii.eqb c (byte 191).

(** What is left of a text after the match of [/^\s*/], on the UTF-8
    bytes of the text. *)
Fixpoint skipSpaces (s : string) : string :=
  match s with
  | EmptyString => s
  | String a s1 =>
      if isSpace1 a then skipSpaces s1
      else
        match s1 with
        | EmptyString => s
        | String b s2 =>
            if isSpace2 a b then skipSpaces s2
            else
              match s2 with
              | EmptyString => s
              | String c s3 => if isSpace3 a b c then skipSpaces s3 else s
              end
        end
  end.

(** [cleanAnswerChoice]: [choice.replace(/^[a-zA-Z]\)\s*/, '')] *)
Definition cleanAnswerChoice (choice : string) : string :=
  match choice with
  | String letter (String paren rest) =>
      if isLetter letter && Ascii.eqb paren ")" then skipSpaces rest else choice
  | _ => choice
  end.

(** [s.split('\n')] *)
Fixpoint split (s : string) : list string :=
  match s with
  | EmptyString => [EmptyString]
  | String c s' =>
      if Ascii.eqb c (byte 10) then EmptyString :: split s'
      else
        match split s' with
        | line :: lines => String c line :: lines
        | [] => [String c EmptyString]
        end
  end.

Record Message := { content : option string }.
Record Choice := { message : option Message }.
Record Response := { choices : list Choice }.

Record Evaluation := {
  question : option string;
  responses : list (option string);
  correct : option string
}.

(** The outside world: that of the alerts, the successive draws of
    [Math.random()], and the answer of [client.chat.completions.create]
    to a prompt, which may depend on the prompts sent so far. *)
Record Env := {
  alerts : Alerts.Env;
  random : nat -> Q;
  create : list string -> string -> Alerts.ApiError + Response
}.

Record State := {
  alertState : Alerts.State;
  draws : nat;
  prompts : list string
}.

Definition with_alertState (a : Alerts.State) (st : State) : State :=
  {| alertState := a; draws := draws st; prompts := prompts st |}.

(** A JavaScript array is a list whose elements may be [undefined]:
    reading outside it gives [undefined], writing outside it extends it. *)
Definition get {A} (array : list (option A)) (i : nat) : option A :=
  match array !! i with
  | Some v => v
  | None => None
  end.

Definition set {A} (i : nat) (v : option A) (array : list (option A)) : list (option A) :=
  if (i <? length array)%nat then <[i := v]> array
  else array ++ repeat None (i - length array) ++ [v].

(** [[array[i], array[j]] = [array[j], array[i]]] *)
Definition swap {A} (i j : nat) (array : list (option A)) : list (option A) :=
  let ai := get array i in
  let aj := get array j in
  set j ai (set i aj array).

Section Module_.
Variable env : Env.

Definition isTestEnv : bool :=
  bool_decide (Alerts.env_NODE_ENV (Alerts.processEnv (alerts env)) = Some "test"%string).

Definition openaiApiKey : option string :=
  Alerts.env_OPENAI_API_KEY (Alerts.processEnv (alerts env)).

(** [Math.random()] *)
Definition Math_random (st : State) : Q * State :=
  (random env (draws st),
   {| alertState := alertState st; draws := S (draws st); prompts := prompts st |}).

Definition console_call (lvl : Level) (printed : list Alerts.Printed) (st : State) : State :=
  with_alertState (Alerts.console_call lvl printed (alertState st)) st.

(** The loop of [shuffleArray], from index [i] down to 1. *)
Fixpoint shuffleFrom {A} (i : nat) (array : list (option A)) (st : State)
  : list (option A) * State :=
  match i with
  | O => (array, st)
  | S i' =>
      let '(r, st) := Math_random st in
      let j := Z.to_nat (Qfloor (r * inject_Z (Z.of_nat i + 1))) in
      shuffleFrom i' (swap i j array) st
  end.

(** [shuffleArray]: the array after the call. *)
Definition shuffleArray {A} (array : list (option A)) (st : State)
  : list (option A) * State :=
  shuffleFrom (length array - 1) array st.

Definition operation : option string := Some "generateEvaluation"%string.

Definition prompt (description : string) : string :=
  "Generate a multiple-choice question based on the following description (place the correct answer first). The question should aim to see if the user understood what was described. The user will answer the question after seeing many different description, so the question should not expect the user to know what description it refers to. Here is the description: "
  +:+ description +:+ Alerts.newline +:+ "Question:".

(** What follows [console.log(response.choices[0].message.content)] when
    the content is a text. *)
Definition evaluate (generatedMessage : string) (st : State) : Evaluation * State :=
  let lines_original := split generatedMessage in
  let lines := List.filter (fun line => negb (Js.falsyStr (Some line))) lines_original in
  let generatedQuestion := head lines in
  let answerChoices := map (fun line => Some (cleanAnswerChoice line)) (tail lines) in
  let correctAnswer := get answerChoices 0 in
  let '(answerChoices, st) := shuffleArray answerChoices st in
  let evaluation :=
    {| question := generatedQuestion; responses := answerChoices;
       correct := correctAnswer |} in
  let st := console_call console_log
              [from_option Alerts.PText Alerts.PUndefined (question evaluation)] st in
  let st := console_call console_log [Alerts.PList (responses evaluation)] st in
  let st := console_call console_log
              [from_option Alerts.PText Alerts.PUndefined (correct evaluation)] st in
  (evaluation, st).

(** The body of the [try] block: the value returned, or the value
    thrown. *)
Definition attempt (description : string) (st : State)
  : (Alerts.ApiError + option Evaluation) * State :=
  if Js.falsyStr openaiApiKey then
    let '(_, a) := Alerts.reportOpenAIMissingApiKey (alerts env) operation (alertState st) in
    let st := with_alertState a st in
    let st := console_call console_error
                [Alerts.PText "OpenAI API key not configured. Set OPENAI_API_KEY."] st in
    (inr None, st)
  else
    let answer := create env (prompts st) (prompt description) in
    let st := {| alertState := alertState st; draws := draws st;
                 prompts := prompts st ++ [prompt description] |} in
    match answer with
    | inl e => (inl e, st)
    | inr response =>
        match head (choices response) with
        | None =>
            (inl (Alerts.plainError
                    "Cannot read properties of undefined (reading 'message')"), st)
        | Some choice =>
            match message choice with
            | None =>
                (inl (Alerts.plainError
                        "Cannot read properties of undefined (reading 'content')"), st)
            | Some message_ =>
                let st := console_call console_log
                            [from_option Alerts.PText Alerts.PNull (content message_)] st in
                match content message_ with
                | None =>
                    (inl (Alerts.plainError
                            "Cannot read properties of null (reading 'split')"), st)
                | Some generatedMessage =>
                    let '(evaluation, st) := evaluate generatedMessage st in
                    (inr (Some evaluation), st)
                end
            end
        end
    end.

(** [generateEvaluation]; [None] is [null]. *)
Definition generateEvaluation (description : string) (st : State)
  : option Evaluation * State :=
  if isTestEnv then
    (Some {| question := Some "Mock question?"%string;
             responses := [Some "A"; Some "B"; Some "C"; Some "D"]%string;
             correct := Some "A"%string |}, st)
  else
    match attempt description st with
    | (inr result, st) => (result, st)
    | (inl error, st) =>
        let '(_, a) :=
          Alerts.reportOpenAIAuthError (alerts env) (Some error) operation (alertState st) in
        let st := with_alertState a st in
        let st := console_call console_error
                    [Alerts.PText "Error generating question:"; Alerts.PError (Some error)] st in
        (None, st)
    end.

End Module_.

End Question.

(** The lines of a generated message that are not empty. *)
Definition nonEmptyLines (generatedMessage : string) : list string :=
  List.filter (fun line => negb (Js.falsyStr (Some line))) (Question.split generatedMessage).

(** The first choice of a response holds this text. *)
Definition answersWith (response : Question.Response) (generatedMessage : string) : Prop :=
  exists choice message_,
    head (Question.choices response) = Some choice /\
    Question.message choice = Some message_ /\
    Question.content message_ = Some generatedMessage.

(** An assistant that answers every prompt with a question and four
    labelled choices, in a deployment whose mail transport refuses every
    mail; the draws of [Math.random()] alternate between 0.9 and 0.3. *)
Definition quizText : string :=
  "What is measured?" +:+ Alerts.newline +:+ "A) Impact" +:+ Alerts.newline
  +:+ Alerts.newline +:+ "B) Speed" +:+ Alerts.newline +:+ "C)  Mass" +:+ Alerts.newline
  +:+ "D) Time".

Definition quizEnv : Question.Env :=
  {| Question.alerts := mailingEnv;
     Question.random := fun n => if Nat.even n then (9 # 10)%Q else (3 # 10)%Q;
     Question.create := fun _ _ =>
       inr {| Question.choices :=
                [{| Question.message := Some {| Question.content := Some quizText |} |}] |} |}.

(** The same deployment when the API refuses the key. *)
Definition refusedEnv : Question.Env :=
  {| Question.alerts := mailingEnv;
     Question.random := fun _ => 0%Q;
     Question.create := fun _ _ => inl unauthorized |}.

(** The same deployment when the API is overloaded. *)
Definition overloaded : Alerts.ApiError :=
  {| Alerts.status := Some 503; Alerts.code := None; Alerts.type := None;
     Alerts.message := Some "The server is overloaded"%string;
     Alerts.response_status := None;
     Alerts.response_data_error := None; Alerts.error := None |}.

Definition overloadedEnv : Question.Env :=
  {| Question.alerts := mailingEnv;
     Question.random := fun _ => 0%Q;
     Question.create := fun _ _ => inl overloaded |}.

Definition started : Question.State :=
  {| Question.alertState := Alerts.loaded; Question.draws := 0; Question.prompts := [] |}.

(** The console line that ends a failed generation. *)
Definition generationFailure (e : Alerts.ApiError) : Alerts.ConsoleCall :=
  {| Alerts.level := console_error;
     Alerts.args := [Alerts.PText "Error generating question:"; Alerts.PError (Some e)] |}.

(** ** Notions for the computor with the metrics cache *)

(** One of [requests], issued in this order after [history], is refused. *)
Fixpoint refusedb (env : Env) (history requests : list Request) : bool :=
  match requests with
  | [] => false
  | request :: requests' =>
      (match http env history request with inl _ => true | inr _ => false end)
      || refusedb env (history ++ [request]) requests'
  end.

(** The run cache [after] holds every entry of [before]; of the titles,
    those that are a title (a search that found none is stored too, and
    may be replaced). *)
Definition cacheGrows (before after : CachingComputor.RunCache.t) : Prop :=
  CachingComputor.RunCache.openalex before ⊆ CachingComputor.RunCache.openalex after /\
  CachingComputor.RunCache.openalexWorks12m before
    ⊆ CachingComputor.RunCache.openalexWorks12m after /\
  (forall name title,
      CachingComputor.RunCache.wikiTitle before !! name = Some title ->
      Js.falsyStr title = false ->
      CachingComputor.RunCache.wikiTitle after !! name = Some title) /\
  CachingComputor.RunCache.wikiViews before ⊆ CachingComputor.RunCache.wikiViews after.

(** What one stage of [computeRawIndicatorsForTopic] does to the variables
    and to the run: at most [bound] requests, nothing stored, a run cache
    that grows, and a backoff that is set when a request is refused and
    left alone otherwise. *)
Definition stageFacts (env : Env) (bound : nat)
    (v : CachingComputor.Vars.t) (st : State)
    (v' : CachingComputor.Vars.t) (st' : State) : Prop :=
  exists requests,
    calls st' = calls st ++ requests /\ (length requests <= bound)%nat /\
    collection st' = collection st /\ writes st' = writes st /\
    cacheGrows (CachingComputor.Vars.runCache v) (CachingComputor.Vars.runCache v') /\
    backoffUntil (CachingComputor.Vars.metrics v') =
      (if refusedb env (calls st) requests
       then Some (now env + CachingComputor.BACKOFF_MS)
       else backoffUntil (CachingComputor.Vars.metrics v)).

(** The request for the cumulative totals of an external key. *)
Definition totalsFor (key : string) : Request :=
  {| url := OPENALEX_BASE_URL +:+ "/topics/" +:+ key; params := [] |}.

(** A request that asks for the totals of no key. *)
Definition notTotals (request : Request) : Prop :=
  forall key, request <> totalsFor key.

(** A stage that asks for no totals and lets the run cache grow. *)
Definition quietStage (v : CachingComputor.Vars.t) (st : State)
    (v' : CachingComputor.Vars.t) (st' : State) : Prop :=
  exists requests,
    calls st' = calls st ++ requests /\ Forall notTotals requests /\
    cacheGrows (CachingComputor.Vars.runCache v) (CachingComputor.Vars.runCache v').

(** In a list of requests issued after [history] with the run cache
    [before] and leaving the run cache [after]: a request for totals comes
    first, for a key the run cache did not hold, and when it is answered
    the run cache holds the key afterwards. *)
Definition totalsFirst (env : Env) (history : list Request)
    (before after : CachingComputor.RunCache.t) (requests : list Request) : Prop :=
  forall i key,
    requests !! i = Some (totalsFor key) ->
    i = 0%nat /\
    CachingComputor.RunCache.openalex before !! key = None /\
    (forall data, http env history (totalsFor key) = inr data ->
                  is_Some (CachingComputor.RunCache.openalex after !! key)).

(** A stage, or a whole call, in which the totals are asked for first. *)
Definition firstStage (env : Env) (v : CachingComputor.Vars.t) (st : State)
    (v' : CachingComputor.Vars.t) (st' : State) : Prop :=
  exists requests,
    calls st' = calls st ++ requests /\
    cacheGrows (CachingComputor.Vars.runCache v) (CachingComputor.Vars.runCache v') /\
    totalsFirst env (calls st) (CachingComputor.Vars.runCache v)
      (CachingComputor.Vars.runCache v') requests.

(** The requests a run added to the log it started with. *)
Definition issued (before after : State) : list Request :=
  drop (length (calls before)) (calls after).

(** The provider answers every request. *)
Definition answering (env : Env) : Prop :=
  forall history request, exists data, http env history request = inr data.

(** The three sources of a Topic are within their time-to-live. *)
Definition allFresh (env : Env) (topic : Topic.t) : Prop :=
  let m := Topic.metrics topic in
  CachingComputor.isFresh (Openalex.lastFetchedAt (openalex m))
    CachingComputor.CACHE_TTL_MS_openalexAllTime (now env) = true /\
  CachingComputor.isFresh (Openalex.lastWorksFetchedAt (openalex m))
    CachingComputor.CACHE_TTL_MS_openalexWorks12m (now env) = true /\
  CachingComputor.isFresh (Wikipedia.lastFetchedAt (wikipedia m))
    CachingComputor.CACHE_TTL_MS_wikipediaViews (now env) = true.

(** A provider that answers every request: the search with a title, the
    rest with the counts of the test file. *)
Definition generousEnv : Env :=
  development
    (fun _ request =>
       inr (if decide (url request = WIKIPEDIA_SEARCH_URL)
            then Some (SearchData (Some [{| title := Some "Quantum Mechanics"%string |}]))
            else if decide (request = getTopic "T123")
            then Some (TopicData (Some 1000%Q) (Some 100%Q))
            else if decide (url request = OPENALEX_BASE_URL +:+ "/works")
            then Some (WorksData (Some 20%Q))
            else Some (PageviewsData (Some [{| views := Some 1500%Q |}])))).

(** ** Lookup keys of the run cache *)

(** What a fetch is made for: the cumulative totals of an external key,
    the trailing works of an external key (in the date range of the run),
    the title of a Topic name, the page views of a title. *)
Inductive Key :=
| TotalsKey (openalexID : string)
| WorksKey (openalexID : string)
| TitleKey (topicName : string)
| ViewsKey (title : string).

(** The position of a fetch in [computeRawIndicatorsForTopic]. *)
Definition rank (key : Key) : nat :=
  match key with
  | TotalsKey _ => 0
  | WorksKey _ => 1
  | TitleKey _ => 2
  | ViewsKey _ => 3
  end.

(** The request that fetches a key. *)
Definition requestOf (range : DateRange) (key : Key) : Request :=
  match key with
  | TotalsKey openalexID =>
      {| url := OPENALEX_BASE_URL +:+ "/topics/" +:+ openalexID; params := [] |}
  | WorksKey openalexID =>
      {| url := OPENALEX_BASE_URL +:+ "/works";
         params := [("filter", "topics.id:" +:+ openalexID
                       +:+ ",from_publication_date:" +:+ startDate range
                       +:+ ",to_publication_date:" +:+ endDate range);
                    ("per_page", "1")] |}
  | TitleKey topicName =>
      {| url := WIKIPEDIA_SEARCH_URL;
         params := [("action", "query"); ("list", "search"); ("srsearch", topicName);
                    ("srlimit", "1"); ("format", "json")] |}
  | ViewsKey title => pageviewsRequest range title
  end.

(** The run cache answers for a key, as [computeRawIndicatorsForTopic]
    tests it: [if (openalexCached)], [worksCached !== undefined],
    [if (cachedTitle)], [cachedViews !== undefined]. *)
Definition held (range : DateRange) (runCache : CachingComputor.RunCache.t) (key : Key)
    : Prop :=
  match key with
  | TotalsKey openalexID =>
      is_Some (CachingComputor.RunCache.openalex runCache !! openalexID)
  | WorksKey openalexID =>
      is_Some (CachingComputor.RunCache.openalexWorks12m runCache
                 !! (openalexID +:+ ":" +:+ startDate range +:+ ":" +:+ endDate range))
  | TitleKey topicName =>
      Js.falsyStr (mjoin (CachingComputor.RunCache.wikiTitle runCache !! topicName)) = false
  | ViewsKey title => is_Some (CachingComputor.RunCache.wikiViews runCache !! title)
  end.

(** An answer that settles its key for the rest of the run: any answer,
    and for a search one that gives a title. *)
Definition settles (key : Key) (data : option Data) : Prop :=
  match key with
  | TitleKey _ => Js.falsyStr (data_first_title data) = false
  | _ => True
  end.

(** The signals a key feeds. *)
Definition signalsOf (key : Key) (v : CachingComputor.Vars.t) : list Q :=
  match key with
  | TotalsKey _ => [CachingComputor.Vars.citedByCount v; CachingComputor.Vars.worksCount v]
  | WorksKey _ => [CachingComputor.Vars.worksLast12Months v]
  | TitleKey _ | ViewsKey _ => [CachingComputor.Vars.wikiViews12Months v]
  end.

(** The keys of a Topic: its external key and its name; the title is the
    stored one or the one the search gave. *)
Definition ownKey (topic : Topic.t) (key : Key) : Prop :=
  match key with
  | TotalsKey openalexID | WorksKey openalexID =>
      openalexID = Js.str (Topic.openalexID topic)
  | TitleKey topicName => topicName = Topic.name topic
  | ViewsKey _ => True
  end.

(** The outcome of the fetch of [key], issued after [history], on the
    variables and the run cache of a call: an answer that settles the key
    is in the run cache, a refusal leaves the signals of the key as they
    were. *)
Definition fetchOutcome (env : Env) (v v' : CachingComputor.Vars.t)
    (history : list Request) (key : Key) : Prop :=
  match http env history (requestOf (clock env) key) with
  | inr data => settles key data -> held (clock env) (CachingComputor.Vars.runCache v') key
  | inl _ => signalsOf key v' = signalsOf key v
  end.

(** What the stages of ranks [lo] to [hi - 1] of a call do: their
    requests are the fetches of keys of the Topic, in the order of the
    ranks; each key was not in the run cache, which grows; and the signals
    of the other stages are left alone. *)
Definition fetches (env : Env) (topic : Topic.t) (lo hi : nat)
    (v : CachingComputor.Vars.t) (st : State)
    (v' : CachingComputor.Vars.t) (st' : State) : Prop :=
  exists keys,
    calls st' = calls st ++ map (requestOf (clock env)) keys /\
    cacheGrows (CachingComputor.Vars.runCache v) (CachingComputor.Vars.runCache v') /\
    (forall i j key key',
        keys !! i = Some key -> keys !! j = Some key' -> (i < j)%nat ->
        (rank key < rank key')%nat) /\
    (forall i key,
        keys !! i = Some key ->
        (lo <= rank key < hi)%nat /\ ownKey topic key /\
        ~ held (clock env) (CachingComputor.Vars.runCache v) key /\
        fetchOutcome env v v'
          (calls st ++ map (requestOf (clock env)) (take i keys)) key) /\
    (forall key, ~ (lo <= rank key < hi)%nat -> signalsOf key v' = signalsOf key v).

(** The variables [computeRawIndicatorsForTopic] starts from: the signals
    of the snapshot. *)
Definition initialVars (topic : Topic.t) (runCache : CachingComputor.RunCache.t)
    : CachingComputor.Vars.t :=
  let metrics := CachingComputor.ensureTopicMetrics topic in
  {| CachingComputor.Vars.metrics := metrics;
     CachingComputor.Vars.runCache := runCache;
     CachingComputor.Vars.citedByCount :=
       Js.orZero (Some (Openalex.citedByCount (openalex metrics)));
     CachingComputor.Vars.worksCount :=
       Js.orZero (Some (Openalex.worksCount (openalex metrics)));
     CachingComputor.Vars.worksLast12Months :=
       Js.orZero (Some (Openalex.worksLast12Months (openalex metrics)));
     CachingComputor.Vars.wikiViews12Months :=
       Js.orZero (Some (Wikipedia.views12Months (wikipedia metrics)));
     CachingComputor.Vars.wikiTitle := None |}.

(** ** More scenarios for the computor with the metrics cache *)

(** The Topic of the test file with its three timestamps forty days old. *)
Definition staleTopic : Topic.t :=
  let old := todayMs - 40 * 24 * 60 * 60 * 1000 in
  Topic.set_metrics
    {| openalex := {| Openalex.citedByCount := 500; Openalex.worksCount := 50;
                      Openalex.worksLast12Months := 5;
                      Openalex.lastFetchedAt := Some old;
                      Openalex.lastWorksFetchedAt := Some old |};
       wikipedia := {| Wikipedia.title := Some "Cached Topic"%string;
                       Wikipedia.views12Months := 2500;
                       Wikipedia.lastFetchedAt := Some old |};
       lastComputedAt := None; lastError := None; backoffUntil := None |}
    (Topic.create 1%N "Cached Topic" "Physics" (Some "T-CACHED"%string)).


(** The provider of [throttledTopic] once it answers again, at the instant
    the cooldown of a failure at [todayMs] ends. *)
Definition recoveredEnv : Env :=
  {| isTestEnv := false; clock := today;
     now := todayMs + CachingComputor.BACKOFF_MS;
     http :=
       answerFrom
         [(getTopic "T-A", Some (TopicData (Some 10%Q) (Some 5%Q)));
          (getWorks "T-A", Some (WorksData (Some 1%Q)));
          (getSearch "Topic A",
           Some (SearchData (Some [{| title := Some "Topic A"%string |}])));
          (getPageviews "Topic_A",
           Some (PageviewsData (Some [{| views := Some 100%Q |}])))];
     findError := None; saveError := fun _ => None |}.

(** A provider that refuses the totals of [throttledTopic] and answers its
    other requests. *)
Definition partialEnv : Env :=
  development
    (answerFrom
       [(getWorks "T-A", Some (WorksData (Some 1%Q)));
        (getSearch "Topic A",
         Some (SearchData (Some [{| title := Some "Topic A"%string |}])));
        (getPageviews "Topic_A",
         Some (PageviewsData (Some [{| views := Some 100%Q |}])))]).

(** * The date range of the computor ([formatDateYYYYMMDD], [formatDateISO],
    [getLast12MonthsRange])

    A [Date] is held as its UTC calendar fields; the time of day reaches
    none of the texts. *)

Module Dates.

Record t := {
  UTCFullYear : Z;
  UTCMonth : Z;
  UTCDate : Z
}.

(** A number in a template literal. *)
Definition text (n : Z) : string := NilZero.string_of_int (Z.to_int n).

Fixpoint zeros (n : nat) : string :=
  match n with
  | O => EmptyString
  | S n' => String "0" (zeros n')
  end.

(** [s.padStart(targetLength, '0')] *)
Definition padStart (targetLength : nat) (s : string) : string :=
  zeros (targetLength - String.length s) +:+ s.

Definition isLeap (year : Z) : bool :=
  (year mod 4 =? 0) && negb (year mod 100 =? 0) || (year mod 400 =? 0).

(** The days of a month, months counted from 0. *)
Definition daysInMonth (year month : Z) : Z :=
  if month =? 1 then (if isLeap year then 29 else 28)
  else if (month =? 3) || (month =? 5) || (month =? 8) || (month =? 10) then 30
  else 31.

(** The fields of a date of the calendar. *)
Definition valid (d : t) : Prop :=
  0 <= UTCMonth d <= 11 /\ 1 <= UTCDate d <= daysInMonth (UTCFullYear d) (UTCMonth d).

(** [date.setUTCFullYear(year)] on a date of the calendar: the day of the
    month is kept, and a day the month does not have in that year runs
    over into the next month, which only happens to the 29th of
    February. *)
Definition setUTCFullYear (year : Z) (d : t) : t :=
  if (UTCMonth d =? 1) && (UTCDate d =? 29) && negb (isLeap year)
  then {| UTCFullYear := year; UTCMonth := 2; UTCDate := 1 |}
  else {| UTCFullYear := year; UTCMonth := UTCMonth d; UTCDate := UTCDate d |}.

(** [formatDateYYYYMMDD] *)
Definition formatDateYYYYMMDD (d : t) : string :=
  let year := UTCFullYear d in
  let month := padStart 2 (text (UTCMonth d + 1)) in
  let day := padStart 2 (text (UTCDate d)) in
  text year +:+ month +:+ day.

(** [formatDateISO]: the first ten characters of [toISOString()], which
    writes the years from 0 to 9999 with four digits and the others with a
    sign and six digits. *)
Definition formatDateISO (d : t) : string :=
  let year := UTCFullYear d in
  if (0 <=? year) && (year <=? 9999) then
    padStart 4 (text year) +:+ "-" +:+ padStart 2 (text (UTCMonth d + 1))
    +:+ "-" +:+ padStart 2 (text (UTCDate d))
  else
    (if year <? 0 then "-" else "+") +:+ padStart 6 (text (Z.abs year))
    +:+ "-" +:+ padStart 2 (text (UTCMonth d + 1)).

(** [getLast12MonthsRange], [current] being [new Date()]. *)
Definition getLast12MonthsRange (current : t) : DateRange :=
  let end_ := current in
  let start := setUTCFullYear (UTCFullYear end_ - 1) end_ in
  {| startDate := formatDateISO start;
     endDate := formatDateISO end_;
     startCompact := formatDateYYYYMMDD start;
     endCompact := formatDateYYYYMMDD end_ |}.

End Dates.

(** A text without its hyphens. *)
Fixpoint removeDashes (s : string) : string :=
  match s with
  | EmptyString => EmptyString
  | String c s' => if Ascii.eqb c "-" then removeDashes s' else String c (removeDashes s')
  end.

(** A text of [n] characters, none of them a hyphen. *)
Definition plain (n : nat) (s : string) : bool :=
  (String.length s =? n)%nat && allChars (fun c => negb (Ascii.eqb c "-")) s.


(** * Properties *)

Example percentileRank_ties :
  Qeq (percentileRank Z.eqb [10; 20; 20; 30] 20) 50.
Proof. reflexivity. Qed.

Example toFixed2_third : Js.toFixed2 (100 # 3) = (3333 # 100)%Q.
Proof. reflexivity. Qed.

(** ** Array searches *)

Section ArraySearch.
Context {A : Type} (p : A -> bool).

Lemma findIndexFrom_none (l : list A) (i : Z) :
  Forall (fun x => p x = false) l -> Js.findIndexFrom p i l = -1.
Proof.
  intros H. revert i. induction H as [|x l Hx _ IH]; intros i; simpl.
  - reflexivity.
  - rewrite Hx. apply IH.
Qed.

Lemma findIndexFrom_first (before after : list A) (x : A) (i : Z) :
  Forall (fun y => p y = false) before -> p x = true ->
  Js.findIndexFrom p i (before ++ x :: after) = i + Z.of_nat (length before).
Proof.
  intros H Hx. revert i. induction H as [|y l Hy _ IH]; intros i; simpl.
  - rewrite Hx. lia.
  - rewrite Hy, IH. lia.
Qed.

Lemma findIndex_none (l : list A) :
  Forall (fun x => p x = false) l -> Js.findIndex p l = -1.
Proof. apply findIndexFrom_none. Qed.

Lemma findIndex_first (before after : list A) (x : A) :
  Forall (fun y => p y = false) before -> p x = true ->
  Js.findIndex p (before ++ x :: after) = Z.of_nat (length before).
Proof.
  intros H Hx. unfold Js.findIndex. rewrite findIndexFrom_first by assumption. lia.
Qed.

Lemma findLastIndex_none (l : list A) :
  Forall (fun x => p x = false) l -> Js.findLastIndex p l = -1.
Proof.
  intros H. unfold Js.findLastIndex.
  rewrite findIndex_none; [reflexivity|].
  apply Forall_forall. intros x Hx. rewrite Forall_forall in H. apply H.
  apply list_elem_of_In, in_rev. now apply list_elem_of_In.
Qed.

Lemma findLastIndex_last (before after : list A) (x : A) :
  Forall (fun y => p y = false) after -> p x = true ->
  Js.findLastIndex p (before ++ x :: after) = Z.of_nat (length before).
Proof.
  intros H Hx. unfold Js.findLastIndex.
  rewrite rev_app_distr. simpl. rewrite <- app_assoc. simpl.
  rewrite findIndex_first; [| |assumption].
  - rewrite length_rev, length_app. simpl.
    destruct (Z.eqb_spec (Z.of_nat (length after)) (-1)); lia.
  - apply Forall_forall. intros y Hy. rewrite Forall_forall in H. apply H.
    apply list_elem_of_In, in_rev. now apply list_elem_of_In.
Qed.

End ArraySearch.

(** ** [estimateCitations12m] *)

Lemma falsy_zeroOrMissing (v : option Q) : Js.falsy v = true <-> zeroOrMissing v.
Proof.
  destruct v as [q|]; simpl; [apply Qeq_bool_iff | tauto].
Qed.

Lemma falsy_false_nonzero (q : Q) : ~ (q == 0)%Q -> Js.falsy (Some q) = false.
Proof.
  intros H. simpl. destruct (Qeq_bool q 0) eqn:E; [|reflexivity].
  apply Qeq_bool_iff in E. contradiction.
Qed.

Lemma estimateCitations12m_zero (citedByCount worksCount works12m : option Q) :
  zeroOrMissing worksCount \/ zeroOrMissing citedByCount \/ zeroOrMissing works12m ->
  estimateCitations12m citedByCount worksCount works12m = 0%Q.
Proof.
  intros H. unfold estimateCitations12m.
  destruct H as [H | [H | H]]; apply falsy_zeroOrMissing in H; rewrite H;
    rewrite ?orb_true_r; reflexivity.
Qed.

(** C6.  With three factors present and different from zero the estimate
    is [(citedByCount / worksCount) * works12m]; as soon as one of the
    three is zero or missing it is exactly [0]. *)
Theorem estimateCitations12m_spec :
  (forall citedByCount worksCount works12m : Q,
      ~ citedByCount == 0 -> ~ worksCount == 0 -> ~ works12m == 0 ->
      estimateCitations12m (Some citedByCount) (Some worksCount) (Some works12m)
      == (citedByCount / worksCount) * works12m)%Q /\
  (forall citedByCount worksCount works12m : option Q,
      zeroOrMissing worksCount \/ zeroOrMissing citedByCount \/ zeroOrMissing works12m ->
      estimateCitations12m citedByCount worksCount works12m = 0%Q).
Proof.
  split.
  - intros c w m Hc Hw Hm. unfold estimateCitations12m.
    rewrite !falsy_false_nonzero by assumption.
    cbn [orb Js.num]. ring.
  - exact estimateCitations12m_zero.
Qed.

Lemma estimateCitations12m_spec_witness :
  estimateCitations12m (Some 1000%Q) (Some 100%Q) (Some 20%Q) == (1000 / 100) * 20
  /\ estimateCitations12m (Some 1000%Q) (Some 0%Q) (Some 20%Q) = 0%Q
  /\ estimateCitations12m None (Some 100%Q) (Some 20%Q) = 0%Q.
Proof.
  split; [|split].
  - apply (proj1 estimateCitations12m_spec); discriminate.
  - apply (proj2 estimateCitations12m_spec). left. reflexivity.
  - apply (proj2 estimateCitations12m_spec). right. left. exact I.
Defined.

(** ** [percentileRank] *)

Lemma inject_length_gt1 (n : nat) : (1 < n)%nat -> (1 < inject_Z (Z.of_nat n))%Q.
Proof.
  intros Hn. change 1%Q with (inject_Z 1). rewrite <- Zlt_Qlt. lia.
Qed.

Lemma percentileRank_unfold {A} (strictEq : A -> A -> bool) (sortedValues : list A)
    (value : A) :
  (1 < length sortedValues)%nat ->
  percentileRank strictEq sortedValues value =
  (inject_Z (Js.findIndex (fun item => strictEq item value) sortedValues
             + Js.findLastIndex (fun item => strictEq item value) sortedValues) / 2
   / (inject_Z (Z.of_nat (length sortedValues)) - 1) * 100)%Q.
Proof.
  intros Hn. unfold percentileRank.
  destruct (Nat.eqb_spec (length sortedValues) 0); [lia|].
  destruct (Nat.eqb_spec (length sortedValues) 1); [lia|].
  reflexivity.
Qed.

(** C10.  When no element of the array is [===] to the value, both index
    searches answer [-1], and an array of [n > 1] elements gives the
    negative rank [-100 / (n - 1)]. *)
Theorem percentileRank_absent_value {A} (strictEq : A -> A -> bool)
    (sortedValues : list A) (value : A) :
  (1 < length sortedValues)%nat ->
  Forall (fun item => strictEq item value = false) sortedValues ->
  Js.findIndex (fun item => strictEq item value) sortedValues = -1 /\
  Js.findLastIndex (fun item => strictEq item value) sortedValues = -1 /\
  (percentileRank strictEq sortedValues value
   == - (100) / (inject_Z (Z.of_nat (length sortedValues)) - 1))%Q /\
  (percentileRank strictEq sortedValues value < 0)%Q.
Proof.
  intros Hn Habsent.
  pose proof (findIndex_none (fun item => strictEq item value) _ Habsent) as Hfirst.
  pose proof (findLastIndex_none (fun item => strictEq item value) _ Habsent) as Hlast.
  pose proof (inject_length_gt1 _ Hn) as Hgt.
  assert (Hrank : (percentileRank strictEq sortedValues value
                   == - (100) / (inject_Z (Z.of_nat (length sortedValues)) - 1))%Q).
  { rewrite percentileRank_unfold by assumption. rewrite Hfirst, Hlast.
    change (inject_Z (-1 + -1)) with (- (2))%Q. field. Lqa.lra. }
  repeat split; try assumption.
  rewrite Hrank. apply Qlt_shift_div_r; Lqa.lra.
Qed.

Lemma percentileRank_absent_value_witness :
  Qeq (percentileRank Z.eqb [10; 20; 20; 30] 25) (- (100) / (inject_Z 4 - 1))%Q.
Proof.
  apply (percentileRank_absent_value Z.eqb [10; 20; 20; 30] 25).
  - simpl. lia.
  - repeat constructor.
Defined.

(** ** The per-topic computation *)

(** Symbolic execution of the monadic code: unfold the combinators and
    split on every test the code makes. *)
Ltac unfold_run :=
  unfold Computor.computeRawIndicatorsForTopic, Computor.fetchOpenAlexTopicMetrics,
    Computor.fetchOpenAlexWorksCountLast12Months, Computor.fetchWikipediaViews12Months,
    getLast12MonthsRange, try_catch, bind, ret, axios_get, console_call in *.

Ltac split_run :=
  repeat match goal with
  | |- context [if ?b then _ else _] => destruct b eqn:?; simpl
  | |- context [match http ?e ?h ?r with _ => _ end] => destruct (http e h r) eqn:?; simpl
  end.

Lemma log10p_zero (value : Q) : (value == 0)%Q -> log10p value = 0%R.
Proof.
  intros H. unfold log10p, log10. rewrite (Qeq_eqR _ _ H), RMicromega.Q2R_0.
  rewrite Rplus_0_l, ln_1. unfold Rdiv. apply Rmult_0_l.
Qed.

Section ComputorFacts.
Variable env : Env.



End ComputorFacts.



(** ** Scenarios of the test file *)

Example quantum_signals :
  let run := Computor.computeRawIndicatorsForTopic quantumEnv quantumTopic (initialState []) in
  calls (snd run)
  = [getTopic "T123"; getWorks "T123"; getSearch "Quantum Mechanics";
     getPageviews "Quantum_Mechanics"] /\
  Computor.metrics <$> returned (fst run)
  = Some {| Computor.citedByCount := 1000; Computor.worksCount := 100;
            Computor.worksLast12Months := 20; Computor.wikiViews12Months := 1500;
            Computor.estimatedCitations12Months := 20 * (1000 / 100) |}.
Proof. repeat split. Qed.

Example obscure_signals :
  let run := Computor.computeRawIndicatorsForTopic obscureEnv obscureTopic (initialState []) in
  calls (snd run) = [getSearch "Obscure Topic"] /\
  Computor.metrics <$> returned (fst run)
  = Some {| Computor.citedByCount := 0; Computor.worksCount := 0;
            Computor.worksLast12Months := 0; Computor.wikiViews12Months := 0;
            Computor.estimatedCitations12Months := 0 |}.
Proof. repeat split. Qed.

(** ** What the computor does with the metrics snapshot *)

(** The snapshot of the Topic is never read. *)
Lemma snapshot_is_ignored (env : Env) (m : Metrics) (topic : Topic.t) (st : State) :
  Computor.computeRawIndicatorsForTopic env (Topic.set_metrics m topic) st
  = Computor.computeRawIndicatorsForTopic env topic st.
Proof. reflexivity. Qed.

(** Outside the test environment a Topic with an external key has its
    totals and its trailing works requested on every computation. *)
Lemma external_key_is_always_fetched (env : Env) (topic : Topic.t) (st : State) :
  isTestEnv env = false -> Js.falsyStr (Topic.openalexID topic) = false ->
  exists rest,
    calls (snd (Computor.computeRawIndicatorsForTopic env topic st))
    = calls st ++ totalsRequest topic :: worksRequest (clock env) topic :: rest.
Proof.
  intros Htest Hid. unfold_run. cbn zeta. rewrite Htest, Hid. simpl.
  unfold totalsRequest, worksRequest.
  split_run; simpl; rewrite <- ?app_assoc; simpl; eexists; reflexivity.
Qed.

(** The Topic of the test file whose three sources were fetched at the
    current instant, in the text without the cache: the computation issues
    three requests, and with the provider refusing them its signals are
    [0], not the values [500], [50], [5], [2500] of the snapshot. *)
Example fresh_topic_is_refetched :
  let m := Topic.metrics cachedTopic in
  CachingComputor.isFresh (Openalex.lastFetchedAt (openalex m))
    CachingComputor.CACHE_TTL_MS_openalexAllTime (now cachedEnv) = true /\
  CachingComputor.isFresh (Openalex.lastWorksFetchedAt (openalex m))
    CachingComputor.CACHE_TTL_MS_openalexWorks12m (now cachedEnv) = true /\
  CachingComputor.isFresh (Wikipedia.lastFetchedAt (wikipedia m))
    CachingComputor.CACHE_TTL_MS_wikipediaViews (now cachedEnv) = true /\
  let run := Computor.computeRawIndicatorsForTopic cachedEnv cachedTopic (initialState []) in
  calls (snd run) = [getTopic "T-CACHED"; getWorks "T-CACHED"; getSearch "Cached Topic"] /\
  Computor.metrics <$> returned (fst run)
  = Some {| Computor.citedByCount := 0; Computor.worksCount := 0;
            Computor.worksLast12Months := 0; Computor.wikiViews12Months := 0;
            Computor.estimatedCitations12Months := 0 |}.
Proof. repeat split. Qed.

(** On the same input the computor with the metrics cache issues no
    request and takes its signals from the snapshot. *)
Example cachedTopic_with_cache :
  let run := CachingComputor.computeRawIndicatorsForTopic cachedEnv cachedTopic
               CachingComputor.createRunCache (initialState []) in
  calls (snd run) = [] /\
  (fun result => CachingComputor.metrics (fst (fst result))) <$> returned (fst run)
  = Some {| CachingComputor.citedByCount := 500; CachingComputor.worksCount := 50;
            CachingComputor.worksLast12Months := 5;
            CachingComputor.wikiViews12Months := 2500;
            CachingComputor.estimatedCitations12Months := 5 * (500 / 50);
            CachingComputor.backoffActive := false |}.
Proof. repeat split. Qed.

(** A Topic whose provider refuses every request, computed twice in a row
    through [computeImpactForTopic] of the text without the cache: the
    document that is saved still has the default snapshot, and the second
    computation repeats the three requests. *)
Example failure_sets_no_backoff :
  let run1 :=
    Computor.computeImpactForTopic throttledEnv throttledTopic
      (initialState [throttledTopic]) in
  let topic1 := default throttledTopic (mjoin (returned (fst run1))) in
  let run2 := Computor.computeImpactForTopic throttledEnv topic1 (snd run1) in
  calls (snd run1) = [getTopic "T-A"; getWorks "T-A"; getSearch "Topic A"] /\
  map Topic.metrics (collection (snd run1)) = [Topic.defaultMetrics] /\
  backoffUntil (Topic.metrics topic1) = None /\
  lastError (Topic.metrics topic1) = None /\
  calls (snd run2)
  = [getTopic "T-A"; getWorks "T-A"; getSearch "Topic A";
     getTopic "T-A"; getWorks "T-A"; getSearch "Topic A"].
Proof. repeat split. Qed.

(** On the same input the computor with the metrics cache sets the backoff
    to the current instant plus [BACKOFF_MS], records the text of the last
    failure, and issues no request the second time. *)
Example throttledTopic_with_cache :
  let run1 :=
    CachingComputor.computeImpactForTopic throttledEnv throttledTopic
      (initialState [throttledTopic]) in
  let topic1 := default throttledTopic (mjoin (returned (fst run1))) in
  let run2 := CachingComputor.computeImpactForTopic throttledEnv topic1 (snd run1) in
  calls (snd run1) = [getTopic "T-A"; getWorks "T-A"; getSearch "Topic A"] /\
  backoffUntil (Topic.metrics topic1) = Some (todayMs + CachingComputor.BACKOFF_MS) /\
  lastError (Topic.metrics topic1)
  = Some "wikipedia-search: Request failed with status code 429" /\
  calls (snd run2) = calls (snd run1).
Proof. repeat split. Qed.

(** A batch of two Topics with one external key and one title, in the text
    without the cache: the totals, the trailing works and the page views
    are each requested twice. *)
Example shared_key_is_fetched_twice :
  calls (snd (Computor.computeImpactForAllTopics sharedEnv
                (initialState [sharedAlpha; sharedBeta])))
  = [getTopic "T-S"; getWorks "T-S"; getSearch "Alpha"; getPageviews "Shared_Title";
     getTopic "T-S"; getWorks "T-S"; getSearch "Beta"; getPageviews "Shared_Title"].
Proof. reflexivity. Qed.

(** With the run cache the second Topic only needs its own title. *)
Example shared_key_with_cache :
  calls (snd (CachingComputor.computeImpactForAllTopics sharedEnv
                (initialState [sharedAlpha; sharedBeta])))
  = [getTopic "T-S"; getWorks "T-S"; getSearch "Alpha"; getPageviews "Shared_Title";
     getSearch "Beta"].
Proof. reflexivity. Qed.

(** ** Failures of a source *)

Section SourceFailures.
Variable env : Env.

Ltac refute_answer H :=
  match goal with
  | Heq : http env ?h ?r = inr _ |- _ =>
      let e := fresh "e" in
      let He := fresh "He" in
      destruct (H h) as [e He];
      unfold totalsRequest, worksRequest, searchRequest, pageviewsRequest in He;
      simpl in He; rewrite He in Heq; discriminate
  end.

(** In the text without the cache the computation never throws, and a
    source whose requests are refused contributes [0]. *)
Lemma source_failure_facts (topic : Topic.t) (st : State) :
  exists raw st',
    Computor.computeRawIndicatorsForTopic env topic st = (Normal raw, st') /\
    collection st' = collection st /\
    writes st' = writes st /\
    (refused env (totalsRequest topic) ->
     Computor.citedByCount (Computor.metrics raw) = 0%Q /\
     Computor.worksCount (Computor.metrics raw) = 0%Q) /\
    (refused env (worksRequest (clock env) topic) ->
     Computor.worksLast12Months (Computor.metrics raw) = 0%Q) /\
    (refused env (searchRequest topic) ->
     Computor.wikiViews12Months (Computor.metrics raw) = 0%Q) /\
    ((forall title, refused env (pageviewsRequest (clock env) title)) ->
     Computor.wikiViews12Months (Computor.metrics raw) = 0%Q).
Proof.
  unfold_run. cbn zeta. split_run;
    (eexists; eexists; split; [reflexivity|]; simpl;
     split; [reflexivity|]; split; [reflexivity|];
     refine (conj _ (conj _ (conj _ _))); intros Href;
     try (split; reflexivity); try reflexivity; try refute_answer Href).
  all: match goal with
       | Heq : http env ?h ?r = inr _, H : forall title, refused env _ |- _ =>
           match r with
           | context [Str.replaceSpaces ?t] => let H' := fresh in
               pose proof (H t) as H'; refute_answer H'
           end
       end.
Qed.

End SourceFailures.

Lemma rejectAll_refuses (text : string) (request : Request) :
  refused (development (rejectAll text)) request.
Proof. intros history. eexists. reflexivity. Qed.

(** ** The batch entry point *)

Section BatchFacts.
Variable env : Env.

Lemma collectRawResults_returns (topics : list Topic.t) (rawResults : list Computor.Entry.t)
    (st : State) :
  exists rawResults' st',
    Computor.collectRawResults env topics rawResults st = (Normal rawResults', st') /\
    map Computor.Entry.topic rawResults'
    = map Computor.Entry.topic rawResults ++ topics /\
    collection st' = collection st /\
    writes st' = writes st.
Proof.
  revert rawResults st. induction topics as [|topic topics IH]; intros rawResults st.
  - exists rawResults, st. simpl. rewrite app_nil_r. auto.
  - destruct (source_failure_facts env topic st) as (raw & st1 & Hraw & Hc & Hw & _).
    simpl. unfold bind at 1. rewrite Hraw.
    destruct (IH (rawResults ++
                    [{| Computor.Entry.topic := topic;
                        Computor.Entry.impactRaw := Computor.impactRaw raw;
                        Computor.Entry.activityRaw := Computor.activityRaw raw |}]) st1)
      as (rawResults' & st' & Hrun & Hmap & Hc' & Hw').
    exists rawResults', st'. rewrite Hrun. repeat split.
    + rewrite Hmap, map_app, <- app_assoc. reflexivity.
    + congruence.
    + congruence.
Qed.

Lemma saving_loop (impactValues activityValues : list R)
    (entries : list Computor.Entry.t) (st : State) :
  let docs := map (normalized impactValues activityValues) entries in
  exists completion st',
    forOf entries (Computor.normalizeAndSave env impactValues activityValues) st
    = (completion, st') /\
    (completion = Normal tt <-> savedPrefix env docs = docs) /\
    calls st' = calls st /\
    console st' = console st /\
    writes st' = writes st ++ savedPrefix env docs /\
    collection st' = storeAll (savedPrefix env docs) (collection st).
Proof.
  revert st. induction entries as [|entry entries IH]; intros st; simpl.
  - exists (Normal tt), st. rewrite app_nil_r. repeat split; reflexivity.
  - unfold bind at 1. unfold Computor.normalizeAndSave at 1. unfold save.
    fold (normalized impactValues activityValues entry).
    destruct (saveError env (normalized impactValues activityValues entry)) as [e|] eqn:Hsave.
    + eexists. eexists. split; [reflexivity|]. simpl. rewrite app_nil_r.
      repeat split; try reflexivity; intros H; discriminate.
    + match goal with |- context [forOf entries ?f ?s] => destruct (IH s)
        as (completion & st' & Hrun & Hiff & Hcalls & Hconsole & Hwrites & Hcoll) end.
      exists completion, st'. rewrite Hrun. simpl in *.
      split; [reflexivity|]. split; [|split; [|split; [|split]]].
      * rewrite Hiff. split; intros H; [congruence|]. now injection H.
      * assumption.
      * assumption.
      * rewrite Hwrites, <- app_assoc. reflexivity.
      * rewrite Hcoll. reflexivity.
Qed.

(** C9.  When the Topic population cannot be loaded the batch is over: no
    request is issued and nothing is written; the entry point reports the
    failure on [console.error] and returns normally. *)
Theorem load_failure_is_absorbed (st : State) (e : Error) :
  findError env = Some e ->
  Computor.computeImpactForAllTopics env st
  = (Normal tt,
     {| calls := calls st;
        console := console st ++
          [{| level := console_error;
              pieces := [Text "Error computing impact for all topics:";
                         Text (message e)] |}];
        collection := collection st;
        writes := writes st |}).
Proof.
  intros Hfind. unfold Computor.computeImpactForAllTopics, try_catch, bind, Topic_find.
  rewrite Hfind. reflexivity.
Qed.

Lemma saving_loop_completion (impactValues activityValues : list R)
    (entries : list Computor.Entry.t) (st : State) :
  fst (forOf entries (Computor.normalizeAndSave env impactValues activityValues) st)
  = match firstSaveError env (map (normalized impactValues activityValues) entries) with
    | Some e => Throw e
    | None => Normal tt
    end.
Proof.
  revert st. induction entries as [|entry entries IH]; intros st; simpl; [reflexivity|].
  unfold bind at 1. unfold Computor.normalizeAndSave at 1. unfold save.
  fold (normalized impactValues activityValues entry).
  destruct (saveError env (normalized impactValues activityValues entry)) as [e|];
    [reflexivity|].
  apply IH.
Qed.

Lemma firstSaveError_none (docs : list Topic.t) :
  firstSaveError env docs = None <-> savedPrefix env docs = docs.
Proof.
  induction docs as [|doc docs IH]; simpl; [tauto|].
  destruct (saveError env doc) as [e|].
  - split; discriminate.
  - rewrite IH. split; intros H; [congruence|]. now injection H.
Qed.

(** C8.  Once the population is loaded, the first loop returns a raw
    composite for every Topic, in load order, whatever the providers
    answer.  The normalized documents are then saved in load order up to
    the first save that fails: the documents in front of it are written,
    its own document and the ones after it are not.  The failure of that
    save is reported on [console.error], as the last line of the console;
    when every save succeeds the last line is the closing message.  The
    second loop issues no request, and the entry point returns normally. *)
Theorem batch_saves_until_first_failure (st : State) :
  findError env = None ->
  exists rawResults st1 st',
    Computor.collectRawResults env (collection st) []
      {| calls := calls st;
         console := console st ++
           [{| level := console_log;
               pieces := [Text "Found "; Count (length (collection st));
                          Text " topic(s) for impact update."] |}];
         collection := collection st; writes := writes st |}
    = (Normal rawResults, st1) /\
    map Computor.Entry.topic rawResults = collection st /\
    let impactValues :=
      Js.sort (fun a b => (a - b)%R) (map Computor.Entry.impactRaw rawResults) in
    let activityValues :=
      Js.sort (fun a b => (a - b)%R) (map Computor.Entry.activityRaw rawResults) in
    let docs := map (normalized impactValues activityValues) rawResults in
    Computor.computeImpactForAllTopics env st = (Normal tt, st') /\
    calls st' = calls st1 /\
    writes st' = writes st ++ savedPrefix env docs /\
    collection st' = storeAll (savedPrefix env docs) (collection st) /\
    console st' = console st1 ++ [closingLine (firstSaveError env docs)] /\
    (firstSaveError env docs = None <-> savedPrefix env docs = docs).
Proof.
  intros Hfind.
  unfold Computor.computeImpactForAllTopics, try_catch, bind at 1, Topic_find.
  rewrite Hfind. unfold bind at 1. simpl.
  match goal with |- context [bind _ _ ?s] =>
    destruct (collectRawResults_returns (collection st) [] s)
      as (rawResults & st1 & Hrun & Hmap & Hcoll & Hwrites) end.
  exists rawResults, st1. unfold bind at 1. rewrite Hrun. simpl in Hmap, Hcoll, Hwrites.
  cbv beta iota. unfold bind at 1.
  match goal with |- context [forOf rawResults (Computor.normalizeAndSave env ?iv ?av) st1] =>
    destruct (saving_loop iv av rawResults st1)
      as (completion & st2 & Hloop & _ & Hcalls & Hconsole & Hw2 & Hc2);
    pose proof (saving_loop_completion iv av rawResults st1) as Hcompletion;
    pose proof (firstSaveError_none (map (normalized iv av) rawResults)) as Hnone
  end.
  rewrite Hloop in Hcompletion. simpl in Hcompletion. rewrite Hloop.
  destruct (firstSaveError env _) as [e|]; subst completion;
    eexists; (split; [reflexivity|]); (split; [exact Hmap|]);
    (split; [reflexivity|]); simpl;
    (split; [congruence|]); (split; [congruence|]); (split; [congruence|]);
    (split; [congruence|]); exact Hnone.
Qed.

End BatchFacts.

Lemma load_failure_is_absorbed_witness :
  fst (Computor.computeImpactForAllTopics unreadableEnv (initialState threeTopics))
  = Normal tt.
Proof.
  rewrite (load_failure_is_absorbed unreadableEnv (initialState threeTopics)
             {| message := "connection refused" |}); reflexivity.
Defined.

(** The entry point does not raise the failure of the load again. *)
Lemma load_failure_is_not_raised :
  findError unreadableEnv = Some {| message := "connection refused" |} /\
  fst (Computor.computeImpactForAllTopics unreadableEnv (initialState threeTopics))
  <> Throw {| message := "connection refused" |}.
Proof. split; [reflexivity|]. discriminate. Qed.

Lemma batch_saves_until_first_failure_witness :
  exists rawResults st1 st',
    Computor.collectRawResults refusingEnv threeTopics []
      {| calls := [];
         console :=
           [{| level := console_log;
               pieces := [Text "Found "; Count 3; Text " topic(s) for impact update."] |}];
         collection := threeTopics; writes := [] |}
    = (Normal rawResults, st1) /\
    map Computor.Entry.topic rawResults = threeTopics /\
    let impactValues :=
      Js.sort (fun a b => (a - b)%R) (map Computor.Entry.impactRaw rawResults) in
    let activityValues :=
      Js.sort (fun a b => (a - b)%R) (map Computor.Entry.activityRaw rawResults) in
    let docs := map (normalized impactValues activityValues) rawResults in
    Computor.computeImpactForAllTopics refusingEnv (initialState threeTopics)
    = (Normal tt, st') /\
    calls st' = calls st1 /\
    writes st' = [] ++ savedPrefix refusingEnv docs /\
    collection st' = storeAll (savedPrefix refusingEnv docs) threeTopics /\
    console st' = console st1 ++ [closingLine (firstSaveError refusingEnv docs)] /\
    (firstSaveError refusingEnv docs = None <-> savedPrefix refusingEnv docs = docs).
Proof.
  apply (batch_saves_until_first_failure refusingEnv (initialState threeTopics)).
  reflexivity.
Defined.

(** The save of the second of three Topics fails: the third, whose own
    save would succeed, is not written either, and the entry point ends
    on the failure it caught. *)
Lemma failed_save_loses_later_writes :
  let st' := snd (Computor.computeImpactForAllTopics refusingEnv
                    (initialState threeTopics)) in
  (forall doc, Topic._id doc = 3%N -> saveError refusingEnv doc = None) /\
  map Topic._id (writes st') = [1%N] /\
  nth_error (collection st') 2 = nth_error threeTopics 2 /\
  last (console st')
  = Some {| level := console_error;
            pieces := [Text "Error computing impact for all topics:";
                       Text "write conflict"] |}.
Proof.
  split; [|split; [|split]; reflexivity].
  intros doc Hid. simpl. rewrite Hid. reflexivity.
Qed.

(** ** Sorting and ranking a batch *)

Lemma strictEq_true (a b : R) : Js.strictEq a b = true <-> a = b.
Proof.
  unfold Js.strictEq. destruct (Req_dec_T a b); split; intros; congruence.
Qed.

Lemma strictEq_false (a b : R) : Js.strictEq a b = false <-> a <> b.
Proof.
  unfold Js.strictEq. destruct (Req_dec_T a b); split; intros; congruence.
Qed.

Lemma insertSorted_perm {A} (compareFn : A -> A -> R) (x : A) (l : list A) :
  Js.insertSorted compareFn x l ≡ₚ x :: l.
Proof.
  induction l as [|y l IH]; simpl.
  - reflexivity.
  - destruct (Rle_dec (compareFn x y) 0).
    + reflexivity.
    + rewrite IH. apply Permutation_swap.
Qed.

Lemma sort_perm {A} (compareFn : A -> A -> R) (l : list A) :
  Js.sort compareFn l ≡ₚ l.
Proof.
  induction l as [|x l IH]; simpl.
  - reflexivity.
  - rewrite insertSorted_perm, IH. reflexivity.
Qed.

Lemma insertSorted_sorted (x : R) (l : list R) :
  StronglySorted Rle l -> StronglySorted Rle (Js.insertSorted ascending x l).
Proof.
  induction l as [|y l IH]; intros Hs; simpl.
  - repeat constructor.
  - apply StronglySorted_cons in Hs as [Hy Hs].
    unfold ascending at 1. destruct (Rle_dec (x - y) 0) as [Hle|Hgt].
    + apply StronglySorted_cons. split.
      * constructor; [lra|]. eapply Forall_impl; [exact Hy|]. intros z Hz. simpl in Hz. lra.
      * apply StronglySorted_cons. auto.
    + apply StronglySorted_cons. split; [|auto].
      rewrite insertSorted_perm. constructor; [lra|assumption].
Qed.

Lemma sort_sorted (l : list R) : StronglySorted Rle (Js.sort ascending l).
Proof.
  induction l as [|x l IH]; simpl.
  - constructor.
  - now apply insertSorted_sorted.
Qed.

Lemma countBelow_perm (l l' : list R) (v : R) : l ≡ₚ l' -> countBelow l v = countBelow l' v.
Proof. intros H. unfold countBelow. now rewrite H. Qed.

Lemma countEqual_perm (l l' : list R) (v : R) : l ≡ₚ l' -> countEqual l v = countEqual l' v.
Proof. intros H. unfold countEqual. now rewrite H. Qed.

Lemma countBelow_none (l : list R) (v : R) :
  Forall (Rle v) l -> countBelow l v = 0%nat.
Proof.
  intros H. unfold countBelow. induction H as [|x l Hx _ IH]; [reflexivity|].
  rewrite filter_cons_False by lra. exact IH.
Qed.

Lemma countEqual_none (l : list R) (v : R) : v ∉ l -> countEqual l v = 0%nat.
Proof.
  intros H. unfold countEqual. induction l as [|x l IH]; [reflexivity|].
  rewrite not_elem_of_cons in H. destruct H as [Hx Hl].
  rewrite filter_cons_False by congruence. auto.
Qed.

Lemma countEqual_pos (l : list R) (v : R) : v ∈ l -> (0 < countEqual l v)%nat.
Proof.
  unfold countEqual. induction l as [|x l IH]; intros H.
  - now apply elem_of_nil in H.
  - destruct (decide (x = v)) as [Hx|Hx].
    + rewrite filter_cons_True by assumption. simpl. lia.
    + rewrite filter_cons_False by assumption. apply IH.
      apply elem_of_cons in H as [H|H]; [congruence|assumption].
Qed.

Lemma sorted_head_le (x v : R) (l : list R) :
  StronglySorted Rle (x :: l) -> v ∈ x :: l -> (x <= v)%R.
Proof.
  intros Hs Hv. apply StronglySorted_cons in Hs as [Hx _].
  apply elem_of_cons in Hv as [->|Hv]; [lra|].
  rewrite Forall_forall in Hx. auto.
Qed.

(** In an ascending array the first index of a value it holds is the
    number of elements below the value. *)
Lemma sorted_findIndex (l : list R) (v : R) (i : Z) :
  StronglySorted Rle l -> v ∈ l ->
  Js.findIndexFrom (fun item => Js.strictEq item v) i l = i + Z.of_nat (countBelow l v).
Proof.
  revert i. induction l as [|x l IH]; intros i Hs Hv.
  - now apply elem_of_nil in Hv.
  - pose proof (sorted_head_le _ _ _ Hs Hv) as Hle.
    apply StronglySorted_cons in Hs as [Hx Hs]. simpl.
    destruct (Js.strictEq x v) eqn:E.
    + apply strictEq_true in E. subst x.
      rewrite countBelow_none; [lia|]. constructor; [lra|assumption].
    + apply strictEq_false in E.
      apply elem_of_cons in Hv as [Hv|Hv]; [congruence|].
      rewrite IH by assumption. unfold countBelow.
      rewrite filter_cons_True by lra. simpl length. lia.
Qed.

(** ... and its last index is that number plus the number of further
    elements equal to it. *)
Lemma sorted_last_occurrence (l : list R) (v : R) :
  StronglySorted Rle l -> v ∈ l ->
  exists before after,
    l = before ++ v :: after /\
    Forall (fun y => Js.strictEq y v = false) after /\
    S (length before) = (countBelow l v + countEqual l v)%nat.
Proof.
  induction l as [|x l IH]; intros Hs Hv.
  - now apply elem_of_nil in Hv.
  - pose proof (sorted_head_le _ _ _ Hs Hv) as Hle.
    apply StronglySorted_cons in Hs as [Hx Hs].
    destruct (decide (v ∈ l)) as [Hin|Hout].
    + destruct (IH Hs Hin) as (before & after & -> & Hafter & Hlen).
      exists (x :: before), after. split; [reflexivity|]. split; [assumption|].
      unfold countBelow, countEqual in *. simpl length.
      destruct (decide (x = v)) as [->|Hne].
      * rewrite (filter_cons_False (fun y => (y < v)%R)) by lra.
        rewrite (filter_cons_True (fun y => y = v)) by reflexivity. simpl length. lia.
      * rewrite (filter_cons_True (fun y => (y < v)%R)) by lra.
        rewrite (filter_cons_False (fun y => y = v)) by assumption. simpl length. lia.
    + apply elem_of_cons in Hv as [->|Hv]; [|contradiction].
      exists [], l. split; [reflexivity|]. split.
      * apply Forall_forall. intros y Hy. apply strictEq_false. intros ->. contradiction.
      * pose proof (countBelow_none l x Hx) as Hb.
        pose proof (countEqual_none l x Hout) as He.
        unfold countBelow, countEqual in *.
        rewrite (filter_cons_False (fun y => (y < x)%R)) by lra.
        rewrite (filter_cons_True (fun y => y = x)) by reflexivity.
        simpl length. lia.
Qed.

Lemma sorted_findLastIndex (l : list R) (v : R) :
  StronglySorted Rle l -> v ∈ l ->
  Js.findLastIndex (fun item => Js.strictEq item v) l
  = Z.of_nat (countBelow l v) + Z.of_nat (countEqual l v) - 1.
Proof.
  intros Hs Hv.
  destruct (sorted_last_occurrence l v Hs Hv) as (before & after & Hl & Hafter & Hlen).
  rewrite Hl at 1. rewrite findLastIndex_last.
  - lia.
  - assumption.
  - now apply strictEq_true.
Qed.

(** The rank of a value of the batch from the two counts. *)
Lemma rank_in_batch (raw : list R) (v : R) :
  (1 < length raw)%nat -> v ∈ raw ->
  let sorted := Js.sort (fun a b => (a - b)%R) raw in
  Js.findIndex (fun item => Js.strictEq item v) sorted = Z.of_nat (countBelow raw v) /\
  Js.findLastIndex (fun item => Js.strictEq item v) sorted
  = Z.of_nat (countBelow raw v) + Z.of_nat (countEqual raw v) - 1 /\
  (percentileRank Js.strictEq sorted v
   == (inject_Z (Z.of_nat (countBelow raw v))
       + (inject_Z (Z.of_nat (countBelow raw v)) + inject_Z (Z.of_nat (countEqual raw v)) - 1))
      / 2 / (inject_Z (Z.of_nat (length raw)) - 1) * 100)%Q.
Proof.
  intros Hn Hv sorted.
  assert (Hperm : sorted ≡ₚ raw) by apply sort_perm.
  assert (Hs : StronglySorted Rle sorted) by apply (sort_sorted raw).
  assert (Hv' : v ∈ sorted) by now rewrite Hperm.
  assert (Hlen : length sorted = length raw) by now rewrite Hperm.
  assert (Hfirst : Js.findIndex (fun item => Js.strictEq item v) sorted
                   = Z.of_nat (countBelow raw v)).
  { unfold Js.findIndex. rewrite sorted_findIndex by assumption.
    rewrite (countBelow_perm _ _ v Hperm). lia. }
  assert (Hlast : Js.findLastIndex (fun item => Js.strictEq item v) sorted
                  = Z.of_nat (countBelow raw v) + Z.of_nat (countEqual raw v) - 1).
  { rewrite sorted_findLastIndex by assumption.
    rewrite (countBelow_perm _ _ v Hperm), (countEqual_perm _ _ v Hperm). reflexivity. }
  split; [assumption|]. split; [assumption|].
  rewrite percentileRank_unfold by lia. rewrite Hfirst, Hlast, Hlen.
  assert (E : forall a b : Z,
    (inject_Z (a + (a + b - 1)) == inject_Z a + (inject_Z a + inject_Z b - 1))%Q).
  { intros a b. unfold Qeq, Qplus, Qminus, Qopp, inject_Z. simpl. lia. }
  rewrite E. reflexivity.
Qed.

Lemma findIndex_at {A} (p : A -> bool) (l : list A) (k : nat) (x : A) :
  l !! k = Some x -> p x = true ->
  (forall j y, (j < k)%nat -> l !! j = Some y -> p y = false) ->
  Js.findIndex p l = Z.of_nat k.
Proof.
  intros Hk Hx Hbefore.
  pose proof (lookup_lt_Some _ _ _ Hk) as Hlt.
  rewrite <- (take_drop_middle l k x Hk).
  rewrite findIndex_first; [|apply Forall_lookup_2|assumption].
  - rewrite length_take. lia.
  - intros j y Hj.
    pose proof (lookup_lt_Some _ _ _ Hj) as Hjlt. rewrite length_take in Hjlt.
    rewrite lookup_take_lt in Hj by lia. eapply Hbefore; [|exact Hj]. lia.
Qed.

Lemma findLastIndex_at {A} (p : A -> bool) (l : list A) (k : nat) (x : A) :
  l !! k = Some x -> p x = true ->
  (forall j y, (k < j)%nat -> l !! j = Some y -> p y = false) ->
  Js.findLastIndex p l = Z.of_nat k.
Proof.
  intros Hk Hx Hafter.
  pose proof (lookup_lt_Some _ _ _ Hk) as Hlt.
  rewrite <- (take_drop_middle l k x Hk).
  rewrite findLastIndex_last; [|apply Forall_lookup_2|assumption].
  - rewrite length_take. lia.
  - intros j y Hj. rewrite lookup_drop in Hj. eapply Hafter; [|exact Hj]. lia.
Qed.

Lemma count_le_total (raw : list R) (v : R) :
  Forall (fun x => (x <= v)%R) raw ->
  (countBelow raw v + countEqual raw v)%nat = length raw.
Proof.
  intros H. unfold countBelow, countEqual.
  induction H as [|x l Hx _ IH]; [reflexivity|].
  destruct (decide (x = v)) as [->|Hne].
  - rewrite (filter_cons_False (fun y => (y < v)%R)) by lra.
    rewrite (filter_cons_True (fun y => y = v)) by reflexivity. simpl length. lia.
  - rewrite (filter_cons_True (fun y => (y < v)%R)) by lra.
    rewrite (filter_cons_False (fun y => y = v)) by assumption. simpl length. lia.
Qed.

(** Evaluation of the two counts on a list of numerals. *)
Ltac count_numerals :=
  unfold countBelow, countEqual;
  repeat first
    [ rewrite filter_nil
    | rewrite filter_cons_True by lra
    | rewrite filter_cons_False by lra ];
  simpl length.

Lemma Qnat_gt1 (n : nat) : (1 < n)%nat -> (1 < Qnat n)%Q.
Proof. apply inject_length_gt1. Qed.

Lemma rank_by_counts (raw : list R) (v : R) :
  (1 < length raw)%nat -> v ∈ raw ->
  (percentileRank Js.strictEq (Js.sort (fun a b => (a - b)%R) raw) v
   == (Qnat (countBelow raw v) + (Qnat (countBelow raw v) + Qnat (countEqual raw v) - 1))
      / 2 / (Qnat (length raw) - 1) * 100)%Q.
Proof. intros Hn Hv. apply (rank_in_batch raw v Hn Hv). Qed.

Lemma rank_of_minimum (raw : list R) (value : R) (k : nat) :
  (1 < length raw)%nat -> value ∈ raw -> Forall (Rle value) raw ->
  countEqual raw value = k ->
  (percentileRank Js.strictEq (Js.sort (fun a b => (a - b)%R) raw) value
   == 50 * (Qnat k - 1) / (Qnat (length raw) - 1))%Q.
Proof.
  intros Hn Hv Hmin Hk. rewrite rank_by_counts by assumption.
  rewrite countBelow_none by assumption. rewrite Hk.
  pose proof (Qnat_gt1 _ Hn). change (Qnat 0) with 0%Q. field. Lqa.lra.
Qed.

Lemma rank_of_maximum (raw : list R) (value : R) (k : nat) :
  (1 < length raw)%nat -> value ∈ raw -> Forall (fun x => (x <= value)%R) raw ->
  countEqual raw value = k ->
  (percentileRank Js.strictEq (Js.sort (fun a b => (a - b)%R) raw) value
   == 100 - 50 * (Qnat k - 1) / (Qnat (length raw) - 1))%Q.
Proof.
  intros Hn Hv Hmax Hk. rewrite rank_by_counts by assumption.
  pose proof (count_le_total raw value Hmax) as Htotal. rewrite Hk in Htotal.
  assert (Hb : (Qnat (countBelow raw value) == Qnat (length raw) - Qnat k)%Q).
  { rewrite <- Htotal. unfold Qnat. rewrite Nat2Z.inj_add, inject_Z_plus. ring. }
  rewrite Hk, Hb. pose proof (Qnat_gt1 _ Hn). field. Lqa.lra.
Qed.

Lemma rank_between_occurrences (sortedValues : list R) (value : R) (first last : nat) :
  (1 < length sortedValues)%nat ->
  sortedValues !! first = Some value ->
  (forall i, (i < first)%nat -> sortedValues !! i <> Some value) ->
  sortedValues !! last = Some value ->
  (forall i, (last < i)%nat -> sortedValues !! i <> Some value) ->
  (percentileRank Js.strictEq sortedValues value
   == (Qnat first + Qnat last) / 2 / (Qnat (length sortedValues) - 1) * 100)%Q.
Proof.
  intros Hn Hfirst Hbefore Hlast Hafter.
  rewrite percentileRank_unfold by assumption.
  rewrite (findIndex_at _ _ first value), (findLastIndex_at _ _ last value);
    try assumption; try (now apply strictEq_true).
  - unfold Qnat. rewrite inject_Z_plus. reflexivity.
  - intros j y Hj Hy. apply strictEq_false. intros ->. exact (Hafter j Hj Hy).
  - intros j y Hj Hy. apply strictEq_false. intros ->. exact (Hbefore j Hj Hy).
Qed.

Lemma rank_of_tied_twenties :
  (percentileRank Js.strictEq
     (Js.sort (fun a b => (a - b)%R) [10; 20; 20; 30]%R) 20%R == 50)%Q.
Proof.
  rewrite rank_by_counts; [|simpl; lia|apply list_elem_of_In; simpl; auto].
  count_numerals. reflexivity.
Qed.

(** C4.  The batch is sorted ascending; the rank of a value is the average
    of the first and the last index at which it occurs in the sorted
    array, divided by [n - 1] and scaled by [100], so equal values share
    one rank (both [20] of [10, 20, 20, 30] rank [50]).  In a batch of
    [n > 1] a minimum that occurs [k] times ranks [50 (k - 1) / (n - 1)]
    and a maximum that occurs [k] times [100 - 50 (k - 1) / (n - 1)]:
    [0] and [100] when they are not tied.  A batch of one ranks [100], an
    empty one [0]. *)
Theorem percentileRank_mid_rank :
  (forall raw : list R,
      StronglySorted Rle (Js.sort (fun a b => (a - b)%R) raw) /\
      Js.sort (fun a b => (a - b)%R) raw ≡ₚ raw) /\
  (forall (sortedValues : list R) (value : R) (first last : nat),
      (1 < length sortedValues)%nat ->
      sortedValues !! first = Some value ->
      (forall i, (i < first)%nat -> sortedValues !! i <> Some value) ->
      sortedValues !! last = Some value ->
      (forall i, (last < i)%nat -> sortedValues !! i <> Some value) ->
      (percentileRank Js.strictEq sortedValues value
       == (Qnat first + Qnat last) / 2 / (Qnat (length sortedValues) - 1) * 100)%Q) /\
  (percentileRank Js.strictEq
     (Js.sort (fun a b => (a - b)%R) [10; 20; 20; 30]%R) 20%R == 50)%Q /\
  (forall (raw : list R) (value : R) (k : nat),
      (1 < length raw)%nat -> value ∈ raw -> Forall (Rle value) raw ->
      countEqual raw value = k ->
      (percentileRank Js.strictEq (Js.sort (fun a b => (a - b)%R) raw) value
       == 50 * (Qnat k - 1) / (Qnat (length raw) - 1))%Q /\
      (k = 1%nat ->
       (percentileRank Js.strictEq (Js.sort (fun a b => (a - b)%R) raw) value == 0)%Q)) /\
  (forall (raw : list R) (value : R) (k : nat),
      (1 < length raw)%nat -> value ∈ raw -> Forall (fun x => (x <= value)%R) raw ->
      countEqual raw value = k ->
      (percentileRank Js.strictEq (Js.sort (fun a b => (a - b)%R) raw) value
       == 100 - 50 * (Qnat k - 1) / (Qnat (length raw) - 1))%Q /\
      (k = 1%nat ->
       (percentileRank Js.strictEq (Js.sort (fun a b => (a - b)%R) raw) value == 100)%Q)) /\
  (forall x value : R,
      percentileRank Js.strictEq (Js.sort (fun a b => (a - b)%R) [x]) value = 100%Q) /\
  (forall value : R,
      percentileRank Js.strictEq (Js.sort (fun a b => (a - b)%R) []) value = 0%Q).
Proof.
  split; [|split; [|split; [|split; [|split; [|split]]]]].
  - intros raw. split; [apply (sort_sorted raw) | apply sort_perm].
  - exact rank_between_occurrences.
  - exact rank_of_tied_twenties.
  - intros raw value k Hn Hv Hmin Hk.
    pose proof (rank_of_minimum raw value k Hn Hv Hmin Hk) as Hrank.
    split; [exact Hrank|]. intros ->. rewrite Hrank.
    pose proof (Qnat_gt1 _ Hn). change (Qnat 1) with 1%Q. field. Lqa.lra.
  - intros raw value k Hn Hv Hmax Hk.
    pose proof (rank_of_maximum raw value k Hn Hv Hmax Hk) as Hrank.
    split; [exact Hrank|]. intros ->. rewrite Hrank.
    pose proof (Qnat_gt1 _ Hn). change (Qnat 1) with 1%Q. field. Lqa.lra.
  - reflexivity.
  - reflexivity.
Qed.

Lemma percentileRank_mid_rank_witness :
  (percentileRank Js.strictEq
     (Js.sort (fun a b => (a - b)%R) [30; 10; 20; 20]%R) 10%R == 0)%Q /\
  (percentileRank Js.strictEq
     (Js.sort (fun a b => (a - b)%R) [30; 10; 20; 20]%R) 30%R == 100)%Q.
Proof.
  destruct percentileRank_mid_rank as (_ & _ & _ & Hmin & Hmax & _).
  split.
  - apply (Hmin [30; 10; 20; 20]%R 10%R 1%nat); try reflexivity.
    + simpl. lia.
    + apply list_elem_of_In. simpl. auto.
    + repeat constructor; lra.
    + count_numerals. reflexivity.
  - apply (Hmax [30; 10; 20; 20]%R 30%R 1%nat); try reflexivity.
    + simpl. lia.
    + apply list_elem_of_In. simpl. auto.
    + repeat constructor; lra.
    + count_numerals. reflexivity.
Defined.

(** The minimum of [10, 10, 20] is tied and ranks [25]; the maximum of
    [10, 20, 20] is tied and ranks [75]. *)
Lemma tied_extremes_rank_inside :
  Forall (Rle 10) [10; 10; 20]%R /\
  (percentileRank Js.strictEq
     (Js.sort (fun a b => (a - b)%R) [10; 10; 20]%R) 10%R == 25)%Q /\
  ~ (percentileRank Js.strictEq
       (Js.sort (fun a b => (a - b)%R) [10; 10; 20]%R) 10%R == 0)%Q /\
  Forall (fun x => (x <= 20)%R) [10; 20; 20]%R /\
  (percentileRank Js.strictEq
     (Js.sort (fun a b => (a - b)%R) [10; 20; 20]%R) 20%R == 75)%Q /\
  ~ (percentileRank Js.strictEq
       (Js.sort (fun a b => (a - b)%R) [10; 20; 20]%R) 20%R == 100)%Q.
Proof.
  assert (Hmin : (percentileRank Js.strictEq
                    (Js.sort (fun a b => (a - b)%R) [10; 10; 20]%R) 10%R == 25)%Q).
  { rewrite rank_by_counts; [|simpl; lia|apply list_elem_of_In; simpl; auto]. count_numerals. reflexivity. }
  assert (Hmax : (percentileRank Js.strictEq
                    (Js.sort (fun a b => (a - b)%R) [10; 20; 20]%R) 20%R == 75)%Q).
  { rewrite rank_by_counts; [|simpl; lia|apply list_elem_of_In; simpl; auto]. count_numerals. reflexivity. }
  repeat split; try assumption; try (repeat constructor; lra).
  - rewrite Hmin. discriminate.
  - rewrite Hmax. discriminate.
Qed.

(** ** The computor with the metrics cache *)

Ltac unfold_caching :=
  unfold CachingComputor.computeRawIndicatorsForTopic, CachingComputor.resolveTotals,
    CachingComputor.resolveWorks12m, CachingComputor.resolveTitle,
    CachingComputor.resolveViews, CachingComputor.fetchOpenAlexTopicMetrics,
    CachingComputor.fetchOpenAlexWorksCountLast12Months,
    CachingComputor.fetchWikipediaTitle, CachingComputor.fetchWikipediaViews12Months,
    CachingComputor.ensureTopicMetrics,
    getLast12MonthsRange, try_catch, bind, ret, axios_get, console_call in *.

Section CachingFacts.
Variable env : Env.

(** With the three timestamps within their time-to-live and an empty run
    cache, the computation issues no request and its signals are the
    values of the snapshot. *)
Lemma fresh_snapshot_is_reused (topic : Topic.t) (st : State) :
  let m := Topic.metrics topic in
  CachingComputor.isFresh (Openalex.lastFetchedAt (openalex m))
    CachingComputor.CACHE_TTL_MS_openalexAllTime (now env) = true ->
  CachingComputor.isFresh (Openalex.lastWorksFetchedAt (openalex m))
    CachingComputor.CACHE_TTL_MS_openalexWorks12m (now env) = true ->
  CachingComputor.isFresh (Wikipedia.lastFetchedAt (wikipedia m))
    CachingComputor.CACHE_TTL_MS_wikipediaViews (now env) = true ->
  exists raw topic' runCache st',
    CachingComputor.computeRawIndicatorsForTopic env topic
      CachingComputor.createRunCache st = (Normal (raw, topic', runCache), st') /\
    calls st' = calls st /\
    Topic.metrics topic' = Topic.metrics topic /\
    let signals := CachingComputor.metrics raw in
    CachingComputor.citedByCount signals
      = Js.orZero (Some (Openalex.citedByCount (openalex m))) /\
    CachingComputor.worksCount signals
      = Js.orZero (Some (Openalex.worksCount (openalex m))) /\
    CachingComputor.worksLast12Months signals
      = Js.orZero (Some (Openalex.worksLast12Months (openalex m))) /\
    CachingComputor.wikiViews12Months signals
      = Js.orZero (Some (Wikipedia.views12Months (wikipedia m))).
Proof.
  intros m Hall Hworks Hwiki. subst m.
  unfold_caching. cbn zeta. simpl. rewrite !lookup_empty. simpl.
  rewrite ?Hall, ?Hworks, ?Hwiki.
  repeat match goal with
  | |- context [if ?b then _ else _] =>
      destruct b eqn:?; simpl; rewrite ?Hall, ?Hworks, ?Hwiki, ?lookup_empty; simpl
  | |- context [match ?x with _ => _ end] =>
      destruct x eqn:?; simpl; rewrite ?Hall, ?Hworks, ?Hwiki, ?lookup_empty; simpl
  end.
  all: try (simpl in *; discriminate).
  all: do 4 eexists; split; [reflexivity|]; simpl; repeat split; reflexivity.
Qed.

(** While the backoff of the Topic is running the computation issues no
    request, whatever the run cache holds, and leaves the snapshot and the
    run cache as they are; its signals are the values of the snapshot. *)
Lemma backoff_suppresses_requests (topic : Topic.t) (runCache : CachingComputor.RunCache.t)
    (st : State) (until : Date) :
  backoffUntil (Topic.metrics topic) = Some until -> now env < until ->
  exists raw topic' st',
    CachingComputor.computeRawIndicatorsForTopic env topic runCache st
    = (Normal (raw, topic', runCache), st') /\
    calls st' = calls st /\
    Topic.metrics topic' = Topic.metrics topic /\
    CachingComputor.backoffActive (CachingComputor.metrics raw) = true /\
    CachingComputor.citedByCount (CachingComputor.metrics raw)
    = Js.orZero (Some (Openalex.citedByCount (openalex (Topic.metrics topic)))) /\
    CachingComputor.wikiViews12Months (CachingComputor.metrics raw)
    = Js.orZero (Some (Wikipedia.views12Months (wikipedia (Topic.metrics topic)))).
Proof.
  intros Huntil Hlt.
  assert (Hactive : (until >? now env) = true) by (apply Z.gtb_lt; lia).
  unfold_caching. cbn zeta. rewrite Huntil, Hactive.
  rewrite !andb_false_r. cbn [negb andb].
  destruct (Js.falsyStr _); simpl;
    (do 3 eexists; split; [reflexivity|]; simpl; repeat split; reflexivity).
Qed.

End CachingFacts.

(** * Further properties *)

(** ** Ranks within a batch *)

Lemma Qnat_le (m n : nat) : (m <= n)%nat -> (Qnat m <= Qnat n)%Q.
Proof. intros H. unfold Qnat. rewrite <- Zle_Qle. lia. Qed.

Lemma Qnat_plus (m n : nat) : (Qnat (m + n) == Qnat m + Qnat n)%Q.
Proof. unfold Qnat. rewrite Nat2Z.inj_add, inject_Z_plus. reflexivity. Qed.

Lemma counts_within_length (raw : list R) (v : R) :
  (countBelow raw v + countEqual raw v <= length raw)%nat.
Proof.
  unfold countBelow, countEqual. induction raw as [|x raw IH]; [reflexivity|].
  destruct (decide (x < v)%R) as [Hlt|Hge].
  - rewrite (filter_cons_True (fun y => (y < v)%R)) by assumption.
    rewrite (filter_cons_False (fun y => y = v)) by lra. simpl length. lia.
  - rewrite (filter_cons_False (fun y => (y < v)%R)) by assumption.
    destruct (decide (x = v)) as [Heq|Hne].
    + rewrite (filter_cons_True (fun y => y = v)) by assumption. simpl length. lia.
    + rewrite (filter_cons_False (fun y => y = v)) by assumption. simpl length. lia.
Qed.

Lemma counts_below_larger (raw : list R) (v w : R) :
  (v < w)%R -> (countBelow raw v + countEqual raw v <= countBelow raw w)%nat.
Proof.
  intros Hvw. unfold countBelow, countEqual. induction raw as [|x raw IH]; [reflexivity|].
  destruct (decide (x < v)%R) as [Hlt|Hge].
  - rewrite (filter_cons_True (fun y => (y < v)%R)) by assumption.
    rewrite (filter_cons_False (fun y => y = v)) by lra.
    rewrite (filter_cons_True (fun y => (y < w)%R)) by lra. simpl length. lia.
  - rewrite (filter_cons_False (fun y => (y < v)%R)) by assumption.
    destruct (decide (x = v)) as [Heq|Hne].
    + rewrite (filter_cons_True (fun y => y = v)) by assumption.
      rewrite (filter_cons_True (fun y => (y < w)%R)) by lra. simpl length. lia.
    + rewrite (filter_cons_False (fun y => y = v)) by assumption.
      destruct (decide (x < w)%R).
      * rewrite (filter_cons_True (fun y => (y < w)%R)) by assumption. simpl length. lia.
      * rewrite (filter_cons_False (fun y => (y < w)%R)) by assumption. lia.
Qed.

Lemma rankIn_counts (raw : list R) (v : R) :
  (1 < length raw)%nat -> v ∈ raw ->
  (rankIn raw v
   == (2 * Qnat (countBelow raw v) + Qnat (countEqual raw v) - 1) * 50
      / (Qnat (length raw) - 1))%Q.
Proof.
  intros Hn Hv. unfold rankIn. rewrite rank_by_counts by assumption.
  pose proof (Qnat_gt1 _ Hn). field. Lqa.lra.
Qed.

Lemma rankIn_between (raw : list R) (value : R) :
  value ∈ raw -> (0 <= rankIn raw value <= 100)%Q.
Proof.
  intros Hv.
  destruct raw as [|x [|y raw]].
  - now apply elem_of_nil in Hv.
  - unfold rankIn. simpl. split; discriminate.
  - set (batch := x :: y :: raw) in *.
    assert (Hn : (1 < length batch)%nat) by (simpl; lia).
    rewrite rankIn_counts by assumption.
    pose proof (Qnat_gt1 _ Hn) as Hgt.
    pose proof (Qnat_le _ _ (counts_within_length batch value)) as Hle.
    rewrite Qnat_plus in Hle.
    pose proof (Qnat_le _ _ (countEqual_pos batch value Hv)) as Hpos.
    pose proof (Qnat_le 0 _ (Nat.le_0_l (countBelow batch value))) as Hb.
    change (Qnat 1) with 1%Q in Hpos. change (Qnat 0) with 0%Q in Hb.
    split.
    + apply Qle_shift_div_l; Lqa.lra.
    + apply Qle_shift_div_r; Lqa.lra.
Qed.

(** X1.  The rank of a value of the batch lies between [0] and [100]. *)
Theorem rank_within_bounds (raw : list R) (value : R) :
  value ∈ raw -> (0 <= rankIn raw value <= 100)%Q.
Proof. apply rankIn_between. Qed.

(** X2.  Ranks follow the raw values: of two values of the batch the
    larger one has the strictly larger rank. *)
Theorem rank_is_increasing (raw : list R) (v w : R) :
  v ∈ raw -> w ∈ raw -> (v < w)%R -> (rankIn raw v < rankIn raw w)%Q.
Proof.
  intros Hv Hw Hvw.
  pose proof (counts_below_larger raw v w Hvw) as Hcount.
  pose proof (countEqual_pos raw v Hv) as Hev.
  pose proof (countEqual_pos raw w Hw) as Hew.
  pose proof (counts_within_length raw w) as Hlen.
  assert (Hn : (1 < length raw)%nat) by lia.
  rewrite !rankIn_counts by assumption.
  pose proof (Qnat_gt1 _ Hn) as Hgt.
  apply Qnat_le in Hcount. rewrite Qnat_plus in Hcount.
  apply Qnat_le in Hev. apply Qnat_le in Hew.
  change (Qnat 1) with 1%Q in *.
  unfold Qdiv. apply Qmult_lt_compat_r; [apply Qinv_lt_0_compat|]; Lqa.lra.
Qed.

Lemma rank_is_increasing_witness :
  (rankIn [30; 10; 20; 20]%R 10 < rankIn [30; 10; 20; 20]%R 20)%Q.
Proof.
  apply (rank_is_increasing [30; 10; 20; 20]%R 10%R 20%R).
  - apply list_elem_of_In. simpl. auto.
  - apply list_elem_of_In. simpl. auto.
  - lra.
Defined.

Lemma rank_within_bounds_witness :
  (0 <= rankIn [30; 10; 20; 20]%R 20 <= 100)%Q.
Proof.
  apply (rank_within_bounds [30; 10; 20; 20]%R 20%R).
  apply list_elem_of_In. simpl. auto.
Defined.

(** ** The mean rank *)

Lemma sum_list_step (x : nat) (l : list nat) : sum_list (x :: l) = (x + sum_list l)%nat.
Proof. reflexivity. Qed.

Lemma counts_partition (m : list R) (v : R) :
  (countBelow m v + countAbove m v + countEqual m v = length m)%nat.
Proof.
  unfold countBelow, countAbove, countEqual.
  induction m as [|x m IH]; [reflexivity|].
  rewrite !filter_cons. cbn [length].
  destruct (decide (x < v)%R) as [Hlt|Hlt], (decide (v < x)%R) as [Hgt|Hgt],
    (decide (x = v)) as [Heq|Heq]; cbn [length]; try lia; exfalso;
    destruct (Rtotal_order x v) as [Hcase|[Hcase|Hcase]]; try contradiction; lra.

Qed.

Lemma countAbove_cons (a u : R) (l : list R) :
  countAbove (a :: l) u = ((if decide (u < a)%R then 1 else 0) + countAbove l u)%nat.
Proof.
  unfold countAbove. rewrite filter_cons. destruct (decide (u < a)%R); reflexivity.
Qed.

Lemma countBelow_cons (a u : R) (m : list R) :
  countBelow (u :: m) a = ((if decide (u < a)%R then 1 else 0) + countBelow m a)%nat.
Proof.
  unfold countBelow. rewrite filter_cons. destruct (decide (u < a)%R); reflexivity.
Qed.

Lemma sum_countBelow_cons (a : R) (l m : list R) :
  sum_list (map (countAbove (a :: l)) m) =
  (countBelow m a + sum_list (map (countAbove l) m))%nat.
Proof.
  induction m as [|u m IH]; [reflexivity|].
  cbn [map]. rewrite !sum_list_step, IH, countAbove_cons, countBelow_cons.
  destruct (decide (u < a)%R); lia.
Qed.

Lemma double_count (l m : list R) :
  sum_list (map (countBelow m) l) = sum_list (map (countAbove l) m).
Proof.
  induction l as [|a l IH].
  - cbn. induction m as [|u m IHm]; [reflexivity|]. cbn. exact IHm.
  - cbn [map]. rewrite sum_list_step, IH, sum_countBelow_cons. reflexivity.
Qed.

Lemma sum_partition (l m : list R) :
  (sum_list (map (countBelow m) l) + sum_list (map (countAbove m) l)
   + sum_list (map (countEqual m) l) = length l * length m)%nat.
Proof.
  induction l as [|a l IH]; [reflexivity|].
  cbn [map length]. rewrite !sum_list_step. pose proof (counts_partition m a). lia.
Qed.

Lemma sum_of_counts (raw : list R) :
  (sum_list (map (fun v => 2 * countBelow raw v + countEqual raw v) raw)
   = length raw * length raw)%nat.
Proof.
  pose proof (sum_partition raw raw) as Hall.
  pose proof (double_count raw raw) as Hdouble.
  assert (Hsplit : forall l : list R,
    sum_list (map (fun v => (2 * countBelow raw v + countEqual raw v)%nat) l)
    = (2 * sum_list (map (countBelow raw) l) + sum_list (map (countEqual raw) l))%nat).
  { induction l as [|a l IH]; [reflexivity|]. cbn [map]. rewrite !sum_list_step, IH. lia. }
  rewrite Hsplit. lia.
Qed.

Lemma sumQ_ext (f g : R -> Q) (l : list R) :
  (forall v, v ∈ l -> (f v == g v)%Q) -> (sumQ (map f l) == sumQ (map g l))%Q.
Proof.
  induction l as [|a l IH]; intros Hext; [reflexivity|].
  cbn [map sumQ foldr]. fold (sumQ (map f l)). fold (sumQ (map g l)).
  rewrite (Hext a) by (apply elem_of_cons; left; reflexivity).
  rewrite IH; [reflexivity|].
  intros v Hv. apply Hext. apply elem_of_cons. right. exact Hv.
Qed.

Lemma sumQ_of_counts (h : R -> nat) (c : Q) (l : list R) :
  (sumQ (map (fun v => (Qnat (h v) - 1) * c) l)
   == (Qnat (sum_list (map h l)) - Qnat (length l)) * c)%Q.
Proof.
  induction l as [|a l IH].
  - cbn. unfold Qnat. cbn. ring.
  - cbn [map sumQ foldr length]. rewrite sum_list_step.
    fold (sumQ (map (fun v => ((Qnat (h v) - 1) * c)%Q) l)). rewrite IH.
    rewrite Qnat_plus. unfold Qnat. rewrite Nat2Z.inj_succ, <- Z.add_1_r, inject_Z_plus.
    change (inject_Z 1) with 1%Q. ring.
Qed.

(** X23.  The ranks of a batch balance: in a batch of more than one raw
    value, the percentile ranks of its members add up to 50 times their
    number, so that their mean is 50 whatever the values and the ties. *)
Theorem rank_mean_is_fifty (raw : list R) :
  (1 < length raw)%nat ->
  (sumQ (map (rankIn raw) raw) == 50 * Qnat (length raw))%Q.
Proof.
  intros Hmany.
  rewrite (sumQ_ext (rankIn raw)
             (fun v => ((Qnat (2 * countBelow raw v + countEqual raw v) - 1)
                        * (50 / (Qnat (length raw) - 1)))%Q)).
  - rewrite sumQ_of_counts, sum_of_counts.
    pose proof (Qnat_gt1 _ Hmany) as Hgt.
    assert (Hsquare : (Qnat (length raw * length raw)
                       == Qnat (length raw) * Qnat (length raw))%Q).
    { unfold Qnat. rewrite Nat2Z.inj_mul, inject_Z_mult. reflexivity. }
    rewrite Hsquare. field. intros Hzero. Lqa.lra.
  - intros v Hv. rewrite (rankIn_counts raw v Hmany Hv).
    pose proof (Qnat_gt1 _ Hmany) as Hgt.
    assert (Hcount : (Qnat (2 * countBelow raw v + countEqual raw v)
                      == 2 * Qnat (countBelow raw v) + Qnat (countEqual raw v))%Q).
    { rewrite Qnat_plus. unfold Qnat. rewrite Nat2Z.inj_mul, inject_Z_mult. reflexivity. }
    rewrite Hcount. field. intros Hzero. Lqa.lra.
Qed.

Lemma rank_mean_is_fifty_witness :
  (sumQ (map (rankIn [10; 20; 20; 30]%R) [10; 20; 20; 30]%R)
   == 50 * Qnat (length [10; 20; 20; 30]%R))%Q.
Proof. apply (rank_mean_is_fifty [10; 20; 20; 30]%R). cbn. lia. Defined.

(** ** What the batch writes *)

Lemma toFixed2_percentile (x : Q) :
  (0 <= x <= 100)%Q -> isPercentile (Q2R (Js.toFixed2 x)).
Proof.
  intros [Hlo Hhi]. unfold Js.toFixed2.
  assert (Hsign : Qle_bool 0 x = true) by now apply Qle_bool_iff.
  rewrite Hsign. rewrite (Qabs_pos x Hlo).
  exists (Qfloor (x * 100 + (1 # 2))). split.
  - split.
    + change 0 with (Qfloor 0). apply Qfloor_resp_le. Lqa.lra.
    + change 10000 with (Qfloor (20001 # 2)). apply Qfloor_resp_le. Lqa.lra.
  - unfold Q2R. simpl. reflexivity.
Qed.

Lemma storeAll_replaces (done docs collection : list Topic.t) :
  map Topic._id docs = map Topic._id collection ->
  NoDup (map Topic._id (done ++ collection)) ->
  storeAll docs (done ++ collection) = done ++ docs.
Proof.
  revert done collection. induction docs as [|doc docs IH]; intros done collection Hids Hnodup.
  - destruct collection; [reflexivity|discriminate].
  - destruct collection as [|old collection]; [discriminate|].
    simpl in Hids. injection Hids as Hid Hids.
    unfold storeAll. simpl. fold (storeAll docs (store doc (done ++ old :: collection))).
    assert (Hstore : store doc (done ++ old :: collection) = (done ++ [doc]) ++ collection).
    { clear IH Hids. induction done as [|d done IHd]; simpl.
      - rewrite <- Hid, N.eqb_refl. reflexivity.
      - simpl in Hnodup. apply NoDup_cons in Hnodup as [Hnotin Hnodup].
        destruct (N.eqb_spec (Topic._id d) (Topic._id doc)) as [Heq|Hne].
        + exfalso. apply Hnotin. rewrite Heq, Hid, map_app. simpl.
          apply elem_of_app. right. apply elem_of_cons. left. reflexivity.
        + rewrite IHd by assumption. reflexivity. }
    rewrite Hstore, IH.
    + rewrite <- app_assoc. reflexivity.
    + assumption.
    + rewrite !map_app in *. simpl in *. rewrite <- app_assoc. simpl. rewrite Hid.
      exact Hnodup.
Qed.

Lemma savedPrefix_all (env : Env) (docs : list Topic.t) :
  (forall doc, saveError env doc = None) -> savedPrefix env docs = docs.
Proof.
  intros Hsave. induction docs as [|doc docs IH]; simpl; [reflexivity|].
  rewrite Hsave, IH. reflexivity.
Qed.

(** The batch, once the population is loaded. *)
Lemma batch_outcome (env : Env) (st : State) :
  findError env = None ->
  exists rawResults st1 st',
    Computor.collectRawResults env (collection st) []
      {| calls := calls st;
         console := console st ++
           [{| level := console_log;
               pieces := [Text "Found "; Count (length (collection st));
                          Text " topic(s) for impact update."] |}];
         collection := collection st; writes := writes st |}
    = (Normal rawResults, st1) /\
    map Computor.Entry.topic rawResults = collection st /\
    let docs :=
      map (normalized
             (Js.sort (fun a b => (a - b)%R) (map Computor.Entry.impactRaw rawResults))
             (Js.sort (fun a b => (a - b)%R) (map Computor.Entry.activityRaw rawResults)))
          rawResults in
    Computor.computeImpactForAllTopics env st = (Normal tt, st') /\
    calls st' = calls st1 /\
    writes st' = writes st ++ savedPrefix env docs /\
    collection st' = storeAll (savedPrefix env docs) (collection st).
Proof.
  intros Hfind.
  unfold Computor.computeImpactForAllTopics, try_catch, bind at 1, Topic_find.
  rewrite Hfind. unfold bind at 1. simpl.
  match goal with |- context [bind _ _ ?s] =>
    destruct (collectRawResults_returns env (collection st) [] s)
      as (rawResults & st1 & Hrun & Hmap & Hcoll & Hwrites) end.
  exists rawResults, st1. unfold bind at 1. rewrite Hrun. simpl in Hmap, Hcoll, Hwrites.
  cbv beta iota. unfold bind at 1.
  match goal with |- context [forOf rawResults (Computor.normalizeAndSave env ?iv ?av) st1] =>
    destruct (saving_loop env iv av rawResults st1)
      as (completion & st2 & Hloop & _ & Hcalls & _ & Hw2 & Hc2) end.
  rewrite Hloop.
  destruct completion as [[]|e]; eexists; (split; [reflexivity|]); (split; [exact Hmap|]);
    (split; [reflexivity|]); simpl; repeat split; congruence.
Qed.

Lemma answerFrom_provides (table : list (Request * option Data)) :
  Forall (fun entry => countsNonNegative (snd entry)) table ->
  providesCounts (development (answerFrom table)).
Proof.
  intros Htable history request data. cbn [http development]. unfold answerFrom.
  destruct (List.find _ table) as [entry|] eqn:Hfind; [|discriminate].
  intros Heq. injection Heq as <-.
  apply find_some in Hfind as [Hin _].
  rewrite Forall_forall in Htable. apply Htable. apply list_elem_of_In. exact Hin.
Qed.

(** X3.  When the population loads, its identifiers are distinct, every
    save succeeds and the providers answer with counts that are not
    negative (so that every logarithm is taken of a number that is at
    least [1]), the collection after the batch is the collection before
    it, document by document and in the same order, with nothing changed
    but [impact] and [activity], which are whole hundredths between [0]
    and [100]. *)
Theorem batch_rewrites_scores_only (env : Env) (st : State) :
  findError env = None ->
  (forall doc, saveError env doc = None) ->
  NoDup (map Topic._id (collection st)) ->
  providesCounts env ->
  exists st',
    Computor.computeImpactForAllTopics env st = (Normal tt, st') /\
    writes st' = writes st ++ collection st' /\
    Forall2
      (fun before after =>
         exists impact activity,
           after = Topic.set_scores impact activity before /\
           isPercentile impact /\ isPercentile activity)
      (collection st) (collection st').
Proof.
  intros Hfind Hsave Hnodup _.
  destruct (batch_outcome env st Hfind)
    as (rawResults & st1 & st' & _ & Hmap & Hrun & _ & Hwrites & Hcoll).
  exists st'. split; [exact Hrun|].
  rewrite savedPrefix_all in Hwrites, Hcoll by assumption.
  assert (Hids : map Topic._id
                   (map (normalized
                      (Js.sort (fun a b => (a - b)%R) (map Computor.Entry.impactRaw rawResults))
                      (Js.sort (fun a b => (a - b)%R) (map Computor.Entry.activityRaw rawResults)))
                      rawResults)
                 = map Topic._id (collection st)).
  { rewrite <- Hmap, !map_map. reflexivity. }
  pose proof (storeAll_replaces [] _ (collection st) Hids Hnodup) as Hall.
  simpl in Hall. rewrite Hall in Hcoll.
  split; [congruence|].
  rewrite Hcoll, <- Hmap.
  apply Forall2_fmap. apply Forall_Forall2_diag. apply Forall_forall.
  intros entry Hentry. eexists. eexists. split; [reflexivity|].
  split; apply toFixed2_percentile.
  - apply (rankIn_between (map Computor.Entry.impactRaw rawResults)).
    apply list_elem_of_fmap. eauto.
  - apply (rankIn_between (map Computor.Entry.activityRaw rawResults)).
    apply list_elem_of_fmap. eauto.
Qed.

Lemma batch_rewrites_scores_only_witness :
  exists st',
    Computor.computeImpactForAllTopics sharedEnv (initialState [sharedAlpha; sharedBeta])
    = (Normal tt, st') /\
    writes st' = [] ++ collection st' /\
    Forall2
      (fun before after =>
         exists impact activity,
           after = Topic.set_scores impact activity before /\
           isPercentile impact /\ isPercentile activity)
      [sharedAlpha; sharedBeta] (collection st').
Proof.
  apply (batch_rewrites_scores_only sharedEnv (initialState [sharedAlpha; sharedBeta])).
  - reflexivity.
  - intros doc. reflexivity.
  - simpl. repeat constructor; rewrite ?elem_of_cons, ?elem_of_nil; intuition discriminate.
  - apply answerFrom_provides.
    repeat constructor; cbn; try discriminate.
Defined.

(** X4.  A population of one Topic is written with [impact = 100] and
    [activity = 100], whatever its raw composites are. *)
Theorem lone_topic_scores_hundred (env : Env) (st : State) (topic : Topic.t) :
  findError env = None ->
  (forall doc, saveError env doc = None) ->
  collection st = [topic] ->
  exists doc st',
    Computor.computeImpactForAllTopics env st = (Normal tt, st') /\
    collection st' = [doc] /\
    writes st' = writes st ++ [doc] /\
    Topic.impact doc = 100%R /\ Topic.activity doc = 100%R /\
    Topic.set_scores (Topic.impact topic) (Topic.activity topic) doc = topic.
Proof.
  intros Hfind Hsave Hone.
  destruct (batch_outcome env st Hfind)
    as (rawResults & st1 & st' & _ & Hmap & Hrun & _ & Hwrites & Hcoll).
  rewrite savedPrefix_all in Hwrites, Hcoll by assumption.
  rewrite Hone in Hmap, Hcoll.
  destruct rawResults as [|entry [|entry' rawResults]]; try discriminate.
  simpl in Hmap. injection Hmap as Hentry.
  assert (Hhundred : Q2R (Js.toFixed2 100) = 100%R).
  { replace (Js.toFixed2 100) with (10000 # 100)%Q by reflexivity.
    unfold Q2R. simpl. lra. }
  exists (normalized [Computor.Entry.impactRaw entry] [Computor.Entry.activityRaw entry] entry),
    st'.
  split; [exact Hrun|].
  assert (Hstore : forall doc, Topic._id doc = Topic._id topic -> store doc [topic] = [doc]).
  { intros doc Hid. simpl. rewrite Hid, N.eqb_refl. reflexivity. }
  split; [|split; [|split; [|split]]].
  - rewrite Hcoll. simpl. unfold storeAll. simpl.
    match goal with |- context [N.eqb ?a ?b] => replace (N.eqb a b) with true end;
      [reflexivity|].
    symmetry. apply N.eqb_eq. rewrite <- Hentry. reflexivity.
  - exact Hwrites.
  - unfold normalized, percentileRank. simpl. exact Hhundred.
  - unfold normalized, percentileRank. simpl. exact Hhundred.
  - rewrite <- Hentry. destruct entry as [[] ? ?]. reflexivity.
Qed.

Lemma lone_topic_scores_hundred_witness :
  exists doc st',
    Computor.computeImpactForAllTopics quantumEnv (initialState [quantumTopic])
    = (Normal tt, st') /\
    collection st' = [doc] /\
    Topic.impact doc = 100%R /\ Topic.activity doc = 100%R.
Proof.
  destruct (lone_topic_scores_hundred quantumEnv (initialState [quantumTopic]) quantumTopic)
    as (doc & st' & Hrun & Hcoll & _ & Himpact & Hactivity & _);
    [reflexivity | intros doc; reflexivity | reflexivity |].
  exists doc, st'. auto.
Defined.

(** ** Requests of one computation *)

(** The requests of one computation: none in the test environment, never
    more than four, and nothing but requests and console lines happens. *)
Lemma computeRaw_requests (env : Env) (topic : Topic.t) (st : State) :
  exists raw st' requests,
    Computor.computeRawIndicatorsForTopic env topic st = (Normal raw, st') /\
    calls st' = calls st ++ requests /\
    (length requests <= 4)%nat /\
    collection st' = collection st /\
    writes st' = writes st /\
    (isTestEnv env = true ->
     requests = [] /\ Computor.impactRaw raw = 0%R /\ Computor.activityRaw raw = 0%R).
Proof.
  assert (Hzero :
    (impact_citations INDICATOR_WEIGHTS * log10p 0
     + impact_works INDICATOR_WEIGHTS * log10p 0
     + impact_wikiViews INDICATOR_WEIGHTS * log10p 0 = 0)%R /\
    (activity_works12m INDICATOR_WEIGHTS * log10p 0
     + activity_citations12m INDICATOR_WEIGHTS
       * log10p (estimateCitations12m (Some 0%Q) (Some 0%Q) (Some 0%Q))
     + activity_wikiViews INDICATOR_WEIGHTS * log10p 0 = 0)%R).
  { change (estimateCitations12m (Some 0%Q) (Some 0%Q) (Some 0%Q)) with 0%Q.
    rewrite !log10p_zero by reflexivity. split; ring. }
  unfold_run. cbn zeta.
  destruct (isTestEnv env) eqn:Htest; rewrite ?orb_true_r, ?orb_false_r; split_run;
    (eexists; eexists; eexists; split; [reflexivity|]; simpl).
  all: (split; [rewrite <- ?app_assoc; simpl;
                first [reflexivity | symmetry; apply app_nil_r]|]).
  all: (split; [simpl; lia|]).
  all: (split; [reflexivity|]; split; [reflexivity|]).
  all: intros Ht; try discriminate.
  all: split; [reflexivity|]; exact Hzero.
Qed.

Lemma collectRawResults_offline (env : Env) (topics : list Topic.t)
    (rawResults : list Computor.Entry.t) (st : State) :
  isTestEnv env = true ->
  calls (snd (Computor.collectRawResults env topics rawResults st)) = calls st.
Proof.
  intros Htest. revert rawResults st.
  induction topics as [|topic topics IH]; intros rawResults st; [reflexivity|].
  simpl. unfold bind at 1.
  destruct (computeRaw_requests env topic st)
    as (raw & st' & requests & Hraw & Hreq & _ & _ & _ & Hoff).
  rewrite Hraw. rewrite IH. destruct (Hoff Htest) as [-> _].
  rewrite app_nil_r in Hreq. exact Hreq.
Qed.

Lemma collectRawResults_zero (env : Env) (topics : list Topic.t)
    (rawResults : list Computor.Entry.t) (st : State) :
  isTestEnv env = true ->
  exists collected st',
    Computor.collectRawResults env topics rawResults st
    = (Normal (rawResults ++ collected), st') /\
    calls st' = calls st /\
    map Computor.Entry.topic collected = topics /\
    Forall (fun entry => Computor.Entry.impactRaw entry = 0%R /\
                         Computor.Entry.activityRaw entry = 0%R) collected.
Proof.
  intros Htest. revert rawResults st.
  induction topics as [|topic topics IH]; intros rawResults st.
  - exists [], st. simpl. rewrite app_nil_r. repeat split. constructor.
  - simpl Computor.collectRawResults. unfold bind at 1.
    destruct (computeRaw_requests env topic st)
      as (raw & st1 & requests & Hraw & Hreq & _ & _ & _ & Hoff).
    rewrite Hraw. destruct (Hoff Htest) as (-> & Himpact & Hactivity).
    rewrite app_nil_r in Hreq.
    match goal with |- context [Computor.collectRawResults env topics ?acc st1] =>
      destruct (IH acc st1) as (collected & st' & Hrun & Hcalls & Hmap & Hzero) end.
    eexists (_ :: collected), st'. rewrite Hrun, <- app_assoc. simpl.
    split; [reflexivity|]. split; [congruence|]. simpl.
    split; [f_equal; exact Hmap|].
    constructor; [simpl; auto|exact Hzero].
Qed.

(** X5.  In the test environment neither entry point issues a request, and
    every raw composite is [0]: the ones the first loop of the batch
    collects, for whatever Topics it is given, and the ones of the
    computation of one Topic. *)
Theorem test_environment_is_offline (env : Env) (st : State) :
  isTestEnv env = true ->
  calls (snd (Computor.computeImpactForAllTopics env st)) = calls st /\
  (forall topics : list Topic.t,
      exists collected st',
        Computor.collectRawResults env topics [] st = (Normal collected, st') /\
        calls st' = calls st /\
        map Computor.Entry.topic collected = topics /\
        Forall (fun entry => Computor.Entry.impactRaw entry = 0%R /\
                             Computor.Entry.activityRaw entry = 0%R) collected) /\
  forall topic,
    calls (snd (Computor.computeImpactForTopic env topic st)) = calls st /\
    exists raw st',
      Computor.computeRawIndicatorsForTopic env topic st = (Normal raw, st') /\
      calls st' = calls st /\
      Computor.impactRaw raw = 0%R /\ Computor.activityRaw raw = 0%R.
Proof.
  intros Htest. split; [|split].
  - destruct (findError env) as [e|] eqn:Hfind.
    + unfold Computor.computeImpactForAllTopics, try_catch, bind, Topic_find.
      rewrite Hfind. reflexivity.
    + destruct (batch_outcome env st Hfind)
        as (rawResults & st1 & st' & Hcollect & _ & Hrun & Hcalls & _).
      rewrite Hrun. simpl. rewrite Hcalls.
      match type of Hcollect with ?run = _ =>
        assert (Hoff : calls (snd run) = calls st)
          by (rewrite collectRawResults_offline by assumption; reflexivity) end.
      rewrite Hcollect in Hoff. exact Hoff.
  - intros topics.
    destruct (collectRawResults_zero env topics [] st Htest)
      as (collected & st' & Hrun & Hfacts).
    exists collected, st'. split; [exact Hrun|exact Hfacts].
  - intros topic.
    destruct (computeRaw_requests env topic st)
      as (raw & s' & requests & Hraw & Hreq & _ & _ & _ & Hoff).
    destruct (Hoff Htest) as (-> & Himpact & Hactivity). rewrite app_nil_r in Hreq.
    split.
    + unfold Computor.computeImpactForTopic, try_catch, bind at 1. rewrite Hraw.
      unfold bind, save, console_call, ret.
      destruct (saveError env _); simpl; congruence.
    + exists raw, s'. auto.
Qed.

Lemma test_environment_is_offline_witness :
  calls (snd (Computor.computeImpactForAllTopics offlineEnv (initialState threeTopics))) = [] /\
  exists collected st',
    Computor.collectRawResults offlineEnv threeTopics [] (initialState threeTopics)
    = (Normal collected, st') /\
    calls st' = [] /\
    map Computor.Entry.topic collected = threeTopics /\
    Forall (fun entry => Computor.Entry.impactRaw entry = 0%R /\
                         Computor.Entry.activityRaw entry = 0%R) collected.
Proof.
  destruct (test_environment_is_offline offlineEnv (initialState threeTopics))
    as (Hbatch & Hloop & _); [reflexivity|].
  split; [exact Hbatch|]. exact (Hloop threeTopics).
Defined.

Lemma collectRawResults_budget (env : Env) (topics : list Topic.t)
    (rawResults : list Computor.Entry.t) (st : State) :
  exists requests,
    calls (snd (Computor.collectRawResults env topics rawResults st))
    = calls st ++ requests /\
    (length requests <= 4 * length topics)%nat.
Proof.
  revert rawResults st.
  induction topics as [|topic topics IH]; intros rawResults st.
  - exists []. simpl. rewrite app_nil_r. auto.
  - simpl Computor.collectRawResults. unfold bind at 1.
    destruct (computeRaw_requests env topic st)
      as (raw & st' & requests & Hraw & Hreq & Hfour & _).
    rewrite Hraw.
    match goal with |- context [Computor.collectRawResults env topics ?acc st'] =>
      destruct (IH acc st') as (more & Hmore & Hbound) end.
    exists (requests ++ more). rewrite Hmore, Hreq, <- app_assoc. split; [reflexivity|].
    rewrite length_app. simpl length. lia.
Qed.

(** X6.  A batch never issues more than four requests per Topic of the
    population. *)
Theorem batch_request_budget (env : Env) (st : State) :
  exists requests,
    calls (snd (Computor.computeImpactForAllTopics env st)) = calls st ++ requests /\
    (length requests <= 4 * length (collection st))%nat.
Proof.
  destruct (findError env) as [e|] eqn:Hfind.
  - exists []. unfold Computor.computeImpactForAllTopics, try_catch, bind, Topic_find.
    rewrite Hfind. simpl. rewrite app_nil_r. split; [reflexivity|lia].
  - destruct (batch_outcome env st Hfind)
      as (rawResults & st1 & st' & Hcollect & _ & Hrun & Hcalls & _).
    rewrite Hrun. simpl. rewrite Hcalls.
    match type of Hcollect with Computor.collectRawResults _ ?ts ?acc ?s = _ =>
      destruct (collectRawResults_budget env ts acc s) as (requests & Hreq & Hbound) end.
    rewrite Hcollect in Hreq. simpl in Hreq. exists requests. auto.
Qed.

(** X7.  Outside the test environment a Topic with an external key and a
    name has its totals, its trailing works and its title requested, in
    this order, whatever the provider answers to any of them.  A request
    of page views follows exactly when the search is answered with a
    title, and it is the request for that title; nothing follows when the
    search is refused or gives no title. *)
Theorem sources_are_requested_independently (env : Env) (topic : Topic.t) (st : State) :
  isTestEnv env = false ->
  Js.falsyStr (Topic.openalexID topic) = false ->
  Topic.name topic <> EmptyString ->
  calls (snd (Computor.computeRawIndicatorsForTopic env topic st))
  = calls st ++ totalsRequest topic :: worksRequest (clock env) topic
                :: searchRequest topic
                :: match http env (calls st ++ [totalsRequest topic;
                                                worksRequest (clock env) topic])
                           (searchRequest topic) with
                   | inr data =>
                       if Js.falsyStr (data_first_title data) then []
                       else [pageviewsRequest (clock env)
                               (Js.str (data_first_title data))]
                   | inl _ => []
                   end.
Proof.
  intros Htest Hid Hname. unfold_run. cbn zeta. rewrite Htest, Hid. simpl.
  destruct (decide (Topic.name topic = EmptyString)) as [|_]; [contradiction|].
  unfold totalsRequest, worksRequest, searchRequest, pageviewsRequest. simpl.
  split_run; simpl; rewrite <- ?app_assoc; simpl.
  all: repeat match goal with
       | H : http _ ((_ ++ _) ++ _) _ = _ |- _ => rewrite <- app_assoc in H; simpl in H
       end.
  all: try congruence.
  all: repeat match goal with
       | H1 : http ?e ?h ?r = inr ?o1, H2 : http ?e ?h ?r = inr ?o2 |- _ =>
           assert (o1 = o2) by congruence; subst o1; clear H1
       end.
  all: repeat match goal with
       | H : http _ (_ ++ [_; _]) _ = _ |- _ => rewrite H; clear H
       end.
  all: repeat match goal with
       | H : Js.falsyStr (data_first_title _) = _ |- _ => rewrite H; clear H
       end.
  all: reflexivity.
Qed.

Lemma sources_are_requested_independently_witness :
  calls (snd (Computor.computeRawIndicatorsForTopic quantumEnv quantumTopic
                (initialState [])))
  = [getTopic "T123"; getWorks "T123"; getSearch "Quantum Mechanics";
     getPageviews "Quantum_Mechanics"].
Proof.
  rewrite (sources_are_requested_independently quantumEnv quantumTopic (initialState []));
    [reflexivity | reflexivity | reflexivity | discriminate].
Defined.

(** ** The single-Topic entry point *)

(** X8.  [computeImpactForTopic] never throws.  It saves the Topic with
    its two raw composites as [impact] and [activity] and nothing else
    changed; it returns the saved document when the save succeeds, and
    [null], with nothing written and the failure on [console.error], when
    the save fails. *)
Theorem computeImpactForTopic_outcome (env : Env) (topic : Topic.t) (st : State) :
  exists raw st1 result st',
    Computor.computeRawIndicatorsForTopic env topic st = (Normal raw, st1) /\
    Computor.computeImpactForTopic env topic st = (Normal result, st') /\
    let scored :=
      Topic.set_scores (Computor.impactRaw raw) (Computor.activityRaw raw) topic in
    match saveError env scored with
    | None =>
        result = Some scored /\
        writes st' = writes st ++ [scored] /\
        collection st' = store scored (collection st)
    | Some e =>
        result = None /\
        writes st' = writes st /\
        collection st' = collection st /\
        last (console st')
        = Some {| level := console_error;
                  pieces := [Text ("Error computing impact for topic "
                                   +:+ Js.quoted (Topic.name topic) +:+ ":");
                             Text (message e)] |}
    end.
Proof.
  destruct (computeRaw_requests env topic st)
    as (raw & st1 & requests & Hraw & _ & _ & Hcoll & Hwrites & _).
  exists raw, st1.
  unfold Computor.computeImpactForTopic, try_catch, bind at 1. rewrite Hraw.
  unfold bind, save, console_call, ret. cbv beta iota zeta.
  destruct (saveError env _) as [e|] eqn:Hsave.
  - eexists. eexists. split; [reflexivity|]. split; [reflexivity|]. simpl.
    repeat split; try assumption. apply last_snoc.
  - eexists. eexists. split; [reflexivity|]. split; [reflexivity|]. simpl.
    repeat split; congruence.
Qed.

(** ** The encoded title *)

Lemma hexDigit_value (n : nat) : (n < 16)%nat -> hexValue (Str.hexDigit n) = Some n.
Proof.
  intros Hn. do 16 (destruct n as [|n]; [reflexivity|]). lia.
Qed.

Lemma hexDigit_segmentChar (n : nat) : segmentChar (Str.hexDigit n) = true.
Proof.
  do 16 (destruct n as [|n]; [reflexivity|]). reflexivity.
Qed.

Lemma percent_is_reserved (c : ascii) : Str.unreserved c = true -> Ascii.eqb c "%"%char = false.
Proof.
  intros H. destruct (Ascii.eqb_spec c "%"%char) as [->|]; [discriminate|reflexivity].
Qed.

Lemma percentDecode_escape (h l : ascii) (s : string) :
  percentDecode (String "%" (String h (String l s))) =
  match hexValue h, hexValue l, percentDecode s with
  | Some hi, Some lo, Some rest => Some (String (ascii_of_nat (16 * hi + lo)) rest)
  | _, _, _ => None
  end.
Proof. reflexivity. Qed.

Lemma percentDecode_encode (s : string) :
  percentDecode (Str.encodeURIComponent s) = Some s.
Proof.
  induction s as [|c s IH]; [reflexivity|].
  cbn [Str.encodeURIComponent]. destruct (Str.unreserved c) eqn:Hc.
  - cbn [percentDecode]. rewrite (percent_is_reserved c Hc), IH. reflexivity.
  - pose proof (nat_ascii_bounded c) as Hlt.
    rewrite percentDecode_escape, !hexDigit_value, IH.
    + rewrite <- Nat.div_mod_eq, ascii_nat_embedding. reflexivity.
    + apply Nat.mod_upper_bound. lia.
    + apply Nat.Div0.div_lt_upper_bound. lia.
Qed.

Lemma encodeURIComponent_inj (s s' : string) :
  Str.encodeURIComponent s = Str.encodeURIComponent s' -> s = s'.
Proof.
  intros Heq. pose proof (percentDecode_encode s) as H.
  rewrite Heq, percentDecode_encode in H. congruence.
Qed.

Lemma append_length (a b : string) :
  String.length (a +:+ b) = (String.length a + String.length b)%nat.
Proof.
  induction a as [|c a IH]; [reflexivity|].
  change (String c a +:+ b) with (String c (a +:+ b)).
  cbn [String.length]. rewrite IH. reflexivity.
Qed.

Lemma append_cancel_r (a a' b : string) : a +:+ b = a' +:+ b -> a = a'.
Proof.
  revert a'. induction a as [|c a IH]; intros [|c' a'] H.
  - reflexivity.
  - apply (f_equal String.length) in H. rewrite !append_length in H.
    cbn [String.length] in H. lia.
  - apply (f_equal String.length) in H. rewrite !append_length in H.
    cbn [String.length] in H. lia.
  - change (String c (a +:+ b) = String c' (a' +:+ b)) in H.
    injection H as -> H. f_equal. apply IH. exact H.
Qed.

Lemma append_cancel_l (a b b' : string) : a +:+ b = a +:+ b' -> b = b'.
Proof.
  induction a as [|c a IH]; intros H; [exact H|].
  change (String c (a +:+ b) = String c (a +:+ b')) in H.
  injection H as H. apply IH. exact H.
Qed.

(** X9.  The title segment of the page-view URL, which is the title with
    its spaces replaced by underscores and then encoded, holds nothing but
    unreserved characters and percent escapes (no slash, question mark,
    hash or space can reach the URL).  Two titles give the same request
    exactly when they are equal once their spaces are replaced: titles
    that differ only by a space against an underscore share one request,
    and no other two titles do. *)
Theorem encoded_title_is_one_segment :
  (forall title : string,
      allChars segmentChar (Str.encodeURIComponent (Str.replaceSpaces title)) = true) /\
  (forall (range : DateRange) (title title' : string),
      pageviewsRequest range title = pageviewsRequest range title'
      <-> Str.replaceSpaces title = Str.replaceSpaces title') /\
  pageviewsRequest today "A B" = pageviewsRequest today "A_B".
Proof.
  split; [|split].
  - intros title. induction (Str.replaceSpaces title) as [|c s IH]; [reflexivity|].
    cbn [Str.encodeURIComponent]. destruct (Str.unreserved c) eqn:Hc.
    + cbn [allChars]. unfold segmentChar at 1. rewrite Hc, IH. reflexivity.
    + cbn [allChars]. rewrite !hexDigit_segmentChar, IH. reflexivity.
  - intros range title title'. split.
    + intros Heq. apply (f_equal url) in Heq. unfold pageviewsRequest in Heq.
      cbn [url] in Heq.
      apply append_cancel_l, append_cancel_l, append_cancel_r in Heq.
      apply encodeURIComponent_inj. exact Heq.
    + intros Heq. unfold pageviewsRequest. rewrite Heq. reflexivity.
  - reflexivity.
Qed.

Example encode_slash :
  Str.encodeURIComponent (Str.replaceSpaces "AC/DC (band)") = "AC%2FDC_(band)".
Proof. reflexivity. Qed.

(** ** Alerts *)

Lemma shouldAlertAll_spaced (env : Alerts.Env) (keys : list string) (st : Alerts.State) :
  spaced (Alerts.ALERT_THROTTLE_MS env) (Alerts.lastAlertAt st, Alerts.lastAlertKey st)
    (Alerts.shouldAlertAll env keys st).1.2.
Proof.
  revert st. induction keys as [|key keys IH]; intros st; [exact I|].
  cbn [Alerts.shouldAlertAll]. unfold Alerts.shouldAlert, Alerts.Date_now.
  cbn [Alerts.lastAlertKey Alerts.lastAlertAt].
  destruct (String.eqb (Alerts.lastAlertKey st) key &&
            negb (Qle_bool (Alerts.ALERT_THROTTLE_MS env)
                    (inject_Z (Alerts.clock env (Alerts.readings st) - Alerts.lastAlertAt st))))
    eqn:Hthrottled.
  - match goal with |- context [Alerts.shouldAlertAll env keys ?s] =>
      specialize (IH s); destruct (Alerts.shouldAlertAll env keys s) as [[alerts granted] st']
    end.
    exact IH.
  - match goal with |- context [Alerts.shouldAlertAll env keys ?s] =>
      specialize (IH s); destruct (Alerts.shouldAlertAll env keys s) as [[alerts granted] st']
    end.
    cbn in IH |- *. split; [|exact IH].
    intros Hkey. subst key. rewrite String.eqb_refl in Hthrottled.
    cbn in Hthrottled. apply negb_false_iff in Hthrottled.
    apply Qle_bool_iff. exact Hthrottled.
Qed.

Lemma spaced_adjacent (throttle : Q) (previous : Z * string) (log : list (Z * string)) :
  spaced throttle previous log ->
  forall before earlier later after,
    log = before ++ earlier :: later :: after ->
    earlier.2 = later.2 -> (throttle <= inject_Z (later.1 - earlier.1))%Q.
Proof.
  revert previous. induction log as [|alert log IH]; intros previous Hspaced before earlier later after Hlog Hkey.
  - destruct before; discriminate.
  - destruct Hspaced as [_ Hrest]. destruct before as [|first before].
    + injection Hlog as -> ->. destruct Hrest as [Hstep _]. exact (Hstep Hkey).
    + injection Hlog as -> Hlog. exact (IH _ Hrest _ _ _ _ Hlog Hkey).
Qed.

(** X10.  In any run of [shouldAlert], two alerts granted one after the
    other for the same key are at least [ALERT_THROTTLE_MS] apart on the
    clock. *)
Theorem granted_alerts_are_spaced (env : Alerts.Env) (keys : list string)
    (st : Alerts.State) (before after : list (Z * string)) (earlier later : Z * string) :
  (Alerts.shouldAlertAll env keys st).1.2 = before ++ earlier :: later :: after ->
  earlier.2 = later.2 ->
  (Alerts.ALERT_THROTTLE_MS env <= inject_Z (later.1 - earlier.1))%Q.
Proof.
  intros Hlog Hkey.
  exact (spaced_adjacent _ _ _ (shouldAlertAll_spaced env keys st) _ _ _ _ Hlog Hkey).
Qed.

Lemma granted_alerts_are_spaced_witness :
  (Alerts.ALERT_THROTTLE_MS quietEnv <= inject_Z (4000000 - 0))%Q.
Proof.
  apply (granted_alerts_are_spaced quietEnv ["a"; "a"; "a"]%string Alerts.loaded
           [] [(8000000, "a"%string)] (0, "a"%string) (4000000, "a"%string));
    reflexivity.
Defined.

(** X11.  The throttle remembers the last alert only: when no call has the
    key of the call before it (nor the first one the key the module
    holds), every call is granted, however close in time. *)
Theorem interleaved_keys_defeat_throttle (env : Alerts.Env) (keys : list string)
    (st : Alerts.State) :
  (forall i earlier later,
      (Alerts.lastAlertKey st :: keys) !! i = Some earlier ->
      keys !! i = Some later -> earlier <> later) ->
  (Alerts.shouldAlertAll env keys st).1.1 = repeat true (length keys).
Proof.
  revert st. induction keys as [|key keys IH]; intros st Hkeys; [reflexivity|].
  cbn [Alerts.shouldAlertAll]. unfold Alerts.shouldAlert, Alerts.Date_now.
  cbn [Alerts.lastAlertKey Alerts.lastAlertAt].
  assert (Hfirst : String.eqb (Alerts.lastAlertKey st) key = false).
  { apply String.eqb_neq. exact (Hkeys 0%nat _ _ eq_refl eq_refl). }
  rewrite Hfirst. cbn [andb].
  match goal with |- context [Alerts.shouldAlertAll env keys ?s] =>
    specialize (IH s); destruct (Alerts.shouldAlertAll env keys s) as [[alerts granted] st']
  end.
  cbn in IH |- *. f_equal. apply IH.
  intros i earlier later Hearlier Hlater. exact (Hkeys (S i) _ _ Hearlier Hlater).
Qed.

Lemma interleaved_keys_defeat_throttle_witness :
  (Alerts.shouldAlertAll mailingEnv ["a"; "b"; "a"; "b"]%string Alerts.loaded).1.1 =
  repeat true 4.
Proof.
  apply (interleaved_keys_defeat_throttle mailingEnv ["a"; "b"; "a"; "b"]%string Alerts.loaded).
  intros i earlier later Hearlier Hlater.
  do 4 (destruct i as [|i]; [cbn in Hearlier, Hlater; congruence|]).
  destruct i; discriminate.
Defined.

Lemma trySend_outcome (env : Alerts.Env) (subject_ text_ : string) (st : Alerts.State) :
  let st' := Alerts.trySend env subject_ text_ st in
  let mail := {| Alerts.from := Js.str (Alerts.ALERT_EMAIL_FROM env);
                 Alerts.to := Js.str (Alerts.ALERT_EMAIL_TO env);
                 Alerts.subject := subject_; Alerts.text := text_ |} in
  Alerts.lastAlertAt st' = Alerts.lastAlertAt st /\
  Alerts.lastAlertKey st' = Alerts.lastAlertKey st /\
  Alerts.readings st' = Alerts.readings st /\
  match (Alerts.getTransporter env st).1 with
  | None => st' = st
  | Some mailer =>
      Alerts.transporter st' = Some mailer /\
      Alerts.outbox st' = Alerts.outbox st ++ [mail] /\
      Alerts.console st' =
        Alerts.console st ++
        match Alerts.sendMail env (Alerts.outbox st) mail with
        | Some sendError => [sendFailure sendError]
        | None => []
        end
  end.
Proof.
  unfold Alerts.trySend, Alerts.sendAlertEmail, Alerts.getTransporter.
  destruct (Js.falsyStr (Alerts.ALERT_EMAIL_TO env) || Js.falsyStr (Alerts.ALERT_EMAIL_PWD env)
            || Js.falsyStr (Alerts.ALERT_EMAIL_FROM env)).
  - cbn. repeat split.
  - destruct (Alerts.transporter st) as [mailer|] eqn:Hmailer; cbn;
      destruct (Alerts.sendMail env (Alerts.outbox st) _); cbn;
      rewrite ?app_nil_r; repeat split; assumption.
Qed.

(** X12.  [reportOpenAIAuthError] never throws, and its answer tells that
    the alert was logged, not that it was mailed: when it answers [true]
    the alert text is on the console and became the last alert; a mail was
    handed to the transport exactly when a transport is configured, and a
    refusal of the transport only adds a console line.  When it answers
    [false] nothing was printed or mailed and the last alert is the same. *)
Theorem auth_report_outcome (env : Alerts.Env) (error_ : option Alerts.ApiError)
    (context : option string) (st : Alerts.State) :
  let result := Alerts.reportOpenAIAuthError env error_ context st in
  let st' := result.2 in
  if result.1 then
    exists text_ : string,
      let mail := {| Alerts.from := Js.str (Alerts.ALERT_EMAIL_FROM env);
                     Alerts.to := Js.str (Alerts.ALERT_EMAIL_TO env);
                     Alerts.subject := "OpenAI auth error (token expired?)";
                     Alerts.text := text_ |} in
      let logged := {| Alerts.level := console_error; Alerts.args := [Alerts.PText text_] |} in
      Alerts.isAuthError (Alerts.normalizeErrorInfo error_) = true /\
      Alerts.lastAlertAt st' = Alerts.clock env (Alerts.readings st) /\
      Alerts.lastAlertKey st' =
        "auth:" +:+ Js.str (Alerts.orStr context (Some "unknown"%string)) /\
      match (Alerts.getTransporter env st).1 with
      | None =>
          Alerts.console st' = Alerts.console st ++ [logged] /\
          Alerts.outbox st' = Alerts.outbox st
      | Some _ =>
          Alerts.outbox st' = Alerts.outbox st ++ [mail] /\
          Alerts.console st' =
            Alerts.console st ++ logged ::
            match Alerts.sendMail env (Alerts.outbox st) mail with
            | Some sendError => [sendFailure sendError]
            | None => []
            end
      end
  else
    Alerts.console st' = Alerts.console st /\ Alerts.outbox st' = Alerts.outbox st /\
    Alerts.transporter st' = Alerts.transporter st /\
    Alerts.lastAlertAt st' = Alerts.lastAlertAt st /\
    Alerts.lastAlertKey st' = Alerts.lastAlertKey st.
Proof.
  unfold Alerts.reportOpenAIAuthError.
  destruct (Alerts.isAuthError (Alerts.normalizeErrorInfo error_)) eqn:Hauth; cbn [negb];
    [|cbn; repeat split].
  unfold Alerts.shouldAlert, Alerts.Date_now.
  cbn [Alerts.lastAlertKey Alerts.lastAlertAt].
  match goal with |- context [if ?c then (false, ?s) else _] => destruct c end;
    cbn [negb fst snd]; [cbn; repeat split|].
  unfold Alerts.buildAlertText, Alerts.Date_now.
  cbn [Alerts.transporter Alerts.lastAlertAt Alerts.lastAlertKey Alerts.console
       Alerts.outbox Alerts.readings Alerts.created fst snd].
  match goal with |- context [Alerts.trySend env ?subj ?txt ?s] =>
    pose proof (trySend_outcome env subj txt s) as Hsend;
    exists txt
  end.
  cbv zeta in Hsend |- *.
  destruct Hsend as (Hat & Hkey & _ & Hsend).
  split; [reflexivity|]. split; [rewrite Hat; reflexivity|].
  split; [rewrite Hkey; reflexivity|].
  unfold Alerts.getTransporter in Hsend |- *.
  destruct (Js.falsyStr (Alerts.ALERT_EMAIL_TO env) || Js.falsyStr (Alerts.ALERT_EMAIL_PWD env)
            || Js.falsyStr (Alerts.ALERT_EMAIL_FROM env)).
  - cbn in Hsend |- *. rewrite Hsend. cbn. split; reflexivity.
  - cbn in Hsend |- *. destruct (Alerts.transporter st); cbn in Hsend |- *;
      destruct Hsend as (_ & Hout & Hconsole); rewrite Hout, Hconsole;
      (split; [reflexivity|]); rewrite <- app_assoc; reflexivity.
Qed.

(** X13.  A transport exists exactly when a recipient and a password are
    set: the sender never blocks it, since it has a default.  The transport
    logs in as the sender. *)
Theorem transport_needs_recipient_and_password (env : Alerts.Env) (st : Alerts.State) :
  let vars := Alerts.processEnv env in
  match (Alerts.getTransporter env st).1 with
  | Some mailer =>
      (present (Alerts.env_OPENAI_ALERT_EMAIL_TO vars) || present (Alerts.env_ALERT_EMAIL_TO vars))
      && (present (Alerts.env_OPENAI_ALERT_EMAIL_PWD vars)
          || present (Alerts.env_ALERT_EMAIL_PWD vars) || present (Alerts.env_EMAIL_PWD vars))
      = true /\
      (Alerts.transporter st = None ->
       Alerts.auth_user mailer = Js.str (Alerts.ALERT_EMAIL_FROM env) /\
       Alerts.auth_user mailer <> EmptyString)
  | None =>
      (present (Alerts.env_OPENAI_ALERT_EMAIL_TO vars) || present (Alerts.env_ALERT_EMAIL_TO vars))
      && (present (Alerts.env_OPENAI_ALERT_EMAIL_PWD vars)
          || present (Alerts.env_ALERT_EMAIL_PWD vars) || present (Alerts.env_EMAIL_PWD vars))
      = false
  end.
Proof.
  cbv zeta.
  assert (Hfrom : Js.falsyStr (Alerts.ALERT_EMAIL_FROM env) = false).
  { unfold Alerts.ALERT_EMAIL_FROM, Alerts.orStr.
    destruct (Js.falsyStr (Alerts.env_OPENAI_ALERT_EMAIL_FROM _)) eqn:H1; [|exact H1].
    destruct (Js.falsyStr (Alerts.env_ALERT_EMAIL_FROM _)) eqn:H2; [|exact H2].
    reflexivity. }
  assert (Hto : Js.falsyStr (Alerts.ALERT_EMAIL_TO env) =
                negb (present (Alerts.env_OPENAI_ALERT_EMAIL_TO (Alerts.processEnv env))
                      || present (Alerts.env_ALERT_EMAIL_TO (Alerts.processEnv env)))).
  { unfold Alerts.ALERT_EMAIL_TO, Alerts.orStr, present.
    destruct (Js.falsyStr (Alerts.env_OPENAI_ALERT_EMAIL_TO _)) eqn:H1;
      [|rewrite H1; reflexivity].
    cbn. rewrite negb_involutive. reflexivity. }
  assert (Hpwd : Js.falsyStr (Alerts.ALERT_EMAIL_PWD env) =
                 negb (present (Alerts.env_OPENAI_ALERT_EMAIL_PWD (Alerts.processEnv env))
                       || present (Alerts.env_ALERT_EMAIL_PWD (Alerts.processEnv env))
                       || present (Alerts.env_EMAIL_PWD (Alerts.processEnv env)))).
  { unfold Alerts.ALERT_EMAIL_PWD, Alerts.orStr, present.
    destruct (Js.falsyStr (Alerts.env_OPENAI_ALERT_EMAIL_PWD _)) eqn:H1;
      [|rewrite H1; reflexivity].
    destruct (Js.falsyStr (Alerts.env_ALERT_EMAIL_PWD _)) eqn:H2;
      [|rewrite H2; reflexivity].
    cbn. rewrite negb_involutive. reflexivity. }
  unfold Alerts.getTransporter. rewrite Hfrom, Hto, Hpwd, orb_false_r.
  destruct (present _ || present _); cbn; [|reflexivity].
  destruct (present _ || present _ || present _); cbn; [|reflexivity].
  destruct (Alerts.transporter st); cbn; (split; [reflexivity|]); [discriminate|].
  intros _. split; [reflexivity|].
  unfold Js.falsyStr in Hfrom. destruct (Alerts.ALERT_EMAIL_FROM env) as [sender|]; [|discriminate].
  cbn. destruct (decide (sender = EmptyString)); [discriminate|assumption].
Qed.

Lemma report_keeps_one_transport (env : Alerts.Env) (call : AlertCall) (st : Alerts.State) :
  let st' := (report env call st).2 in
  (Alerts.transporter st = None /\ Alerts.created st = 0%nat \/
   Alerts.transporter st <> None /\ Alerts.created st = 1%nat) ->
  (Alerts.transporter st' = None /\ Alerts.created st' = 0%nat \/
   Alerts.transporter st' <> None /\ Alerts.created st' = 1%nat).
Proof.
  assert (Hsend : forall subject_ text_ s,
    (Alerts.transporter s = None /\ Alerts.created s = 0%nat \/
     Alerts.transporter s <> None /\ Alerts.created s = 1%nat) ->
    let s' := Alerts.trySend env subject_ text_ s in
    (Alerts.transporter s' = None /\ Alerts.created s' = 0%nat \/
     Alerts.transporter s' <> None /\ Alerts.created s' = 1%nat)).
  { intros subject_ text_ s Hinv.
    unfold Alerts.trySend, Alerts.sendAlertEmail, Alerts.getTransporter.
    destruct (Js.falsyStr (Alerts.ALERT_EMAIL_TO env) || Js.falsyStr (Alerts.ALERT_EMAIL_PWD env)
              || Js.falsyStr (Alerts.ALERT_EMAIL_FROM env)); [exact Hinv|].
    destruct (Alerts.transporter s) as [mailer|] eqn:Hmailer;
      cbn [Alerts.outbox];
      match goal with |- context [Alerts.sendMail env ?o ?m] =>
        destruct (Alerts.sendMail env o m)
      end; cbn;
      try rewrite Hmailer;
      destruct Hinv as [[Hnone Hcount]|[Hsome Hcount]];
      try discriminate; try congruence;
      right; (split; [discriminate|]); try assumption; rewrite Hcount; reflexivity. }
  intros st' Hinv. subst st'.
  destruct call as [error_ context|context]; cbn [report];
    unfold Alerts.reportOpenAIAuthError, Alerts.reportOpenAIMissingApiKey.
  1: destruct (Alerts.isAuthError (Alerts.normalizeErrorInfo error_)); cbn [negb snd];
       [|exact Hinv].
  all: unfold Alerts.shouldAlert, Alerts.Date_now;
    cbn [Alerts.lastAlertKey Alerts.lastAlertAt];
    match goal with |- context [if ?c then (false, ?s) else _] => destruct c end;
    cbn [negb fst snd]; [exact Hinv|];
    unfold Alerts.buildAlertText, Alerts.Date_now;
    cbn [Alerts.transporter Alerts.lastAlertAt Alerts.lastAlertKey Alerts.console
         Alerts.outbox Alerts.readings Alerts.created fst snd];
    apply Hsend; exact Hinv.
Qed.

(** X14.  However many alerts are reported after the module is loaded, and
    whatever the transport answers, [nodemailer.createTransport] is called
    at most once. *)
Theorem transport_is_created_once (env : Alerts.Env) (calls : list AlertCall) :
  (Alerts.created (reportAll env calls Alerts.loaded) <= 1)%nat.
Proof.
  assert (Hinv : forall st,
    (Alerts.transporter st = None /\ Alerts.created st = 0%nat \/
     Alerts.transporter st <> None /\ Alerts.created st = 1%nat) ->
    (Alerts.created (reportAll env calls st) <= 1)%nat).
  { induction calls as [|call calls IH]; intros st Hst.
    - cbn. destruct Hst as [[_ ->]|[_ ->]]; lia.
    - cbn [reportAll fold_left]. apply IH. exact (report_keeps_one_transport env call st Hst). }
  apply Hinv. left. split; reflexivity.
Qed.

Lemma isAuthError_tests (info : Alerts.Info.t) :
  Alerts.isAuthError info =
  statusTest (Alerts.Info.status info) || typeTest (Alerts.Info.type info)
  || codeTest (Alerts.Info.code info) || messageTest (Alerts.Info.message info).
Proof.
  unfold Alerts.isAuthError, statusTest, typeTest, codeTest, messageTest. cbv zeta.
  repeat match goal with |- context [if ?b then _ else _] => destruct b end;
    cbn; rewrite ?orb_true_r, ?orb_false_r; try reflexivity.
Qed.

Lemma orElse_keeps {A} (test : option A -> bool) (top nested : option A) :
  test None = false -> test top = true -> test (Alerts.orElse top nested) = true.
Proof. intros Hnone Htop. destruct top; [exact Htop|congruence]. Qed.

(** X27.  The members [response] and [error] of a thrown value never hide
    an authentication error: a value that is recognised by its top-level
    fields alone is recognised whatever those members hold. *)
Theorem nested_fields_never_hide_auth_error (e : Alerts.ApiError) :
  Alerts.isAuthError (Alerts.normalizeErrorInfo (Some (topLevel e))) = true ->
  Alerts.isAuthError (Alerts.normalizeErrorInfo (Some e)) = true.
Proof.
  rewrite !isAuthError_tests.
  unfold Alerts.normalizeErrorInfo, topLevel, Alerts.member.
  cbn [Alerts.Info.status Alerts.Info.type Alerts.Info.code Alerts.Info.message
       Alerts.status Alerts.code Alerts.type Alerts.message Alerts.response_status
       Alerts.response_data_error Alerts.error].
  intros Htop.
  apply orb_true_iff in Htop as [Htop|Hmessage];
    [apply orb_true_iff in Htop as [Htop|Hcode];
       [apply orb_true_iff in Htop as [Hstatus|Htype]|]|].
  - rewrite (orElse_keeps statusTest _ _ eq_refl); [reflexivity|].
    destruct (Alerts.status e); exact Hstatus.
  - rewrite (orElse_keeps typeTest _ _ eq_refl); [rewrite orb_true_r; reflexivity|].
    destruct (Alerts.type e); exact Htype.
  - rewrite (orElse_keeps codeTest _ _ eq_refl); [rewrite !orb_true_r; reflexivity|].
    destruct (Alerts.code e); exact Hcode.
  - assert (Hkept : Js.falsyStr (Alerts.message e) = false).
    { destruct (Js.falsyStr (Alerts.message e)) eqn:Hfalsy; [|reflexivity].
      unfold Alerts.orStr in Hmessage. rewrite Hfalsy in Hmessage. discriminate Hmessage. }
    unfold Alerts.orStr in Hmessage |- *. rewrite Hkept in Hmessage |- *.
    rewrite Hmessage, !orb_true_r. reflexivity.
Qed.

Lemma nested_fields_never_hide_auth_error_witness :
  Alerts.isAuthError (Alerts.normalizeErrorInfo (Some expiredKey)) = true.
Proof. apply (nested_fields_never_hide_auth_error expiredKey). reflexivity. Defined.

(** ** Question generation *)

Lemma skipSpaces_spaces (spaces text : string) :
  allChars Question.isSpace1 spaces = true ->
  Question.skipSpaces (spaces +:+ text) = Question.skipSpaces text.
Proof.
  induction spaces as [|c spaces IH]; intros Hspaces; [reflexivity|].
  cbn [allChars] in Hspaces. apply andb_prop in Hspaces as [Hc Hspaces].
  change (String c spaces +:+ text) with (String c (spaces +:+ text)).
  change (Question.skipSpaces (String c (spaces +:+ text)))
    with (if Question.isSpace1 c then Question.skipSpaces (spaces +:+ text)
          else match spaces +:+ text with
               | EmptyString => String c (spaces +:+ text)
               | String b s2 =>
                   if Question.isSpace2 c b then Question.skipSpaces s2
                   else match s2 with
                        | EmptyString => String c (spaces +:+ text)
                        | String c3 s3 =>
                            if Question.isSpace3 c b c3 then Question.skipSpaces s3
                            else String c (spaces +:+ text)
                        end
               end).
  rewrite Hc. exact (IH Hspaces).
Qed.

(** X15.  A choice written as a letter, a closing parenthesis, any run of
    blanks and a text that does not begin with white space is cleaned to
    that text. *)
Theorem cleanAnswerChoice_strips_label (letter : ascii) (spaces text : string) :
  Question.isLetter letter = true ->
  allChars Question.isSpace1 spaces = true ->
  Question.skipSpaces text = text ->
  Question.cleanAnswerChoice (String letter (String ")" (spaces +:+ text))) = text.
Proof.
  intros Hletter Hspaces Htext.
  unfold Question.cleanAnswerChoice. rewrite Hletter. cbn [andb Ascii.eqb Bool.eqb].
  rewrite (skipSpaces_spaces _ _ Hspaces). exact Htext.
Qed.

Lemma cleanAnswerChoice_strips_label_witness :
  Question.cleanAnswerChoice "C)  Mass of the core" = "Mass of the core"%string.
Proof.
  apply (cleanAnswerChoice_strips_label "C" "  " "Mass of the core"); reflexivity.
Defined.

Lemma draw_is_inside (r : Q) (i : nat) :
  (0 <= r)%Q -> (r < 1)%Q ->
  (Z.to_nat (Qfloor (r * inject_Z (Z.of_nat (S i) + 1))) <= S i)%nat.
Proof.
  intros Hlow Hhigh.
  assert (Hbound : (Qfloor (r * inject_Z (Z.of_nat (S i) + 1)) < Z.of_nat (S i) + 1)%Z).
  { rewrite Zlt_Qlt. eapply Qle_lt_trans; [apply Qfloor_le|].
    assert (Hpos : (0 < inject_Z (Z.of_nat (S i) + 1))%Q).
    { replace 0%Q with (inject_Z 0) by reflexivity. rewrite <- Zlt_Qlt. lia. }
    eapply Qlt_le_trans; [apply Qmult_lt_compat_r; eassumption|].
    rewrite Qmult_1_l. apply Qle_refl. }
  lia.
Qed.

Lemma set_inside {A} (i : nat) (v : option A) (array : list (option A)) :
  (i < length array)%nat -> Question.set i v array = <[i := v]> array.
Proof.
  intros Hi. unfold Question.set. destruct (Nat.ltb_spec i (length array)); [reflexivity|lia].
Qed.

Lemma get_inside {A} (i : nat) (l : list A) :
  Question.get (map Some l) i = l !! i.
Proof.
  unfold Question.get. rewrite list_lookup_fmap. destruct (l !! i); reflexivity.
Qed.

Lemma swap_inside {A} (i j : nat) (l : list A) :
  (i < length l)%nat -> (j < length l)%nat ->
  exists l', Question.swap i j (map Some l) = map Some l' /\ l' ≡ₚ l.
Proof.
  intros Hi Hj.
  destruct (lookup_lt_is_Some_2 l i Hi) as [x Hx].
  destruct (lookup_lt_is_Some_2 l j Hj) as [y Hy].
  exists (<[j := x]> (<[i := y]> l)). split.
  - unfold Question.swap. cbv zeta. rewrite !get_inside, Hx, Hy.
    rewrite (set_inside i), (set_inside j).
    + rewrite !list_fmap_insert. reflexivity.
    + rewrite length_insert, length_map. exact Hj.
    + rewrite length_map. exact Hi.
  - exact (Permutation_insert_swap l i j x y Hx Hy).
Qed.

Lemma shuffleFrom_permutes {A} (env : Question.Env) (i : nat) (l : list A)
    (st : Question.State) :
  (forall n, (0 <= Question.random env n)%Q /\ (Question.random env n < 1)%Q) ->
  (i < length l)%nat ->
  exists l',
    (Question.shuffleFrom env i (map Some l) st).1 = map Some l' /\ l' ≡ₚ l /\
    Question.draws (Question.shuffleFrom env i (map Some l) st).2 =
      (Question.draws st + i)%nat /\
    Question.alertState (Question.shuffleFrom env i (map Some l) st).2 =
      Question.alertState st /\
    Question.prompts (Question.shuffleFrom env i (map Some l) st).2 = Question.prompts st.
Proof.
  intros Hrandom. revert l st. induction i as [|i IH]; intros l st Hi.
  - exists l. cbn. rewrite Nat.add_0_r. repeat split; reflexivity.
  - cbn [Question.shuffleFrom]. unfold Question.Math_random.
    set (j := Z.to_nat _).
    assert (Hj : (j <= S i)%nat).
    { apply draw_is_inside; apply Hrandom. }
    destruct (swap_inside (S i) j l Hi ltac:(lia)) as (l1 & Hswap & Hperm1).
    rewrite Hswap.
    match goal with |- context [Question.shuffleFrom env i (map Some l1) ?s] =>
      destruct (IH l1 s) as (l' & Hrun & Hperm & Hdraws & Halerts & Hprompts)
    end.
    { rewrite (Permutation_length Hperm1). lia. }
    exists l'. rewrite Hrun, Hdraws, Halerts, Hprompts. cbn.
    repeat split; [etransitivity; eassumption|lia].
Qed.

Lemma shuffleArray_outcome {A} (env : Question.Env) (l : list A) (st : Question.State) :
  (forall n, (0 <= Question.random env n)%Q /\ (Question.random env n < 1)%Q) ->
  exists l',
    (Question.shuffleArray env (map Some l) st).1 = map Some l' /\ l' ≡ₚ l /\
    Question.draws (Question.shuffleArray env (map Some l) st).2 =
      (Question.draws st + (length l - 1))%nat /\
    Question.alertState (Question.shuffleArray env (map Some l) st).2 =
      Question.alertState st /\
    Question.prompts (Question.shuffleArray env (map Some l) st).2 = Question.prompts st.
Proof.
  intros Hrandom. unfold Question.shuffleArray. rewrite length_map.
  destruct l as [|x l].
  - exists []. cbn. rewrite Nat.add_0_r. repeat split; reflexivity.
  - apply shuffleFrom_permutes; [exact Hrandom|cbn; lia].
Qed.

(** X16.  [shuffleArray] rearranges: with every draw of [Math.random()] at
    least 0 and less than 1, the array afterwards holds the same elements,
    each as often as before, and no hole; an array of [n] elements costs
    [n - 1] draws. *)
Theorem shuffleArray_rearranges {A} (env : Question.Env) (array : list A)
    (st : Question.State) :
  (forall n, (0 <= Question.random env n)%Q /\ (Question.random env n < 1)%Q) ->
  exists shuffled,
    (Question.shuffleArray env (map Some array) st).1 = map Some shuffled /\
    shuffled ≡ₚ array /\
    Question.draws (Question.shuffleArray env (map Some array) st).2 =
      (Question.draws st + (length array - 1))%nat.
Proof.
  intros Hrandom.
  destruct (shuffleArray_outcome env array st Hrandom) as (l' & H1 & H2 & H3 & _).
  exists l'. repeat split; assumption.
Qed.

Lemma quiz_draws (n : nat) :
  (0 <= Question.random quizEnv n)%Q /\ (Question.random quizEnv n < 1)%Q.
Proof. cbn. destruct (Nat.even n); split; reflexivity || discriminate. Qed.

Lemma shuffleArray_rearranges_witness :
  exists shuffled,
    (Question.shuffleArray quizEnv (map Some [1; 2; 3; 4]%nat) started).1 = map Some shuffled /\
    shuffled ≡ₚ [1; 2; 3; 4]%nat /\
    Question.draws (Question.shuffleArray quizEnv (map Some [1; 2; 3; 4]%nat) started).2 =
      (Question.draws started + (length [1; 2; 3; 4]%nat - 1))%nat.
Proof. exact (shuffleArray_rearranges quizEnv [1; 2; 3; 4]%nat started quiz_draws). Defined.

Lemma shuffleFrom_prompts {A} (env : Question.Env) (i : nat) (array : list (option A))
    (st : Question.State) :
  Question.prompts (Question.shuffleFrom env i array st).2 = Question.prompts st /\
  Question.alertState (Question.shuffleFrom env i array st).2 = Question.alertState st.
Proof.
  revert array st. induction i as [|i IH]; intros array st; [split; reflexivity|].
  cbn [Question.shuffleFrom]. unfold Question.Math_random.
  match goal with |- context [Question.shuffleFrom env i ?a ?s] =>
    destruct (IH a s) as [-> ->]
  end.
  split; reflexivity.
Qed.

Lemma evaluate_state (env : Question.Env) (generatedMessage : string) (st : Question.State) :
  Question.prompts (Question.evaluate env generatedMessage st).2 = Question.prompts st /\
  Alerts.outbox (Question.alertState (Question.evaluate env generatedMessage st).2) =
    Alerts.outbox (Question.alertState st).
Proof.
  unfold Question.evaluate, Question.shuffleArray.
  match goal with |- context [Question.shuffleFrom env ?i ?a ?s] =>
    pose proof (shuffleFrom_prompts env i a s) as [Hprompts Halerts];
    destruct (Question.shuffleFrom env i a s) as [shuffled st1]
  end.
  cbn in Hprompts, Halerts |- *. rewrite Hprompts, Halerts. split; reflexivity.
Qed.

(** X17.  Whatever the outcome, a call of [generateEvaluation] sends one
    prompt, built from the description, and never retries; it sends none
    in the test environment or without an API key. *)
Theorem generateEvaluation_sends_one_prompt (env : Question.Env) (description : string)
    (st : Question.State) :
  Question.prompts (Question.generateEvaluation env description st).2 =
  Question.prompts st ++
  (if Question.isTestEnv env || Js.falsyStr (Question.openaiApiKey env) then []
   else [Question.prompt description]).
Proof.
  unfold Question.generateEvaluation.
  destruct (Question.isTestEnv env); cbn [orb]; [cbn; rewrite app_nil_r; reflexivity|].
  unfold Question.attempt.
  destruct (Js.falsyStr (Question.openaiApiKey env)).
  - destruct (Alerts.reportOpenAIMissingApiKey _ _ _) as [alerted a].
    cbn. rewrite app_nil_r. reflexivity.
  - destruct (Question.create env (Question.prompts st) (Question.prompt description))
      as [e|response].
    + destruct (Alerts.reportOpenAIAuthError _ _ _ _) as [alerted a]. reflexivity.
    + destruct (head (Question.choices response)) as [choice|].
      2: { destruct (Alerts.reportOpenAIAuthError _ _ _ _) as [alerted a]. reflexivity. }
      destruct (Question.message choice) as [message_|].
      2: { destruct (Alerts.reportOpenAIAuthError _ _ _ _) as [alerted a]. reflexivity. }
      destruct (Question.content message_) as [generatedMessage|].
      2: { destruct (Alerts.reportOpenAIAuthError _ _ _ _) as [alerted a]. reflexivity. }
      match goal with |- context [Question.evaluate env generatedMessage ?s] =>
        pose proof (evaluate_state env generatedMessage s) as [Hprompts _];
        destruct (Question.evaluate env generatedMessage s) as [evaluation st1]
      end.
      cbn in Hprompts |- *. exact Hprompts.
Qed.

(** X18.  When the API refuses the request, the caller gets [null], the
    failure is the last line of the console and no random number was
    drawn; unless the error is an authentication error, no alert is
    raised: nothing is mailed and the throttle is left as it was. *)
Theorem refused_request_gives_null (env : Question.Env) (description : string)
    (st : Question.State) (e : Alerts.ApiError) :
  Question.isTestEnv env = false ->
  Js.falsyStr (Question.openaiApiKey env) = false ->
  Question.create env (Question.prompts st) (Question.prompt description) = inl e ->
  let result := Question.generateEvaluation env description st in
  let after := Question.alertState result.2 in
  result.1 = None /\
  Question.draws result.2 = Question.draws st /\
  last (Alerts.console after) = Some (generationFailure e) /\
  (Alerts.isAuthError (Alerts.normalizeErrorInfo (Some e)) = false ->
   Alerts.console after = Alerts.console (Question.alertState st) ++ [generationFailure e] /\
   Alerts.outbox after = Alerts.outbox (Question.alertState st) /\
   Alerts.lastAlertAt after = Alerts.lastAlertAt (Question.alertState st) /\
   Alerts.lastAlertKey after = Alerts.lastAlertKey (Question.alertState st)).
Proof.
  intros Htest Hkey Hrefused.
  unfold Question.generateEvaluation, Question.attempt.
  rewrite Htest, Hkey, Hrefused. cbv zeta.
  cbn [Question.alertState].
  destruct (Alerts.reportOpenAIAuthError (Question.alerts env) (Some e) Question.operation
              (Question.alertState st)) as [alerted a] eqn:Hreport.
  cbn. refine (conj eq_refl (conj eq_refl (conj _ _))).
  - rewrite last_snoc. reflexivity.
  - intros Hother. unfold Alerts.reportOpenAIAuthError in Hreport.
    rewrite Hother in Hreport. cbn in Hreport. injection Hreport as _ <-.
    repeat split; reflexivity.
Qed.

Lemma refused_request_gives_null_witness :
  let result := Question.generateEvaluation overloadedEnv "Tides" started in
  let after := Question.alertState result.2 in
  result.1 = None /\
  Question.draws result.2 = Question.draws started /\
  last (Alerts.console after) = Some (generationFailure overloaded) /\
  (Alerts.isAuthError (Alerts.normalizeErrorInfo (Some overloaded)) = false ->
   Alerts.console after =
     Alerts.console (Question.alertState started) ++ [generationFailure overloaded] /\
   Alerts.outbox after = Alerts.outbox (Question.alertState started) /\
   Alerts.lastAlertAt after = Alerts.lastAlertAt (Question.alertState started) /\
   Alerts.lastAlertKey after = Alerts.lastAlertKey (Question.alertState started)).
Proof.
  apply (refused_request_gives_null overloadedEnv "Tides" started overloaded); reflexivity.
Defined.

(** X19.  When the API answers with a text, the caller gets an evaluation:
    its question is the first line that is not empty, its responses are
    the other lines, cleaned, in some order and with nothing lost or
    added, and its correct answer is the first of them as generated,
    which is one of the responses.  Nothing is mailed. *)
Theorem answered_request_gives_evaluation (env : Question.Env) (description : string)
    (st : Question.State) (response : Question.Response) (generatedMessage : string) :
  Question.isTestEnv env = false ->
  Js.falsyStr (Question.openaiApiKey env) = false ->
  (forall n, (0 <= Question.random env n)%Q /\ (Question.random env n < 1)%Q) ->
  Question.create env (Question.prompts st) (Question.prompt description) = inr response ->
  answersWith response generatedMessage ->
  let choices := map Question.cleanAnswerChoice (tail (nonEmptyLines generatedMessage)) in
  exists evaluation shuffled,
    (Question.generateEvaluation env description st).1 = Some evaluation /\
    Question.question evaluation = head (nonEmptyLines generatedMessage) /\
    Question.responses evaluation = map Some shuffled /\
    shuffled ≡ₚ choices /\
    Question.correct evaluation = head choices /\
    (forall answer, Question.correct evaluation = Some answer -> answer ∈ shuffled) /\
    Alerts.outbox (Question.alertState (Question.generateEvaluation env description st).2) =
      Alerts.outbox (Question.alertState st).
Proof.
  intros Htest Hkey Hrandom Hanswer (choice & message_ & Hchoice & Hmessage & Hcontent) choices.
  unfold Question.generateEvaluation, Question.attempt.
  rewrite Htest, Hkey, Hanswer, Hchoice, Hmessage, Hcontent. cbv zeta.
  unfold Question.evaluate. fold (nonEmptyLines generatedMessage).
  replace (map (fun line => Some (Question.cleanAnswerChoice line))
             (tail (nonEmptyLines generatedMessage)))
    with (map Some choices) by (unfold choices; rewrite map_map; reflexivity).
  match goal with |- context [Question.shuffleArray env (map Some choices) ?s] =>
    destruct (shuffleArray_outcome env choices s Hrandom)
      as (shuffled & Hshuffled & Hperm & _ & Halerts & _);
    destruct (Question.shuffleArray env (map Some choices) s) as [array st1]
  end.
  cbn in Hshuffled, Halerts.
  eexists. exists shuffled. cbn.
  rewrite get_inside, Halerts. cbn.
  refine (conj eq_refl (conj eq_refl (conj Hshuffled (conj Hperm
            (conj _ (conj _ eq_refl)))))).
  - destruct choices; reflexivity.
  - intros answer Hcorrect. rewrite Hperm.
    destruct choices as [|first rest]; [discriminate|].
    cbn in Hcorrect. injection Hcorrect as <-. apply elem_of_cons. left. reflexivity.
Qed.

Lemma answered_request_gives_evaluation_witness :
  let choices := map Question.cleanAnswerChoice (tail (nonEmptyLines quizText)) in
  exists evaluation shuffled,
    (Question.generateEvaluation quizEnv "Tides" started).1 = Some evaluation /\
    Question.question evaluation = head (nonEmptyLines quizText) /\
    Question.responses evaluation = map Some shuffled /\
    shuffled ≡ₚ choices /\
    Question.correct evaluation = head choices /\
    (forall answer, Question.correct evaluation = Some answer -> answer ∈ shuffled) /\
    Alerts.outbox (Question.alertState (Question.generateEvaluation quizEnv "Tides" started).2) =
      Alerts.outbox (Question.alertState started).
Proof.
  apply (answered_request_gives_evaluation quizEnv "Tides" started
           {| Question.choices :=
                [{| Question.message := Some {| Question.content := Some quizText |} |}] |}
           quizText); try reflexivity.
  - exact quiz_draws.
  - eexists. eexists. repeat split; reflexivity.
Defined.

Example quiz_evaluation :
  (Question.generateEvaluation quizEnv "Tides" started).1 =
  Some {| Question.question := Some "What is measured?"%string;
          Question.responses := [Some "Mass"; Some "Speed"; Some "Impact"; Some "Time"]%string;
          Question.correct := Some "Impact"%string |}.
Proof. reflexivity. Qed.

(** ** The computor with the metrics cache, in general *)

Lemma refusedb_app (env : Env) (history first second : list Request) :
  refusedb env history (first ++ second) =
  refusedb env history first || refusedb env (history ++ first) second.
Proof.
  revert history. induction first as [|request first IH]; intros history.
  - cbn. rewrite app_nil_r. reflexivity.
  - cbn [app refusedb]. rewrite IH, <- app_assoc, orb_assoc. reflexivity.
Qed.

Lemma cacheGrows_refl (runCache : CachingComputor.RunCache.t) : cacheGrows runCache runCache.
Proof. refine (conj _ (conj _ (conj _ _))); try reflexivity. intros name title H _. exact H. Qed.

Lemma cacheGrows_trans (a b c : CachingComputor.RunCache.t) :
  cacheGrows a b -> cacheGrows b c -> cacheGrows a c.
Proof.
  intros (H1 & H2 & H3 & H4) (K1 & K2 & K3 & K4).
  refine (conj _ (conj _ (conj _ _))); try (etransitivity; eassumption).
  intros name title Hlookup Htitle. exact (K3 _ _ (H3 _ _ Hlookup Htitle) Htitle).
Qed.

Lemma stageFacts_refl (env : Env) (v : CachingComputor.Vars.t) (st : State) :
  stageFacts env 0 v st v st.
Proof.
  exists []. rewrite app_nil_r. cbn.
  refine (conj eq_refl (conj _ (conj eq_refl (conj eq_refl (conj _ eq_refl))))); [lia|].
  apply cacheGrows_refl.
Qed.

Lemma stageFacts_trans (env : Env) (n m : nat) (v v1 v2 : CachingComputor.Vars.t)
    (st st1 st2 : State) :
  stageFacts env n v st v1 st1 -> stageFacts env m v1 st1 v2 st2 ->
  stageFacts env (n + m) v st v2 st2.
Proof.
  intros (r1 & Hc1 & Hl1 & Hcol1 & Hw1 & Hg1 & Hb1) (r2 & Hc2 & Hl2 & Hcol2 & Hw2 & Hg2 & Hb2).
  exists (r1 ++ r2).
  rewrite Hc2, Hc1, <- app_assoc, length_app, Hcol2, Hcol1, Hw2, Hw1.
  refine (conj eq_refl (conj _ (conj eq_refl (conj eq_refl (conj _ _))))).
  - lia.
  - exact (cacheGrows_trans _ _ _ Hg1 Hg2).
  - rewrite Hb2, Hb1, refusedb_app, Hc1.
    destruct (refusedb env (calls st) r1), (refusedb env (calls st ++ r1) r2); reflexivity.
Qed.

Lemma stageFacts_weaken (env : Env) (n m : nat) (v v' : CachingComputor.Vars.t)
    (st st' : State) :
  (n <= m)%nat -> stageFacts env n v st v' st' -> stageFacts env m v st v' st'.
Proof.
  intros Hle (r & Hc & Hl & Hrest). exists r. split; [exact Hc|]. split; [lia|exact Hrest].
Qed.

Lemma bind_stage (env : Env) (n m : nat) (c : M CachingComputor.Vars.t)
    (k : CachingComputor.Vars.t -> M CachingComputor.Vars.t)
    (v : CachingComputor.Vars.t) (st : State) :
  (exists v1 st1, c st = (Normal v1, st1) /\ stageFacts env n v st v1 st1) ->
  (forall v1 st1, exists v2 st2, k v1 st1 = (Normal v2, st2) /\ stageFacts env m v1 st1 v2 st2) ->
  exists v2 st2, bind c k st = (Normal v2, st2) /\ stageFacts env (n + m) v st v2 st2.
Proof.
  intros (v1 & st1 & Hrun & Hfacts) Hk.
  destruct (Hk v1 st1) as (v2 & st2 & Hrun2 & Hfacts2).
  exists v2, st2. unfold bind. rewrite Hrun. split; [exact Hrun2|].
  exact (stageFacts_trans _ _ _ _ _ _ _ _ _ Hfacts Hfacts2).
Qed.

Ltac stage_cases :=
  repeat match goal with
  | |- context [match ?m !! ?k with _ => _ end] => destruct (m !! k) eqn:?
  | |- context [if ?b then _ else _] => destruct b eqn:?
  | |- context [match http ?e ?h ?r with _ => _ end] => destruct (http e h r) eqn:?
  | |- context [match ?x with Some _ => _ | None => _ end] => destruct x eqn:?
  end.

Ltac title_kept :=
  let name := fresh "name" in
  let title := fresh "title" in
  let Hlookup := fresh "Hlookup" in
  let Htitle := fresh "Htitle" in
  intros name title Hlookup Htitle; cbn;
  first
    [ exact Hlookup
    | match goal with
      | |- <[?key := _]> _ !! _ = _ =>
          destruct (decide (name = key)) as [->|];
          [ exfalso;
            match goal with
            | H : negb (Js.falsyStr (mjoin _)) = false |- _ =>
                rewrite Hlookup in H; cbn in H; apply negb_false_iff in H; congruence
            end
          | rewrite lookup_insert_ne by congruence; exact Hlookup ]
      end ].

Ltac stage_done :=
  do 2 eexists; (split; [reflexivity|]);
  first
    [ exists []; cbn; rewrite ?app_nil_r;
      refine (conj eq_refl (conj _ (conj eq_refl (conj eq_refl (conj _ eq_refl)))));
      [lia|]
    | eexists [_]; cbn;
      match goal with H : http _ _ _ = _ |- _ => rewrite H end; cbn;
      refine (conj eq_refl (conj _ (conj eq_refl (conj eq_refl (conj _ eq_refl)))));
      [lia|] ];
  refine (conj _ (conj _ (conj _ _))); cbn;
  first [ reflexivity | apply insert_subseteq; assumption | title_kept ].

Lemma resolveTotals_stage (env : Env) (topic : Topic.t) (v : CachingComputor.Vars.t)
    (st : State) :
  exists v' st',
    CachingComputor.resolveTotals env topic (now env) v st = (Normal v', st') /\
    stageFacts env 1 v st v' st'.
Proof.
  unfold CachingComputor.resolveTotals, CachingComputor.fetchOpenAlexTopicMetrics,
    CachingComputor.setBackoff, try_catch, bind, ret, axios_get, console_call.
  cbv zeta. stage_cases; stage_done.
Qed.

Lemma resolveWorks12m_stage (env : Env) (topic : Topic.t) (range : DateRange)
    (v : CachingComputor.Vars.t) (st : State) :
  exists v' st',
    CachingComputor.resolveWorks12m env topic range (now env) v st = (Normal v', st') /\
    stageFacts env 1 v st v' st'.
Proof.
  unfold CachingComputor.resolveWorks12m, CachingComputor.fetchOpenAlexWorksCountLast12Months,
    CachingComputor.setBackoff, try_catch, bind, ret, axios_get, console_call.
  cbv zeta. stage_cases; stage_done.
Qed.

Lemma resolveTitle_stage (env : Env) (topic : Topic.t) (v : CachingComputor.Vars.t)
    (st : State) :
  exists v' st',
    CachingComputor.resolveTitle env topic (now env) v st = (Normal v', st') /\
    stageFacts env 1 v st v' st'.
Proof.
  unfold CachingComputor.resolveTitle, CachingComputor.fetchWikipediaTitle,
    CachingComputor.setBackoff, try_catch, bind, ret, axios_get, console_call.
  cbv zeta. stage_cases; stage_done.
Qed.

Lemma resolveViews_stage (env : Env) (range : DateRange) (v : CachingComputor.Vars.t)
    (st : State) :
  exists v' st',
    CachingComputor.resolveViews env range (now env) v st = (Normal v', st') /\
    stageFacts env 1 v st v' st'.
Proof.
  unfold CachingComputor.resolveViews, CachingComputor.fetchWikipediaViews12Months,
    CachingComputor.setBackoff, try_catch, bind, ret, axios_get, console_call.
  cbv zeta. stage_cases; stage_done.
Qed.

Lemma bind_normal {A B} (c : M A) (k : A -> M B) (st st1 : State) (a : A) :
  c st = (Normal a, st1) -> bind c k st = k a st1.
Proof. intros H. unfold bind. rewrite H. reflexivity. Qed.

Lemma caching_computeRaw_facts (env : Env) (topic : Topic.t)
    (runCache : CachingComputor.RunCache.t) (st : State) :
  exists raw topic' runCache' st' requests,
    CachingComputor.computeRawIndicatorsForTopic env topic runCache st
      = (Normal (raw, topic', runCache'), st') /\
    calls st' = calls st ++ requests /\ (length requests <= 4)%nat /\
    collection st' = collection st /\ writes st' = writes st /\
    cacheGrows runCache runCache' /\
    topic' = Topic.set_metrics (Topic.metrics topic') topic /\
    backoffUntil (Topic.metrics topic') =
      (if refusedb env (calls st) requests
       then Some (now env + CachingComputor.BACKOFF_MS)
       else backoffUntil (Topic.metrics topic)).
Proof.
  unfold CachingComputor.computeRawIndicatorsForTopic, getLast12MonthsRange,
    CachingComputor.ensureTopicMetrics.
  cbv zeta.
  match goal with |- context [bind ?c _ st] =>
    match c with context [CachingComputor.resolveTotals _ _ _ ?v0] =>
      assert (H1 : exists v1 st1, c st = (Normal v1, st1) /\ stageFacts env 2 v0 st v1 st1);
      [|destruct H1 as (v1 & st1 & Hrun1 & Hfacts1); rewrite (bind_normal _ _ _ _ _ Hrun1)]
    end
  end.
  { match goal with |- context [if ?b then _ else _] => destruct b end.
    - apply (bind_stage env 1 1); [apply resolveTotals_stage|].
      intros v1 st1. apply resolveWorks12m_stage.
    - match goal with |- context [if ?b then _ else _] => destruct b end.
      + unfold bind, console_call, ret. do 2 eexists. split; [reflexivity|].
        exists []. cbn. rewrite app_nil_r.
        refine (conj eq_refl (conj _ (conj eq_refl (conj eq_refl (conj _ eq_refl)))));
          [lia|apply cacheGrows_refl].
      + unfold ret. do 2 eexists. split; [reflexivity|].
        apply (stageFacts_weaken env 0); [lia|apply stageFacts_refl]. }
  match goal with |- context [bind ?c _ st1] =>
    assert (H2 : exists v2 st2, c st1 = (Normal v2, st2) /\ stageFacts env 2 v1 st1 v2 st2);
    [|destruct H2 as (v2 & st2 & Hrun2 & Hfacts2); rewrite (bind_normal _ _ _ _ _ Hrun2)]
  end.
  { match goal with |- context [if ?b then _ else _] => destruct b end.
    - apply (bind_stage env 1 1); [apply resolveTitle_stage|].
      intros v2 st2. apply resolveViews_stage.
    - unfold ret. do 2 eexists. split; [reflexivity|].
      apply (stageFacts_weaken env 0); [lia|apply stageFacts_refl]. }
  destruct (stageFacts_trans _ _ _ _ _ _ _ _ _ Hfacts1 Hfacts2)
    as (requests & Hcalls & Hlength & Hcollection & Hwrites & Hgrows & Hbackoff).
  unfold ret. do 4 eexists. exists requests.
  split; [reflexivity|].
  refine (conj Hcalls (conj Hlength (conj Hcollection (conj Hwrites (conj Hgrows
            (conj eq_refl Hbackoff)))))).
Qed.

(** X20.  With the metrics cache, [computeRawIndicatorsForTopic] always
    returns: it issues at most four requests, stores nothing, changes
    nothing of the Topic but its metrics, and leaves in the run cache
    every count and every title the cache held. *)
Theorem caching_call_outcome (env : Env) (topic : Topic.t)
    (runCache : CachingComputor.RunCache.t) (st : State) :
  exists raw topic' runCache' st' requests,
    CachingComputor.computeRawIndicatorsForTopic env topic runCache st
      = (Normal (raw, topic', runCache'), st') /\
    calls st' = calls st ++ requests /\ (length requests <= 4)%nat /\
    collection st' = collection st /\ writes st' = writes st /\
    cacheGrows runCache runCache' /\
    topic' = Topic.set_metrics (Topic.metrics topic') topic.
Proof.
  destruct (caching_computeRaw_facts env topic runCache st)
    as (raw & topic' & runCache' & st' & requests & H1 & H2 & H3 & H4 & H5 & H6 & H7 & _).
  exists raw, topic', runCache', st', requests. repeat split; try assumption; apply H6.
Qed.

(** X21.  A refused request starts the backoff: when one of the requests
    of a call is refused, the Topic leaves the call with [backoffUntil] at
    the current instant plus [BACKOFF_MS], and a call made on it before
    that instant, in any environment and with any run cache, issues no
    request.  When none is refused the backoff is left as it was. *)
Theorem refusal_starts_backoff (env : Env) (topic : Topic.t)
    (runCache : CachingComputor.RunCache.t) (st : State) :
  exists raw topic' runCache' st' requests,
    CachingComputor.computeRawIndicatorsForTopic env topic runCache st
      = (Normal (raw, topic', runCache'), st') /\
    calls st' = calls st ++ requests /\
    if refusedb env (calls st) requests then
      backoffUntil (Topic.metrics topic') = Some (now env + CachingComputor.BACKOFF_MS) /\
      forall (later : Env) (runCache2 : CachingComputor.RunCache.t) (st2 : State),
        now later < now env + CachingComputor.BACKOFF_MS ->
        calls (snd (CachingComputor.computeRawIndicatorsForTopic later topic' runCache2 st2))
          = calls st2
    else backoffUntil (Topic.metrics topic') = backoffUntil (Topic.metrics topic).
Proof.
  destruct (caching_computeRaw_facts env topic runCache st)
    as (raw & topic' & runCache' & st' & requests & Hrun & Hcalls & _ & _ & _ & _ & _ & Hbackoff).
  exists raw, topic', runCache', st', requests.
  split; [exact Hrun|]. split; [exact Hcalls|].
  destruct (refusedb env (calls st) requests); [|exact Hbackoff].
  split; [exact Hbackoff|].
  intros later runCache2 st2 Hbefore.
  destruct (backoff_suppresses_requests later topic' runCache2 st2 _ Hbackoff Hbefore)
    as (raw2 & topic2 & st2' & Hrun2 & Hcalls2 & _).
  rewrite Hrun2. exact Hcalls2.
Qed.

(** X22.  With the metrics cache, [computeImpactForTopic] always returns.
    When the save succeeds it returns the document it wrote, once: the
    Topic with the two raw composites as scores and [lastComputedAt] at
    the current instant.  When the save fails it returns [null], nothing
    is written, and the failure is the last console line. *)
Theorem caching_computeImpactForTopic_outcome (env : Env) (topic : Topic.t) (st : State) :
  exists raw topic' runCache' st1 result st',
    CachingComputor.computeRawIndicatorsForTopic env topic CachingComputor.createRunCache st
      = (Normal (raw, topic', runCache'), st1) /\
    CachingComputor.computeImpactForTopic env topic st = (Normal result, st') /\
    let scored :=
      Topic.set_scores (CachingComputor.impactRaw raw) (CachingComputor.activityRaw raw)
        topic' in
    let stamped :=
      Topic.set_metrics (with_lastComputedAt (Some (now env)) (Topic.metrics scored))
        scored in
    match saveError env stamped with
    | None =>
        result = Some stamped /\ writes st' = writes st ++ [stamped] /\
        collection st' = store stamped (collection st)
    | Some e =>
        result = None /\ writes st' = writes st /\ collection st' = collection st /\
        last (console st') =
          Some {| level := console_error;
                  pieces := [Text ("Error computing impact for topic "
                                   +:+ Js.quoted (Topic.name topic) +:+ ":");
                             Text (message e)] |}
    end.
Proof.
  destruct (caching_computeRaw_facts env topic CachingComputor.createRunCache st)
    as (raw & topic' & runCache' & st1 & requests & Hrun & _ & _ & Hcollection & Hwrites & _).
  exists raw, topic', runCache', st1.
  unfold CachingComputor.computeImpactForTopic, try_catch.
  rewrite (bind_normal _ _ _ _ _ Hrun). cbn [fst snd].
  unfold bind, save, console_call, ret. cbv zeta.
  destruct (saveError env _) as [e|] eqn:Hsave.
  - do 2 eexists. split; [exact Hrun|]. split; [reflexivity|]. cbn.
    rewrite last_snoc, Hwrites, Hcollection. repeat split; reflexivity.
  - do 2 eexists. split; [exact Hrun|]. split; [reflexivity|]. cbn.
    rewrite Hwrites, Hcollection. repeat split; reflexivity.
Qed.

(** ** One answered request for the totals of a key *)

Lemma quietStage_refl (v : CachingComputor.Vars.t) (st : State) : quietStage v st v st.
Proof.
  exists []. rewrite app_nil_r. split; [reflexivity|]. split; [constructor|].
  apply cacheGrows_refl.
Qed.

Lemma quietStage_trans (v v1 v2 : CachingComputor.Vars.t) (st st1 st2 : State) :
  quietStage v st v1 st1 -> quietStage v1 st1 v2 st2 -> quietStage v st v2 st2.
Proof.
  intros (r1 & Hc1 & Hq1 & Hg1) (r2 & Hc2 & Hq2 & Hg2).
  exists (r1 ++ r2). rewrite Hc2, Hc1, <- app_assoc. split; [reflexivity|].
  split; [apply Forall_app; split; assumption|].
  exact (cacheGrows_trans _ _ _ Hg1 Hg2).
Qed.

Lemma bind_quiet (c : M CachingComputor.Vars.t)
    (k : CachingComputor.Vars.t -> M CachingComputor.Vars.t)
    (v : CachingComputor.Vars.t) (st : State) :
  (exists v1 st1, c st = (Normal v1, st1) /\ quietStage v st v1 st1) ->
  (forall v1 st1, exists v2 st2, k v1 st1 = (Normal v2, st2) /\ quietStage v1 st1 v2 st2) ->
  exists v2 st2, bind c k st = (Normal v2, st2) /\ quietStage v st v2 st2.
Proof.
  intros (v1 & st1 & Hrun & Hfacts) Hk.
  destruct (Hk v1 st1) as (v2 & st2 & Hrun2 & Hfacts2).
  exists v2, st2. unfold bind. rewrite Hrun. split; [exact Hrun2|].
  exact (quietStage_trans _ _ _ _ _ _ Hfacts Hfacts2).
Qed.

Lemma works_notTotals (filter_ : string) :
  notTotals {| url := OPENALEX_BASE_URL +:+ "/works";
               params := [("filter", filter_); ("per_page", "1")]%string |}.
Proof. intros key Heq. discriminate Heq. Qed.

Lemma search_notTotals (name : string) :
  notTotals {| url := WIKIPEDIA_SEARCH_URL;
               params := [("action", "query"); ("list", "search"); ("srsearch", name);
                          ("srlimit", "1"); ("format", "json")]%string |}.
Proof. intros key Heq. discriminate Heq. Qed.

Lemma pageviews_notTotals (rest : string) :
  notTotals {| url := WIKIMEDIA_PAGEVIEWS_BASE_URL +:+ rest; params := [] |}.
Proof. intros key Heq. discriminate Heq. Qed.

Ltac quiet_done :=
  do 2 eexists; (split; [reflexivity|]);
  first
    [ exists []; cbn; rewrite ?app_nil_r;
      split; [reflexivity|]; split; [constructor|]
    | eexists [_]; cbn;
      split; [reflexivity|]; split;
      [ constructor; [|constructor];
        first [ apply works_notTotals | apply search_notTotals
              | apply (pageviews_notTotals
                         ("/" +:+ _ +:+ "/daily/" +:+ _ +:+ "/" +:+ _)) ] | ] ];
  refine (conj _ (conj _ (conj _ _))); cbn;
  first [ reflexivity | apply insert_subseteq; assumption | title_kept ].

Lemma resolveWorks12m_quiet (env : Env) (topic : Topic.t) (range : DateRange)
    (v : CachingComputor.Vars.t) (st : State) :
  exists v' st',
    CachingComputor.resolveWorks12m env topic range (now env) v st = (Normal v', st') /\
    quietStage v st v' st'.
Proof.
  unfold CachingComputor.resolveWorks12m, CachingComputor.fetchOpenAlexWorksCountLast12Months,
    CachingComputor.setBackoff, try_catch, bind, ret, axios_get, console_call.
  cbv zeta. stage_cases; quiet_done.
Qed.

Lemma resolveTitle_quiet (env : Env) (topic : Topic.t) (v : CachingComputor.Vars.t)
    (st : State) :
  exists v' st',
    CachingComputor.resolveTitle env topic (now env) v st = (Normal v', st') /\
    quietStage v st v' st'.
Proof.
  unfold CachingComputor.resolveTitle, CachingComputor.fetchWikipediaTitle,
    CachingComputor.setBackoff, try_catch, bind, ret, axios_get, console_call.
  cbv zeta. stage_cases; quiet_done.
Qed.

Lemma resolveViews_quiet (env : Env) (range : DateRange) (v : CachingComputor.Vars.t)
    (st : State) :
  exists v' st',
    CachingComputor.resolveViews env range (now env) v st = (Normal v', st') /\
    quietStage v st v' st'.
Proof.
  unfold CachingComputor.resolveViews, CachingComputor.fetchWikipediaViews12Months,
    CachingComputor.setBackoff, try_catch, bind, ret, axios_get, console_call.
  cbv zeta. stage_cases; quiet_done.
Qed.

Lemma quiet_is_first (env : Env) (v v' : CachingComputor.Vars.t) (st st' : State) :
  quietStage v st v' st' -> firstStage env v st v' st'.
Proof.
  intros (requests & Hcalls & Hquiet & Hgrows).
  exists requests. split; [exact Hcalls|]. split; [exact Hgrows|].
  intros i key Hi. exfalso.
  exact (proj1 (Forall_lookup _ _) Hquiet i _ Hi key eq_refl).
Qed.

Lemma first_then_quiet (env : Env) (v v1 v2 : CachingComputor.Vars.t) (st st1 st2 : State) :
  firstStage env v st v1 st1 -> quietStage v1 st1 v2 st2 -> firstStage env v st v2 st2.
Proof.
  intros (r1 & Hc1 & Hg1 & Hfirst) (r2 & Hc2 & Hquiet & Hg2).
  exists (r1 ++ r2). rewrite Hc2, Hc1, <- app_assoc. split; [reflexivity|].
  split; [exact (cacheGrows_trans _ _ _ Hg1 Hg2)|].
  intros i key Hi. apply lookup_app_Some in Hi as [Hi|[_ Hi]].
  - destruct (Hfirst i key Hi) as (Hzero & Hnone & Hanswered).
    refine (conj Hzero (conj Hnone _)). intros data Hdata.
    destruct (Hanswered data Hdata) as [entry Hentry].
    exists entry. exact (lookup_weaken _ _ _ _ Hentry (proj1 Hg2)).
  - exfalso. exact (proj1 (Forall_lookup _ _) Hquiet _ _ Hi key eq_refl).
Qed.

Lemma totalsFor_inj (key key' : string) : totalsFor key = totalsFor key' -> key = key'.
Proof.
  unfold totalsFor. intros H. injection H as H.
  repeat apply String.app_inj in H. exact H.
Qed.

Lemma resolveTotals_first (env : Env) (topic : Topic.t) (v : CachingComputor.Vars.t)
    (st : State) :
  exists v' st',
    CachingComputor.resolveTotals env topic (now env) v st = (Normal v', st') /\
    firstStage env v st v' st'.
Proof.
  unfold CachingComputor.resolveTotals, CachingComputor.fetchOpenAlexTopicMetrics,
    CachingComputor.setBackoff, try_catch, bind, ret, axios_get, console_call.
  cbv zeta. stage_cases.
  all: do 2 eexists; (split; [reflexivity|]).
  all: first
    [ exists []; cbn; rewrite ?app_nil_r; split; [reflexivity|];
      split; [apply cacheGrows_refl|]; intros i key Hi; discriminate Hi
    | eexists [_]; cbn; split; [reflexivity|]; split;
      [ refine (conj _ (conj _ (conj _ _))); cbn;
        first [ reflexivity | apply insert_subseteq; assumption | title_kept ]
      | intros i key Hi; destruct i as [|i]; [|discriminate Hi];
        assert (Hkey : Js.str (Topic.openalexID topic) = key)
          by (apply totalsFor_inj; exact (inj Some _ _ Hi));
        clear Hi
      ] ].
  all: try (subst key; refine (conj eq_refl (conj _ _)); [assumption|]).
  all: try (intros data Hdata; cbn; eexists;
            first [apply lookup_insert_eq | apply lookup_insert]; fail).
  all: try (intros data Hdata; exfalso; unfold totalsFor in Hdata; congruence).
Qed.

Lemma caching_call_totals (env : Env) (topic : Topic.t)
    (runCache : CachingComputor.RunCache.t) (st : State) :
  exists raw topic' runCache' st' requests,
    CachingComputor.computeRawIndicatorsForTopic env topic runCache st
      = (Normal (raw, topic', runCache'), st') /\
    calls st' = calls st ++ requests /\
    cacheGrows runCache runCache' /\
    totalsFirst env (calls st) runCache runCache' requests.
Proof.
  unfold CachingComputor.computeRawIndicatorsForTopic, getLast12MonthsRange,
    CachingComputor.ensureTopicMetrics.
  cbv zeta.
  match goal with |- context [bind ?c _ st] =>
    match c with context [CachingComputor.resolveTotals _ _ _ ?v0] =>
      assert (H1 : exists v1 st1, c st = (Normal v1, st1) /\ firstStage env v0 st v1 st1);
      [|destruct H1 as (v1 & st1 & Hrun1 & Hfacts1); rewrite (bind_normal _ _ _ _ _ Hrun1)]
    end
  end.
  { match goal with |- context [if ?b then _ else _] => destruct b end.
    - match goal with |- context [CachingComputor.resolveTotals env topic (now env) ?v0] =>
        destruct (resolveTotals_first env topic v0 st) as (v1 & st1 & Hrun & Hfirst)
      end.
      rewrite (bind_normal _ _ _ _ _ Hrun). cbv beta.
      match goal with |- context [CachingComputor.resolveWorks12m env topic ?range (now env) v1 st1] =>
        destruct (resolveWorks12m_quiet env topic range v1 st1) as (v2 & st2 & Hrun2 & Hquiet)
      end.
      exists v2, st2. split; [exact Hrun2|].
      exact (first_then_quiet _ _ _ _ _ _ _ Hfirst Hquiet).
    - match goal with |- context [if ?b then _ else _] => destruct b end.
      + unfold bind, console_call, ret. do 2 eexists. split; [reflexivity|].
        apply quiet_is_first. exists []. cbn. rewrite app_nil_r.
        split; [reflexivity|]. split; [constructor|apply cacheGrows_refl].
      + unfold ret. do 2 eexists. split; [reflexivity|].
        apply quiet_is_first, quietStage_refl. }
  match goal with |- context [bind ?c _ st1] =>
    assert (H2 : exists v2 st2, c st1 = (Normal v2, st2) /\ quietStage v1 st1 v2 st2);
    [|destruct H2 as (v2 & st2 & Hrun2 & Hfacts2); rewrite (bind_normal _ _ _ _ _ Hrun2)]
  end.
  { match goal with |- context [if ?b then _ else _] => destruct b end.
    - apply bind_quiet; [apply resolveTitle_quiet|].
      intros v2 st2. apply resolveViews_quiet.
    - unfold ret. do 2 eexists. split; [reflexivity|]. apply quietStage_refl. }
  destruct (first_then_quiet _ _ _ _ _ _ _ Hfacts1 Hfacts2)
    as (requests & Hcalls & Hgrows & Hfirst).
  unfold ret. do 4 eexists. exists requests.
  split; [reflexivity|]. exact (conj Hcalls (conj Hgrows Hfirst)).
Qed.

Lemma collect_totals (env : Env) (topics : list Topic.t)
    (runCache : CachingComputor.RunCache.t) (rawResults : list CachingComputor.Entry.t)
    (st : State) :
  exists results st' requests,
    CachingComputor.collectRawResults env topics runCache rawResults st
      = (Normal results, st') /\
    calls st' = calls st ++ requests /\
    forall j key,
      requests !! j = Some (totalsFor key) ->
      CachingComputor.RunCache.openalex runCache !! key = None /\
      forall i, (i < j)%nat -> requests !! i = Some (totalsFor key) ->
        exists e, http env (calls st ++ take i requests) (totalsFor key) = inl e.
Proof.
  revert runCache rawResults st.
  induction topics as [|topic topics IH]; intros runCache rawResults st.
  - exists rawResults, st, []. cbn. rewrite app_nil_r.
    split; [reflexivity|]. split; [reflexivity|]. intros j key Hj. discriminate Hj.
  - cbn [CachingComputor.collectRawResults].
    destruct (caching_call_totals env topic runCache st)
      as (raw & topic' & runCache1 & st1 & r1 & Hrun & Hcalls1 & Hgrows & Hfirst).
    rewrite (bind_normal _ _ _ _ _ Hrun). cbn [fst snd].
    match goal with |- context [CachingComputor.collectRawResults env topics runCache1 ?acc st1] =>
      destruct (IH runCache1 acc st1) as (results & st' & r2 & Hrun2 & Hcalls2 & Hrest)
    end.
    exists results, st', (r1 ++ r2).
    split; [exact Hrun2|]. split; [rewrite Hcalls2, Hcalls1, <- app_assoc; reflexivity|].
    intros j key Hj. apply lookup_app_Some in Hj as [Hj|[Hlength Hj]].
    + destruct (Hfirst j key Hj) as (-> & Hnone & _).
      split; [exact Hnone|]. intros i Hi. lia.
    + destruct (Hrest _ key Hj) as (Hnone1 & Hearlier).
      assert (Hnone : CachingComputor.RunCache.openalex runCache !! key = None).
      { destruct (CachingComputor.RunCache.openalex runCache !! key) as [entry|] eqn:Hentry;
          [|reflexivity].
        rewrite (lookup_weaken _ _ _ _ Hentry (proj1 Hgrows)) in Hnone1. discriminate. }
      split; [exact Hnone|].
      intros i Hi Hrequest. apply lookup_app_Some in Hrequest as [Hrequest|[Hlength' Hrequest]].
      * destruct (Hfirst i key Hrequest) as (-> & _ & Hanswered).
        cbn. rewrite app_nil_r.
        destruct (http env (calls st) (totalsFor key)) as [e|data] eqn:Hanswer;
          [exists e; reflexivity|].
        destruct (Hanswered data eq_refl) as [entry Hentry]. congruence.
      * assert (Hlt : (i - length r1 < j - length r1)%nat) by lia.
        destruct (Hearlier _ Hlt Hrequest) as [e He].
        exists e. rewrite take_app_ge by exact Hlength'.
        rewrite Hcalls1, <- app_assoc in He. exact He.
Qed.

Lemma caching_saving_calls (env : Env) (impactValues activityValues : list R)
    (entries : list CachingComputor.Entry.t) (st : State) :
  calls (snd (forOf entries (CachingComputor.normalizeAndSave env impactValues activityValues) st))
  = calls st.
Proof.
  revert st. induction entries as [|entry entries IH]; intros st; [reflexivity|].
  cbn [forOf]. unfold bind at 1. unfold CachingComputor.normalizeAndSave at 1, save.
  cbv zeta. destruct (saveError env _); [reflexivity|]. rewrite IH. reflexivity.
Qed.

Lemma caching_batch_requests (env : Env) (st : State) :
  exists requests,
    calls (snd (CachingComputor.computeImpactForAllTopics env st)) = calls st ++ requests /\
    forall i j key,
      (i < j)%nat ->
      requests !! i = Some (totalsFor key) -> requests !! j = Some (totalsFor key) ->
      exists e, http env (calls st ++ take i requests) (totalsFor key) = inl e.
Proof.
  unfold CachingComputor.computeImpactForAllTopics, try_catch, Topic_find.
  unfold bind at 1.
  destruct (findError env) as [e|].
  - exists []. cbn. rewrite app_nil_r. split; [reflexivity|]. intros i j key _ Hi. discriminate Hi.
  - unfold bind at 1. unfold console_call at 1.
    match goal with
    | |- context [bind (CachingComputor.collectRawResults env ?topics ?rc ?acc) _ ?s] =>
      destruct (collect_totals env topics rc acc s)
        as (results & st1 & requests & Hrun & Hcalls & Hrest)
    end.
    rewrite (bind_normal _ _ _ _ _ Hrun). cbn [calls] in Hcalls.
    exists requests. split.
    + cbv zeta. unfold bind.
      match goal with
      | |- context [forOf results (CachingComputor.normalizeAndSave env ?iv ?av) st1] =>
          pose proof (caching_saving_calls env iv av results st1) as Hsaved;
          destruct (forOf results (CachingComputor.normalizeAndSave env iv av) st1)
            as [[[]|e] st2]
      end; cbn in Hsaved |- *; rewrite Hsaved; exact Hcalls.
    + intros i j key Hlt Hi Hj.
      destruct (Hrest j key Hj) as (_ & Hearlier). exact (Hearlier i Hlt Hi).
Qed.

(** X24.  With the run cache, a batch asks at most once with success for
    the totals of an external key: of two requests of one batch for the
    totals of the same key, the earlier one was refused.  The Topics that
    share a key therefore share its answer. *)
Theorem answered_totals_are_not_asked_again (env : Env) (st : State)
    (i j : nat) (key : string) :
  let requests := issued st (snd (CachingComputor.computeImpactForAllTopics env st)) in
  (i < j)%nat ->
  requests !! i = Some (totalsFor key) ->
  requests !! j = Some (totalsFor key) ->
  exists e, http env (calls st ++ take i requests) (totalsFor key) = inl e.
Proof.
  intros requests. subst requests. unfold issued.
  destruct (caching_batch_requests env st) as (requests & Hcalls & Hrest).
  rewrite Hcalls, drop_app_length. exact (Hrest i j key).
Qed.

Lemma answered_totals_are_not_asked_again_witness :
  exists e,
    http throttledEnv
      (calls (initialState [sharedAlpha; sharedBeta])
       ++ take 0 (issued (initialState [sharedAlpha; sharedBeta])
                    (snd (CachingComputor.computeImpactForAllTopics throttledEnv
                            (initialState [sharedAlpha; sharedBeta])))))
      (totalsFor "T-S") = inl e.
Proof.
  apply (answered_totals_are_not_asked_again throttledEnv
           (initialState [sharedAlpha; sharedBeta]) 0 3 "T-S");
    [lia|reflexivity|reflexivity].
Defined.

(** ** A computation that was answered is not repeated *)

Lemma isFresh_now (now ttl : Z) :
  0 < ttl -> CachingComputor.isFresh (Some now) ttl now = true.
Proof.
  intros Hpos. unfold CachingComputor.isFresh. rewrite Z.sub_diag. apply Z.ltb_lt. exact Hpos.
Qed.

Ltac refute_refusal Hanswering :=
  try match goal with
      | H : http ?e ?h ?r = inl _ |- _ =>
          exfalso; destruct (Hanswering h r) as [? ?]; congruence
      end.

Lemma totals_fresh (env : Env) (topic : Topic.t) (v : CachingComputor.Vars.t) (st : State) :
  answering env ->
  CachingComputor.RunCache.openalex (CachingComputor.Vars.runCache v)
    !! Js.str (Topic.openalexID topic) = None ->
  exists v' st',
    CachingComputor.resolveTotals env topic (now env) v st = (Normal v', st') /\
    CachingComputor.isFresh
      (Openalex.lastFetchedAt (openalex (CachingComputor.Vars.metrics v')))
      CachingComputor.CACHE_TTL_MS_openalexAllTime (now env) = true /\
    Openalex.lastWorksFetchedAt (openalex (CachingComputor.Vars.metrics v'))
      = Openalex.lastWorksFetchedAt (openalex (CachingComputor.Vars.metrics v)) /\
    wikipedia (CachingComputor.Vars.metrics v') = wikipedia (CachingComputor.Vars.metrics v) /\
    CachingComputor.RunCache.openalexWorks12m (CachingComputor.Vars.runCache v')
      = CachingComputor.RunCache.openalexWorks12m (CachingComputor.Vars.runCache v) /\
    CachingComputor.RunCache.wikiTitle (CachingComputor.Vars.runCache v')
      = CachingComputor.RunCache.wikiTitle (CachingComputor.Vars.runCache v) /\
    CachingComputor.RunCache.wikiViews (CachingComputor.Vars.runCache v')
      = CachingComputor.RunCache.wikiViews (CachingComputor.Vars.runCache v).
Proof.
  intros Hanswering Hcache.
  unfold CachingComputor.resolveTotals, CachingComputor.fetchOpenAlexTopicMetrics,
    CachingComputor.setBackoff, try_catch, bind, ret, axios_get, console_call.
  cbv zeta. rewrite Hcache. stage_cases; refute_refusal Hanswering.
  all: do 2 eexists; (split; [reflexivity|]); cbn; repeat split;
       first [assumption | apply isFresh_now; reflexivity].
Qed.

Lemma works_fresh (env : Env) (topic : Topic.t) (range : DateRange)
    (v : CachingComputor.Vars.t) (st : State) :
  answering env ->
  CachingComputor.RunCache.openalexWorks12m (CachingComputor.Vars.runCache v)
    !! (Js.str (Topic.openalexID topic) +:+ ":" +:+ startDate range +:+ ":" +:+ endDate range)
    = None ->
  exists v' st',
    CachingComputor.resolveWorks12m env topic range (now env) v st = (Normal v', st') /\
    CachingComputor.isFresh
      (Openalex.lastWorksFetchedAt (openalex (CachingComputor.Vars.metrics v')))
      CachingComputor.CACHE_TTL_MS_openalexWorks12m (now env) = true /\
    Openalex.lastFetchedAt (openalex (CachingComputor.Vars.metrics v'))
      = Openalex.lastFetchedAt (openalex (CachingComputor.Vars.metrics v)) /\
    wikipedia (CachingComputor.Vars.metrics v') = wikipedia (CachingComputor.Vars.metrics v) /\
    CachingComputor.RunCache.wikiTitle (CachingComputor.Vars.runCache v')
      = CachingComputor.RunCache.wikiTitle (CachingComputor.Vars.runCache v) /\
    CachingComputor.RunCache.wikiViews (CachingComputor.Vars.runCache v')
      = CachingComputor.RunCache.wikiViews (CachingComputor.Vars.runCache v).
Proof.
  intros Hanswering Hcache.
  unfold CachingComputor.resolveWorks12m, CachingComputor.fetchOpenAlexWorksCountLast12Months,
    CachingComputor.setBackoff, try_catch, bind, ret, axios_get, console_call.
  cbv zeta. rewrite Hcache. stage_cases; refute_refusal Hanswering.
  all: do 2 eexists; (split; [reflexivity|]); cbn; repeat split;
       first [assumption | apply isFresh_now; reflexivity].
Qed.

Lemma title_settled (env : Env) (topic : Topic.t) (v : CachingComputor.Vars.t) (st : State) :
  answering env ->
  CachingComputor.RunCache.wikiTitle (CachingComputor.Vars.runCache v) !! Topic.name topic
    = None ->
  exists v' st',
    CachingComputor.resolveTitle env topic (now env) v st = (Normal v', st') /\
    CachingComputor.Vars.wikiTitle v'
      = Wikipedia.title (wikipedia (CachingComputor.Vars.metrics v')) /\
    openalex (CachingComputor.Vars.metrics v') = openalex (CachingComputor.Vars.metrics v) /\
    Wikipedia.lastFetchedAt (wikipedia (CachingComputor.Vars.metrics v'))
      = Wikipedia.lastFetchedAt (wikipedia (CachingComputor.Vars.metrics v)) /\
    CachingComputor.RunCache.wikiViews (CachingComputor.Vars.runCache v')
      = CachingComputor.RunCache.wikiViews (CachingComputor.Vars.runCache v).
Proof.
  intros Hanswering Hcache.
  unfold CachingComputor.resolveTitle, CachingComputor.fetchWikipediaTitle,
    CachingComputor.setBackoff, try_catch, bind, ret, axios_get, console_call.
  cbv zeta. rewrite Hcache. stage_cases; refute_refusal Hanswering.
  all: try match goal with
       | H : negb (Js.falsyStr (mjoin None)) = true |- _ => discriminate H
       end.
  all: do 2 eexists; (split; [reflexivity|]); cbn; repeat split; reflexivity.
Qed.

Lemma views_fresh (env : Env) (range : DateRange) (v : CachingComputor.Vars.t) (st : State) :
  answering env ->
  CachingComputor.RunCache.wikiViews (CachingComputor.Vars.runCache v) = ∅ ->
  exists v' st',
    CachingComputor.resolveViews env range (now env) v st = (Normal v', st') /\
    openalex (CachingComputor.Vars.metrics v') = openalex (CachingComputor.Vars.metrics v) /\
    Wikipedia.title (wikipedia (CachingComputor.Vars.metrics v'))
      = Wikipedia.title (wikipedia (CachingComputor.Vars.metrics v)) /\
    (Js.falsyStr (CachingComputor.Vars.wikiTitle v) = false ->
     CachingComputor.isFresh
       (Wikipedia.lastFetchedAt (wikipedia (CachingComputor.Vars.metrics v')))
       CachingComputor.CACHE_TTL_MS_wikipediaViews (now env) = true).
Proof.
  intros Hanswering Hcache.
  unfold CachingComputor.resolveViews, CachingComputor.fetchWikipediaViews12Months,
    CachingComputor.setBackoff, try_catch, bind, ret, axios_get, console_call.
  cbv zeta. rewrite Hcache, lookup_empty. stage_cases; refute_refusal Hanswering.
  all: do 2 eexists; (split; [reflexivity|]); cbn; repeat split; try reflexivity.
  all: intros Htitle;
       try match goal with
           | H : negb (Js.falsyStr _) = false |- _ => rewrite Htitle in H; discriminate H
           end;
       first [assumption | apply isFresh_now; reflexivity].
Qed.

Lemma answered_call_leaves_fresh (env : Env) (topic : Topic.t) (st : State) :
  isTestEnv env = false ->
  (forall until, backoffUntil (Topic.metrics topic) = Some until -> until <= now env) ->
  answering env ->
  Js.falsyStr (Topic.openalexID topic) = false ->
  exists raw topic' runCache' st',
    CachingComputor.computeRawIndicatorsForTopic env topic CachingComputor.createRunCache st
      = (Normal (raw, topic', runCache'), st') /\
    (Js.falsyStr (Wikipedia.title (wikipedia (Topic.metrics topic'))) = false ->
     allFresh env topic').
Proof.
  intros Htest Hbackoff Hanswering Hid.
  assert (Hinactive : match backoffUntil (Topic.metrics topic) with
                      | Some until => until >? now env
                      | None => false
                      end = false).
  { destruct (backoffUntil (Topic.metrics topic)) as [until|] eqn:Huntil; [|reflexivity].
    specialize (Hbackoff until eq_refl). rewrite Z.gtb_ltb. apply Z.ltb_ge. exact Hbackoff. }
  unfold CachingComputor.computeRawIndicatorsForTopic, getLast12MonthsRange,
    CachingComputor.ensureTopicMetrics.
  cbv zeta. rewrite Htest, Hinactive, Hid. cbn [negb andb].
  match goal with |- context [CachingComputor.resolveTotals env topic (now env) ?v0] =>
    destruct (totals_fresh env topic v0 st Hanswering (lookup_empty _))
      as (v1 & st1 & Hrun1 & Hall1 & Hworks1 & Hwiki1 & Hrc1w & Hrc1t & Hrc1v)
  end.
  destruct (works_fresh env topic (clock env) v1 st1 Hanswering)
    as (v2 & st2 & Hrun2 & Hworks2 & Hall2 & Hwiki2 & Hrc2t & Hrc2v).
  { rewrite Hrc1w. apply lookup_empty. }
  destruct (title_settled env topic v2 st2 Hanswering)
    as (v3 & st3 & Hrun3 & Htitle3 & Hopenalex3 & Hstamp3 & Hrc3v).
  { rewrite Hrc2t, Hrc1t. apply lookup_empty. }
  destruct (views_fresh env (clock env) v3 st3 Hanswering)
    as (v4 & st4 & Hrun4 & Hopenalex4 & Htitle4 & Hfresh4).
  { rewrite Hrc3v, Hrc2v, Hrc1v. reflexivity. }
  unfold bind. rewrite Hrun1. cbv beta iota. rewrite Hrun2. cbv beta iota.
  rewrite Hrun3. cbv beta iota. rewrite Hrun4. cbv beta iota.
  unfold ret. do 4 eexists. split; [reflexivity|].
  cbn [Topic.metrics Topic.set_metrics]. intros Htitle. unfold allFresh.
  cbn [Topic.metrics Topic.set_metrics]. cbv zeta.
  rewrite Hopenalex4, Hopenalex3. refine (conj _ (conj Hworks2 _)).
  - rewrite Hall2. exact Hall1.
  - apply Hfresh4. rewrite Htitle3, <- Htitle4. exact Htitle.
Qed.

(** X25.  An answered computation is not repeated: outside the test
    environment, for a Topic with an external key and no running backoff,
    when the provider answers every request and the Topic has a title
    after the call, its three sources are within their time-to-live, and
    a second call at the same instant issues no request. *)
Theorem answered_call_is_not_repeated (env : Env) (topic : Topic.t) (st : State) :
  isTestEnv env = false ->
  (forall until, backoffUntil (Topic.metrics topic) = Some until -> until <= now env) ->
  answering env ->
  Js.falsyStr (Topic.openalexID topic) = false ->
  exists raw topic' runCache' st',
    CachingComputor.computeRawIndicatorsForTopic env topic CachingComputor.createRunCache st
      = (Normal (raw, topic', runCache'), st') /\
    (Js.falsyStr (Wikipedia.title (wikipedia (Topic.metrics topic'))) = false ->
     allFresh env topic' /\
     calls (snd (CachingComputor.computeRawIndicatorsForTopic env topic'
                   CachingComputor.createRunCache st')) = calls st').
Proof.
  intros Htest Hbackoff Hanswering Hid.
  destruct (answered_call_leaves_fresh env topic st Htest Hbackoff Hanswering Hid)
    as (raw & topic' & runCache' & st' & Hrun & Hfresh).
  exists raw, topic', runCache', st'. split; [exact Hrun|].
  intros Htitle. specialize (Hfresh Htitle). split; [exact Hfresh|].
  destruct Hfresh as (Hall & Hworks & Hwiki).
  destruct (fresh_snapshot_is_reused env topic' st' Hall Hworks Hwiki)
    as (raw2 & topic2 & runCache2 & st2 & Hrun2 & Hcalls & _).
  rewrite Hrun2. exact Hcalls.
Qed.

Lemma generousEnv_answers : answering generousEnv.
Proof. intros history request. eexists. reflexivity. Qed.

Lemma answered_call_is_not_repeated_witness :
  exists raw topic' runCache' st',
    CachingComputor.computeRawIndicatorsForTopic generousEnv quantumTopic
      CachingComputor.createRunCache (initialState [])
      = (Normal (raw, topic', runCache'), st') /\
    (Js.falsyStr (Wikipedia.title (wikipedia (Topic.metrics topic'))) = false ->
     allFresh generousEnv topic' /\
     calls (snd (CachingComputor.computeRawIndicatorsForTopic generousEnv topic'
                   CachingComputor.createRunCache st')) = calls st').
Proof.
  apply (answered_call_is_not_repeated generousEnv quantumTopic (initialState [])).
  - reflexivity.
  - intros limit Hlimit. discriminate Hlimit.
  - exact generousEnv_answers.
  - reflexivity.
Defined.

Example generous_round_trip :
  let run1 := CachingComputor.computeRawIndicatorsForTopic generousEnv quantumTopic
                CachingComputor.createRunCache (initialState []) in
  calls (snd run1)
  = [getTopic "T123"; getWorks "T123"; getSearch "Quantum Mechanics";
     getPageviews "Quantum_Mechanics"] /\
  (fun result => Wikipedia.title (wikipedia (Topic.metrics (snd (fst result)))))
    <$> returned (fst run1) = Some (Some "Quantum Mechanics"%string).
Proof. repeat split. Qed.

(** ** Fetches and lookup keys *)

Lemma held_grows (range : DateRange) (before after : CachingComputor.RunCache.t)
    (key : Key) :
  cacheGrows before after -> held range before key -> held range after key.
Proof.
  intros (Htotals & Hworks & Htitles & Hviews). destruct key as [id|id|name|title]; cbn.
  - intros [entry Hentry]. exists entry. exact (lookup_weaken _ _ _ _ Hentry Htotals).
  - intros [entry Hentry]. exists entry. exact (lookup_weaken _ _ _ _ Hentry Hworks).
  - intros Hheld.
    destruct (CachingComputor.RunCache.wikiTitle before !! name) as [stored|] eqn:Hstored;
      [|discriminate Hheld].
    cbn in Hheld. rewrite (Htitles _ _ Hstored Hheld). exact Hheld.
  - intros [entry Hentry]. exists entry. exact (lookup_weaken _ _ _ _ Hentry Hviews).
Qed.

Lemma fetches_refl (env : Env) (topic : Topic.t) (lo hi : nat)
    (v : CachingComputor.Vars.t) (st : State) :
  fetches env topic lo hi v st v st.
Proof.
  exists []. cbn. rewrite app_nil_r.
  refine (conj eq_refl (conj (cacheGrows_refl _) (conj _ (conj _ _)))).
  - intros i j key key' Hi. discriminate Hi.
  - intros i key Hi. discriminate Hi.
  - reflexivity.
Qed.

Lemma fetches_trans (env : Env) (topic : Topic.t) (lo mid hi : nat)
    (v v1 v2 : CachingComputor.Vars.t) (st st1 st2 : State) :
  (lo <= mid <= hi)%nat ->
  fetches env topic lo mid v st v1 st1 -> fetches env topic mid hi v1 st1 v2 st2 ->
  fetches env topic lo hi v st v2 st2.
Proof.
  intros Hmid (keys1 & Hcalls1 & Hgrows1 & Horder1 & Hkeys1 & Hrest1)
    (keys2 & Hcalls2 & Hgrows2 & Horder2 & Hkeys2 & Hrest2).
  exists (keys1 ++ keys2).
  refine (conj _ (conj (cacheGrows_trans _ _ _ Hgrows1 Hgrows2) (conj _ (conj _ _)))).
  - rewrite Hcalls2, Hcalls1, map_app, app_assoc. reflexivity.
  - intros i j key key' Hi Hj Hlt.
    apply lookup_app_Some in Hi as [Hi|[Hlen Hi]];
      apply lookup_app_Some in Hj as [Hj|[Hlen' Hj]].
    + exact (Horder1 _ _ _ _ Hi Hj Hlt).
    + destruct (Hkeys1 _ _ Hi) as (Hrank & _). destruct (Hkeys2 _ _ Hj) as (Hrank' & _). lia.
    + apply lookup_lt_Some in Hj. lia.
    + apply (Horder2 _ _ _ _ Hi Hj). lia.
  - intros i key Hi.
    apply lookup_app_Some in Hi as [Hi|[Hlen Hi]].
    + destruct (Hkeys1 _ _ Hi) as (Hrank & Hown & Hnot & Hout).
      split; [lia|]. split; [exact Hown|]. split; [exact Hnot|].
      rewrite take_app_le by (apply lookup_lt_Some in Hi; lia).
      unfold fetchOutcome in *.
      destruct (http env _ (requestOf (clock env) key)) as [e|data].
      * rewrite (Hrest2 key) by lia. exact Hout.
      * intros Hsettles. exact (held_grows _ _ _ _ Hgrows2 (Hout Hsettles)).
    + destruct (Hkeys2 _ _ Hi) as (Hrank & Hown & Hnot & Hout).
      split; [lia|]. split; [exact Hown|].
      split; [intros Hheld; exact (Hnot (held_grows _ _ _ _ Hgrows1 Hheld))|].
      rewrite take_app_ge by exact Hlen.
      rewrite map_app, app_assoc, <- Hcalls1.
      unfold fetchOutcome in *.
      destruct (http env _ (requestOf (clock env) key)) as [e|data].
      * rewrite Hout. apply Hrest1. lia.
      * exact Hout.
  - intros key Hrank. rewrite (Hrest2 key) by lia. apply Hrest1. lia.
Qed.

Lemma bind_fetches (env : Env) (topic : Topic.t) (lo mid hi : nat)
    (c : M CachingComputor.Vars.t)
    (k : CachingComputor.Vars.t -> M CachingComputor.Vars.t)
    (v : CachingComputor.Vars.t) (st : State) :
  (lo <= mid <= hi)%nat ->
  (exists v1 st1, c st = (Normal v1, st1) /\ fetches env topic lo mid v st v1 st1) ->
  (forall v1 st1, exists v2 st2,
      k v1 st1 = (Normal v2, st2) /\ fetches env topic mid hi v1 st1 v2 st2) ->
  exists v2 st2, bind c k st = (Normal v2, st2) /\ fetches env topic lo hi v st v2 st2.
Proof.
  intros Hmid (v1 & st1 & Hrun & Hfacts) Hk.
  destruct (Hk v1 st1) as (v2 & st2 & Hrun2 & Hfacts2).
  exists v2, st2. unfold bind. rewrite Hrun. split; [exact Hrun2|].
  exact (fetches_trans _ _ _ _ _ _ _ _ _ _ _ Hmid Hfacts Hfacts2).
Qed.

Ltac tidy_tests :=
  repeat match goal with
  | H : negb _ = true |- _ => apply negb_true_iff in H
  | H : negb _ = false |- _ => apply negb_false_iff in H
  | H : _ && _ = true |- _ => apply andb_prop in H as [? ?]
  end.

Ltac title_stays :=
  let name := fresh "name" in
  let title := fresh "title" in
  let Hlookup := fresh "Hlookup" in
  let Htitle := fresh "Htitle" in
  intros name title Hlookup Htitle; cbn;
  first
    [ exact Hlookup
    | match goal with
      | |- <[?key := _]> _ !! _ = _ =>
          destruct (decide (name = key)) as [->|];
          [ exfalso;
            match goal with
            | H : Js.falsyStr (mjoin _) = true |- _ =>
                rewrite Hlookup in H; cbn in H; congruence
            end
          | rewrite lookup_insert_ne by congruence; exact Hlookup ]
      end ].

Ltac cache_grows :=
  refine (conj _ (conj _ (conj _ _))); cbn;
  first [ reflexivity | apply insert_subseteq; assumption | title_kept | title_stays ].

Ltac no_fetch :=
  exists []; cbn [map]; rewrite ?app_nil_r;
  refine (conj eq_refl (conj _ (conj _ (conj _ _))));
  [ cache_grows
  | intros ? ? ? ? Hi; discriminate Hi
  | intros ? ? Hi; discriminate Hi
  | intros [] Hrank; cbn in *; first [reflexivity | exfalso; lia] ].

Ltac settle_outcome :=
  unfold fetchOutcome; cbn [take map requestOf]; rewrite ?app_nil_r;
  unfold pageviewsRequest;
  match goal with
  | H : http ?e ?h ?r = _ |- context [http ?e ?h ?r] => rewrite H
  end;
  first
    [ reflexivity
    | intros Hsettles; cbn in Hsettles |- *;
      first
        [ eexists; first [apply lookup_insert_eq | apply lookup_insert]
        | rewrite ?lookup_insert_eq; cbn; exact Hsettles
        | exfalso; congruence ] ].

Ltac not_held :=
  cbn; first
    [ intros [? Hheld]; cbn in *; congruence
    | intros Hheld; cbn in *; tidy_tests; congruence ].

Ltac one_fetch key :=
  exists [key];
  refine (conj _ (conj _ (conj _ (conj _ _))));
  [ cbn; reflexivity
  | cache_grows
  | intros i j ? ? Hi Hj Hlt; destruct i, j; cbn in Hi, Hj; try discriminate; lia
  | intros i ? Hi; destruct i as [|i]; [|discriminate Hi];
    cbn in Hi; injection Hi as <-;
    refine (conj _ (conj _ (conj _ _)));
    [ cbn; lia | cbn; auto | not_held | settle_outcome ]
  | intros [] Hrank; cbn in *; first [reflexivity | exfalso; lia] ].

Lemma resolveTotals_fetches (env : Env) (topic : Topic.t) (v : CachingComputor.Vars.t)
    (st : State) :
  exists v' st',
    CachingComputor.resolveTotals env topic (now env) v st = (Normal v', st') /\
    fetches env topic 0 1 v st v' st'.
Proof.
  unfold CachingComputor.resolveTotals, CachingComputor.fetchOpenAlexTopicMetrics,
    CachingComputor.setBackoff, try_catch, bind, ret, axios_get, console_call.
  cbv zeta. stage_cases.
  all: do 2 eexists; (split; [reflexivity|]).
  all: first [ no_fetch | one_fetch (TotalsKey (Js.str (Topic.openalexID topic))) ].
Qed.

Lemma resolveWorks12m_fetches (env : Env) (topic : Topic.t) (v : CachingComputor.Vars.t)
    (st : State) :
  exists v' st',
    CachingComputor.resolveWorks12m env topic (clock env) (now env) v st = (Normal v', st') /\
    fetches env topic 1 2 v st v' st'.
Proof.
  unfold CachingComputor.resolveWorks12m, CachingComputor.fetchOpenAlexWorksCountLast12Months,
    CachingComputor.setBackoff, try_catch, bind, ret, axios_get, console_call.
  cbv zeta. stage_cases.
  all: do 2 eexists; (split; [reflexivity|]).
  all: first [ no_fetch | one_fetch (WorksKey (Js.str (Topic.openalexID topic))) ].
Qed.

Ltac wiki_cases :=
  repeat (cbn;
    match goal with
    | |- context [match ?m !! ?k with _ => _ end] => destruct (m !! k) eqn:?
    | |- context [if ?b then _ else _] => destruct b eqn:?
    | |- context [match http ?e ?h ?r with _ => _ end] => destruct (http e h r) eqn:?
    | |- context [match ?x with Some _ => _ | None => _ end] => destruct x eqn:?
    end).

Ltac two_fetches first_key :=
  eexists [first_key; ViewsKey _];
  refine (conj _ (conj _ (conj _ (conj _ _))));
  [ cbn; unfold pageviewsRequest; rewrite <- ?app_assoc; reflexivity
  | cache_grows
  | intros i j ? ? Hi Hj Hlt; destruct i as [|[|i]], j as [|[|j]];
    cbn in Hi, Hj; try discriminate; try lia;
    injection Hi as <-; injection Hj as <-; cbn; lia
  | intros i ? Hi; destruct i as [|[|i]]; [| |discriminate Hi];
    cbn in Hi; injection Hi as <-;
    (refine (conj _ (conj _ (conj _ _)));
     [ cbn; lia | cbn; auto | not_held | settle_outcome ])
  | intros [] Hrank; cbn in *; first [reflexivity | exfalso; lia] ].

Ltac views_fetch :=
  eexists [ViewsKey _];
  refine (conj _ (conj _ (conj _ (conj _ _))));
  [ cbn; unfold pageviewsRequest; reflexivity
  | cache_grows
  | intros i j ? ? Hi Hj Hlt; destruct i, j; cbn in Hi, Hj; try discriminate; lia
  | intros i ? Hi; destruct i as [|i]; [|discriminate Hi];
    cbn in Hi; injection Hi as <-;
    refine (conj _ (conj _ (conj _ _)));
    [ cbn; lia | cbn; auto | not_held | settle_outcome ]
  | intros [] Hrank; cbn in *; first [reflexivity | exfalso; lia] ].

Lemma wiki_fetches (env : Env) (topic : Topic.t) (v : CachingComputor.Vars.t) (st : State) :
  exists v' st',
    bind (CachingComputor.resolveTitle env topic (now env) v)
      (fun v1 => CachingComputor.resolveViews env (clock env) (now env) v1) st
    = (Normal v', st') /\
    fetches env topic 2 4 v st v' st'.
Proof.
  unfold CachingComputor.resolveTitle, CachingComputor.resolveViews,
    CachingComputor.fetchWikipediaTitle, CachingComputor.fetchWikipediaViews12Months,
    CachingComputor.setBackoff, try_catch, bind, ret, axios_get, console_call.
  cbv zeta. wiki_cases.
  all: do 2 eexists; (split; [reflexivity|]).
  all: cbn in *; tidy_tests; unfold CachingComputor.isFresh in *; try congruence.
  all: first
    [ no_fetch
    | one_fetch (TitleKey (Topic.name topic))
    | views_fetch
    | two_fetches (TitleKey (Topic.name topic)) ].
Qed.

Lemma fetches_quiet (env : Env) (topic : Topic.t) (lo hi : nat)
    (v : CachingComputor.Vars.t) (st st' : State) :
  calls st' = calls st -> fetches env topic lo hi v st v st'.
Proof.
  intros Hcalls. exists []. cbn. rewrite app_nil_r.
  refine (conj Hcalls (conj (cacheGrows_refl _) (conj _ (conj _ _)))).
  - intros i j key key' Hi. discriminate Hi.
  - intros i key Hi. discriminate Hi.
  - reflexivity.
Qed.

(** One call as a sequence of fetches: it returns, with the signals its
    variables hold at the end and the composites computed from them. *)
Lemma caching_call_fetches (env : Env) (topic : Topic.t)
    (runCache : CachingComputor.RunCache.t) (st : State) :
  exists raw v' st',
    CachingComputor.computeRawIndicatorsForTopic env topic runCache st
    = (Normal (raw, Topic.set_metrics (CachingComputor.Vars.metrics v') topic,
               CachingComputor.Vars.runCache v'), st') /\
    fetches env topic 0 4 (initialVars topic runCache) st v' st' /\
    let signals := CachingComputor.metrics raw in
    CachingComputor.citedByCount signals = CachingComputor.Vars.citedByCount v' /\
    CachingComputor.worksCount signals = CachingComputor.Vars.worksCount v' /\
    CachingComputor.worksLast12Months signals = CachingComputor.Vars.worksLast12Months v' /\
    CachingComputor.wikiViews12Months signals = CachingComputor.Vars.wikiViews12Months v' /\
    CachingComputor.estimatedCitations12Months signals
    = estimateCitations12m (Some (CachingComputor.citedByCount signals))
        (Some (CachingComputor.worksCount signals))
        (Some (CachingComputor.worksLast12Months signals)) /\
    CachingComputor.impactRaw raw
    = (impact_citations INDICATOR_WEIGHTS * log10p (CachingComputor.citedByCount signals)
       + impact_works INDICATOR_WEIGHTS * log10p (CachingComputor.worksCount signals)
       + impact_wikiViews INDICATOR_WEIGHTS
         * log10p (CachingComputor.wikiViews12Months signals))%R /\
    CachingComputor.activityRaw raw
    = (activity_works12m INDICATOR_WEIGHTS
       * log10p (CachingComputor.worksLast12Months signals)
       + activity_citations12m INDICATOR_WEIGHTS
         * log10p (CachingComputor.estimatedCitations12Months signals)
       + activity_wikiViews INDICATOR_WEIGHTS
         * log10p (CachingComputor.wikiViews12Months signals))%R.
Proof.
  unfold CachingComputor.computeRawIndicatorsForTopic, getLast12MonthsRange.
  cbv zeta. fold (initialVars topic runCache).
  match goal with |- context [bind ?c _ st] =>
    assert (H1 : exists v1 st1, c st = (Normal v1, st1) /\
                 fetches env topic 0 2 (initialVars topic runCache) st v1 st1);
    [|destruct H1 as (v1 & st1 & Hrun1 & Hfacts1); rewrite (bind_normal _ _ _ _ _ Hrun1)]
  end.
  { match goal with |- context [if ?b then _ else _] => destruct b end.
    - apply (bind_fetches env topic 0 1 2); [lia|apply resolveTotals_fetches|].
      intros v1 st1. apply resolveWorks12m_fetches.
    - match goal with |- context [if ?b then _ else _] => destruct b end.
      + unfold bind, console_call, ret. do 2 eexists. split; [reflexivity|].
        apply fetches_quiet. reflexivity.
      + unfold ret. do 2 eexists. split; [reflexivity|]. apply fetches_refl. }
  match goal with |- context [bind ?c _ st1] =>
    assert (H2 : exists v2 st2, c st1 = (Normal v2, st2) /\
                 fetches env topic 2 4 v1 st1 v2 st2);
    [|destruct H2 as (v2 & st2 & Hrun2 & Hfacts2); rewrite (bind_normal _ _ _ _ _ Hrun2)]
  end.
  { match goal with |- context [if ?b then _ else _] => destruct b end.
    - apply wiki_fetches.
    - unfold ret. do 2 eexists. split; [reflexivity|]. apply fetches_refl. }
  unfold ret. do 3 eexists. split; [reflexivity|].
  split; [exact (fetches_trans env topic 0 2 4 _ _ _ _ _ _ ltac:(lia) Hfacts1 Hfacts2)|].
  cbn. repeat split; reflexivity.
Qed.

(** ** A source that fails *)

(** C7.  With the metrics cache the computation of a Topic always
    returns, whatever the run cache holds and whatever the providers
    answer.  Its requests are the fetches of keys of the Topic, and when
    one of them is refused, by the answer of the provider to that request
    at the moment it is issued, the signals that source feeds are the
    values of the snapshot the Topic came with ([0] where the snapshot
    holds none): the totals for the totals, the trailing works for the
    trailing works, the page views for the title search and for the page
    views.  The composites are computed from the signals as always. *)
Theorem refused_source_keeps_cached_value (env : Env) (topic : Topic.t)
    (runCache : CachingComputor.RunCache.t) (st : State) :
  exists raw topic' runCache' st' keys,
    CachingComputor.computeRawIndicatorsForTopic env topic runCache st
    = (Normal (raw, topic', runCache'), st') /\
    calls st' = calls st ++ map (requestOf (clock env)) keys /\
    (forall key, key ∈ keys -> ownKey topic key) /\
    let signals := CachingComputor.metrics raw in
    let snapshot := Topic.metrics topic in
    (forall i key e,
        keys !! i = Some key ->
        http env (calls st ++ map (requestOf (clock env)) (take i keys))
          (requestOf (clock env) key) = inl e ->
        match key with
        | TotalsKey _ =>
            CachingComputor.citedByCount signals
            = Js.orZero (Some (Openalex.citedByCount (openalex snapshot))) /\
            CachingComputor.worksCount signals
            = Js.orZero (Some (Openalex.worksCount (openalex snapshot)))
        | WorksKey _ =>
            CachingComputor.worksLast12Months signals
            = Js.orZero (Some (Openalex.worksLast12Months (openalex snapshot)))
        | TitleKey _ | ViewsKey _ =>
            CachingComputor.wikiViews12Months signals
            = Js.orZero (Some (Wikipedia.views12Months (wikipedia snapshot)))
        end) /\
    CachingComputor.estimatedCitations12Months signals
    = estimateCitations12m (Some (CachingComputor.citedByCount signals))
        (Some (CachingComputor.worksCount signals))
        (Some (CachingComputor.worksLast12Months signals)) /\
    CachingComputor.impactRaw raw
    = (impact_citations INDICATOR_WEIGHTS * log10p (CachingComputor.citedByCount signals)
       + impact_works INDICATOR_WEIGHTS * log10p (CachingComputor.worksCount signals)
       + impact_wikiViews INDICATOR_WEIGHTS
         * log10p (CachingComputor.wikiViews12Months signals))%R /\
    CachingComputor.activityRaw raw
    = (activity_works12m INDICATOR_WEIGHTS
       * log10p (CachingComputor.worksLast12Months signals)
       + activity_citations12m INDICATOR_WEIGHTS
         * log10p (CachingComputor.estimatedCitations12Months signals)
       + activity_wikiViews INDICATOR_WEIGHTS
         * log10p (CachingComputor.wikiViews12Months signals))%R.
Proof.
  destruct (caching_call_fetches env topic runCache st)
    as (raw & v' & st' & Hrun & (keys & Hcalls & _ & _ & Hkeys & _)
        & Hcited & Hworks & Hworks12m & Hviews & Hestimate & Himpact & Hactivity).
  exists raw, (Topic.set_metrics (CachingComputor.Vars.metrics v') topic),
    (CachingComputor.Vars.runCache v'), st', keys.
  split; [exact Hrun|]. split; [exact Hcalls|].
  split.
  { intros key Hkey. apply list_elem_of_lookup in Hkey as [i Hi].
    exact (proj1 (proj2 (Hkeys i key Hi))). }
  cbv zeta. split; [|exact (conj Hestimate (conj Himpact Hactivity))].
  intros i key e Hi Hrefused.
  destruct (Hkeys i key Hi) as (_ & _ & _ & Hout).
  unfold fetchOutcome in Hout. rewrite Hrefused in Hout.
  destruct key; cbn in Hout; injection Hout as Hout; rewrite ?Hcited, ?Hworks, ?Hworks12m, ?Hviews;
    try split; assumption.
Qed.

(** The Topic of the test file with timestamps that are forty days old and
    a provider that refuses every request: three fetches, and the signals
    are the values of the snapshot. *)
Example stale_snapshot_survives_refusal :
  let run := CachingComputor.computeRawIndicatorsForTopic throttledEnv staleTopic
               CachingComputor.createRunCache (initialState []) in
  calls (snd run)
  = [getTopic "T-CACHED"; getWorks "T-CACHED"; getPageviews "Cached_Topic"] /\
  (fun result => CachingComputor.metrics (fst (fst result))) <$> returned (fst run)
  = Some {| CachingComputor.citedByCount := 500; CachingComputor.worksCount := 50;
            CachingComputor.worksLast12Months := 5;
            CachingComputor.wikiViews12Months := 2500;
            CachingComputor.estimatedCitations12Months := 5 * (500 / 50);
            CachingComputor.backoffActive := false |}.
Proof. repeat split. Qed.

(** A Topic that was never fetched, with the same provider: the signals
    are [0]. *)
Example unfetched_source_contributes_zero :
  let run := CachingComputor.computeRawIndicatorsForTopic throttledEnv throttledTopic
               CachingComputor.createRunCache (initialState []) in
  calls (snd run) = [getTopic "T-A"; getWorks "T-A"; getSearch "Topic A"] /\
  (fun result => CachingComputor.metrics (fst (fst result))) <$> returned (fst run)
  = Some {| CachingComputor.citedByCount := 0; CachingComputor.worksCount := 0;
            CachingComputor.worksLast12Months := 0;
            CachingComputor.wikiViews12Months := 0;
            CachingComputor.estimatedCitations12Months := 0;
            CachingComputor.backoffActive := false |}.
Proof. repeat split. Qed.

(** ** One run cache for a batch *)




(** ** A Topic whose sources are fresh *)







(** ** A failed title search *)

(** C2.  A Topic that was never fetched and a provider that refuses every
    request, computed through [computeImpactForTopic]: the three fetches
    fail, the document in the store has the backoff at the current instant plus
    [BACKOFF_MS] and the text of the last failure, the values and the two
    timestamps of the first provider are as they were, and a second
    computation at the same instant issues no request.  But the document
    has [wikipedia.lastFetchedAt] at the current instant, though
    no fetch of that source succeeded: when the cooldown is over and the
    provider answers again, the totals and the trailing works are fetched
    and neither the title nor the page views are asked for, as they are
    for a Topic that was never computed. *)
Theorem failed_search_stamps_wikipedia :
  let run1 :=
    CachingComputor.computeImpactForTopic throttledEnv throttledTopic
      (initialState [throttledTopic]) in
  let topic1 := default throttledTopic (head (collection (snd run1))) in
  let before := Topic.metrics throttledTopic in
  let after := Topic.metrics topic1 in
  calls (snd run1) = [getTopic "T-A"; getWorks "T-A"; getSearch "Topic A"] /\
  backoffUntil after = Some (todayMs + CachingComputor.BACKOFF_MS) /\
  lastError after = Some "wikipedia-search: Request failed with status code 429" /\
  openalex after = openalex before /\
  Wikipedia.lastFetchedAt (wikipedia before) = None /\
  Wikipedia.lastFetchedAt (wikipedia after) = Some todayMs /\
  calls (snd (CachingComputor.computeImpactForTopic throttledEnv topic1 (snd run1)))
  = calls (snd run1) /\
  now recoveredEnv = todayMs + CachingComputor.BACKOFF_MS /\
  calls (snd (CachingComputor.computeRawIndicatorsForTopic recoveredEnv topic1
                CachingComputor.createRunCache (initialState [])))
  = [getTopic "T-A"; getWorks "T-A"] /\
  calls (snd (CachingComputor.computeRawIndicatorsForTopic recoveredEnv throttledTopic
                CachingComputor.createRunCache (initialState [])))
  = [getTopic "T-A"; getWorks "T-A"; getSearch "Topic A"; getPageviews "Topic_A"].
Proof. repeat split. Qed.

(** A fetch that is answered resets [lastError], also after an earlier
    fetch of the same computation has failed: with the totals refused and
    the other requests answered the backoff is set and [lastError] is
    [null]. *)
Example later_answer_resets_lastError :
  let run :=
    CachingComputor.computeImpactForTopic partialEnv throttledTopic
      (initialState [throttledTopic]) in
  let after := Topic.metrics (default throttledTopic (head (collection (snd run)))) in
  calls (snd run)
  = [getTopic "T-A"; getWorks "T-A"; getSearch "Topic A"; getPageviews "Topic_A"] /\
  backoffUntil after = Some (todayMs + CachingComputor.BACKOFF_MS) /\
  lastError after = None.
Proof. repeat split. Qed.

(** ** The date range *)

Lemma plain_facts (n : nat) (s : string) :
  plain n s = true -> String.length s = n /\ removeDashes s = s.
Proof.
  unfold plain. intros H. apply andb_prop in H as [Hlength Hchars].
  apply Nat.eqb_eq in Hlength. split; [exact Hlength|]. clear Hlength.
  induction s as [|c s IH]; [reflexivity|].
  cbn [allChars] in Hchars. apply andb_prop in Hchars as [Hc Hchars].
  cbn [removeDashes]. apply negb_true_iff in Hc. rewrite Hc, (IH Hchars). reflexivity.
Qed.

Lemma removeDashes_app (a b : string) :
  removeDashes (a +:+ b) = removeDashes a +:+ removeDashes b.
Proof.
  induction a as [|c a IH]; [reflexivity|].
  change (String c a +:+ b) with (String c (a +:+ b)).
  cbn [removeDashes]. destruct (Ascii.eqb c "-"); [exact IH|].
  change (String c (removeDashes a) +:+ removeDashes b)
    with (String c (removeDashes a +:+ removeDashes b)).
  rewrite IH. reflexivity.
Qed.

Lemma length_app (a b : string) :
  String.length (a +:+ b) = (String.length a + String.length b)%nat.
Proof.
  induction a as [|c a IH]; [reflexivity|].
  change (String c a +:+ b) with (String c (a +:+ b)).
  cbn [String.length]. rewrite IH. reflexivity.
Qed.

Lemma checked_range (check : Z -> bool) (first count : Z) :
  forallb check (map (fun k => first + Z.of_nat k) (seq 0 (Z.to_nat count))) = true ->
  forall n, first <= n < first + count -> check n = true.
Proof.
  intros Hall n Hn. rewrite forallb_forall in Hall. apply Hall.
  apply in_map_iff. exists (Z.to_nat (n - first)). split; [lia|].
  apply in_seq. lia.
Qed.

Lemma year_is_plain (year : Z) :
  1000 <= year <= 9999 -> plain 4 (Dates.text year) = true.
Proof.
  intros Hyear.
  apply (checked_range (fun y => plain 4 (Dates.text y)) 1000 9000); [|lia].
  vm_compute. reflexivity.
Qed.

Lemma day_is_plain (n : Z) :
  1 <= n <= 31 -> plain 2 (Dates.padStart 2 (Dates.text n)) = true.
Proof.
  intros Hn.
  apply (checked_range (fun k => plain 2 (Dates.padStart 2 (Dates.text k))) 1 31); [|lia].
  vm_compute. reflexivity.
Qed.

Lemma formats_agree (d : Dates.t) :
  1000 <= Dates.UTCFullYear d <= 9999 ->
  0 <= Dates.UTCMonth d <= 11 -> 1 <= Dates.UTCDate d <= 31 ->
  removeDashes (Dates.formatDateISO d) = Dates.formatDateYYYYMMDD d /\
  String.length (Dates.formatDateISO d) = 10%nat /\
  String.length (Dates.formatDateYYYYMMDD d) = 8%nat.
Proof.
  intros Hyear Hmonth Hday.
  destruct (plain_facts _ _ (year_is_plain _ Hyear)) as [Hy1 Hy2].
  destruct (plain_facts _ _ (day_is_plain (Dates.UTCMonth d + 1) ltac:(lia))) as [Hm1 Hm2].
  destruct (plain_facts _ _ (day_is_plain _ Hday)) as [Hd1 Hd2].
  unfold Dates.formatDateISO, Dates.formatDateYYYYMMDD. cbv zeta.
  replace ((0 <=? Dates.UTCFullYear d) && (Dates.UTCFullYear d <=? 9999)) with true
    by (symmetry; apply andb_true_intro; split; apply Z.leb_le; lia).
  assert (Hpad : Dates.padStart 4 (Dates.text (Dates.UTCFullYear d))
                 = Dates.text (Dates.UTCFullYear d)).
  { unfold Dates.padStart. rewrite Hy1. reflexivity. }
  rewrite Hpad, !removeDashes_app, !length_app, Hy1, Hy2, Hm1, Hm2, Hd1, Hd2.
  repeat split; reflexivity.
Qed.

Lemma daysInMonth_bound (year month : Z) : Dates.daysInMonth year month <= 31.
Proof.
  unfold Dates.daysInMonth.
  repeat match goal with |- context [if ?b then _ else _] => destruct b end; lia.
Qed.

Lemma year_before_leap (year : Z) :
  Dates.isLeap year = true -> Dates.isLeap (year - 1) = false.
Proof.
  unfold Dates.isLeap. intros H.
  assert (H4 : year mod 4 = 0).
  { destruct (Z.eqb_spec (year mod 4) 0) as [H4|H4]; [exact H4|].
    destruct (Z.eqb_spec (year mod 400) 0) as [H400|H400]; [|discriminate].
    clear H. Z.to_euclidean_division_equations. lia. }
  assert (H4' : (year - 1) mod 4 <> 0) by (Z.to_euclidean_division_equations; lia).
  assert (H400' : (year - 1) mod 400 <> 0) by (Z.to_euclidean_division_equations; lia).
  apply Z.eqb_neq in H4', H400'. rewrite H4', H400'. reflexivity.
Qed.

(** X26.  For a current date of the calendar in the years 1001 to 9999 the
    range starts one year earlier: on the same day of the same month, or,
    when the current date is a 29th of February, on the first of March of
    the year before.  Its four texts are the two forms of that start and
    of the current date; the compact forms are the ISO forms without their
    hyphens, eight and ten characters long. *)
Theorem date_range_forms_agree (current : Dates.t) :
  Dates.valid current ->
  1000 < Dates.UTCFullYear current <= 9999 ->
  let range := Dates.getLast12MonthsRange current in
  let start :=
    if (Dates.UTCMonth current =? 1) && (Dates.UTCDate current =? 29)
    then {| Dates.UTCFullYear := Dates.UTCFullYear current - 1;
            Dates.UTCMonth := 2; Dates.UTCDate := 1 |}
    else {| Dates.UTCFullYear := Dates.UTCFullYear current - 1;
            Dates.UTCMonth := Dates.UTCMonth current;
            Dates.UTCDate := Dates.UTCDate current |} in
  Dates.valid start /\
  startDate range = Dates.formatDateISO start /\
  startCompact range = Dates.formatDateYYYYMMDD start /\
  endDate range = Dates.formatDateISO current /\
  endCompact range = Dates.formatDateYYYYMMDD current /\
  removeDashes (startDate range) = startCompact range /\
  removeDashes (endDate range) = endCompact range /\
  String.length (startDate range) = 10%nat /\ String.length (endDate range) = 10%nat /\
  String.length (startCompact range) = 8%nat /\ String.length (endCompact range) = 8%nat.
Proof.
  intros [Hmonth Hday] Hyear range start.
  pose proof (daysInMonth_bound (Dates.UTCFullYear current) (Dates.UTCMonth current)) as Hbound.
  assert (Hset : Dates.setUTCFullYear (Dates.UTCFullYear current - 1) current = start).
  { subst start. unfold Dates.setUTCFullYear.
    destruct ((Dates.UTCMonth current =? 1) && (Dates.UTCDate current =? 29)) eqn:Hday29;
      [|reflexivity].
    apply andb_prop in Hday29 as [Hfeb H29].
    apply Z.eqb_eq in Hfeb, H29.
    assert (Hleap : Dates.isLeap (Dates.UTCFullYear current) = true).
    { unfold Dates.daysInMonth in Hday. rewrite Hfeb in Hday. cbn in Hday.
      destruct (Dates.isLeap (Dates.UTCFullYear current)); [reflexivity|lia]. }
    rewrite (year_before_leap _ Hleap). reflexivity. }
  assert (Hvalid : Dates.valid start).
  { subst start. unfold Dates.valid.
    destruct (Z.eqb_spec (Dates.UTCMonth current) 1) as [Hfeb|Hfeb];
      destruct (Z.eqb_spec (Dates.UTCDate current) 29) as [H29|H29]; cbn.
    all: unfold Dates.daysInMonth in *; cbn in *.
    all: try rewrite Hfeb in *; cbn in *.
    all: repeat match goal with
         | |- context [if ?b then _ else _] => destruct b eqn:?
         | H : context [if ?b then _ else _] |- _ => destruct b eqn:?
         end.
    all: repeat split; lia. }
  pose proof Hvalid as [Hmonth' Hday'].
  pose proof (daysInMonth_bound (Dates.UTCFullYear start) (Dates.UTCMonth start)) as Hbound'.
  assert (Hyear' : Dates.UTCFullYear start = Dates.UTCFullYear current - 1).
  { subst start. destruct (_ && _); reflexivity. }
  destruct (formats_agree start) as (Hs1 & Hs2 & Hs3); [lia|lia|lia|].
  destruct (formats_agree current) as (He1 & He2 & He3); [lia|lia|lia|].
  subst range. unfold Dates.getLast12MonthsRange. cbv zeta.
  cbn [startDate endDate startCompact endCompact]. rewrite Hset.
  split; [exact Hvalid|]. repeat split; first [assumption | reflexivity].
Qed.

Lemma date_range_forms_agree_witness :
  let range :=
    Dates.getLast12MonthsRange
      {| Dates.UTCFullYear := 2024; Dates.UTCMonth := 1; Dates.UTCDate := 29 |} in
  let start := {| Dates.UTCFullYear := 2023; Dates.UTCMonth := 2; Dates.UTCDate := 1 |} in
  Dates.valid start /\
  startDate range = Dates.formatDateISO start /\
  startCompact range = Dates.formatDateYYYYMMDD start /\
  removeDashes (startDate range) = startCompact range /\
  removeDashes (endDate range) = endCompact range.
Proof.
  destruct (date_range_forms_agree
              {| Dates.UTCFullYear := 2024; Dates.UTCMonth := 1; Dates.UTCDate := 29 |})
    as (Hvalid & Hstart & Hcompact & _ & _ & Hs & He & _).
  - unfold Dates.valid. cbn [Dates.UTCFullYear Dates.UTCMonth Dates.UTCDate].
    change (Dates.daysInMonth 2024 1) with 29. lia.
  - cbn [Dates.UTCFullYear]. lia.
  - exact (conj Hvalid (conj Hstart (conj Hcompact (conj Hs He)))).
Defined.

Example range_of_the_fixture :
  Dates.getLast12MonthsRange
    {| Dates.UTCFullYear := 2026; Dates.UTCMonth := 10; Dates.UTCDate := 2 |} = today.
Proof. reflexivity. Qed.

Example range_of_a_leap_day :
  Dates.getLast12MonthsRange
    {| Dates.UTCFullYear := 2024; Dates.UTCMonth := 1; Dates.UTCDate := 29 |}
  = {| startDate := "2023-03-01"; endDate := "2024-02-29";
       startCompact := "20230301"; endCompact := "20240229" |}.
Proof. reflexivity. Qed.

